(** * Worker-side task handling of the Cadence Go client

    A shallow embedding of [internal/internal_task_handlers.go]: the history
    reorderer, the replay matcher, the cached workflow execution context with
    its sticky cache, the workflow task handler and the heartbeat invoker.

    Conventions of the embedding.
    - Go's [int64] event ids are [Z]; the one addition on them
      ([previousStartedEventID+1]) is written with its wrap-around.
    - A Go string or [[]byte] is a [string] (a sequence of bytes).
    - A slice whose nil-ness the code tests is a [slice] (an optional list);
      every other slice is a list.
    - A pointer whose nil-ness the code tests is an [option].
    - The thrift structures are read through their generated getters, so a
      record field holds what the getter returns, and a getter on an absent
      structure returns the zero value.  Where the code reads a field of a
      structure directly, an absent structure is a nil pointer dereference.
    - A Go function that returns [(value, error)] returns a pair whose second
      component is an [option error]; a panic and a loop that uses up its
      fuel are results of the [res] monad. *)

From Stdlib Require Import ZArith String Ascii Lia Bool SpecFloat.
From stdpp Require Import base option list strings gmap.

(** ** Results of a Go function: a value, a run-time panic, or no value within the fuel *)

Inductive res (A : Type) : Type :=
  | Ret (a : A)
  | Panic (msg : string)
  | Diverge.
Arguments Ret {A} a.
Arguments Panic {A} msg.
Arguments Diverge {A}.

#[global] Instance res_bind : MBind res := fun A B k m =>
  match m with
  | Ret a => k a
  | Panic msg => Panic msg
  | Diverge => Diverge
  end.

(** ** Slices whose nil-ness is observed *)

Definition slice (A : Type) : Type := option (list A).

Definition elems {A} (s : slice A) : list A := default [] s.
Definition len {A} (s : slice A) : nat := length (elems s).
(** [append(s, x)]: never nil. *)
Definition append {A} (s : slice A) (x : A) : slice A := Some (elems s ++ [x]).
(** ** The thrift data model ([.gen/go/shared]) *)

(** The generated enumeration [shared.EventType] is not part of this file: its
    constructors here are the constants the file names, and [EventTypeOther]
    stands for every other value of the enumeration (activity completed,
    timer fired, signal received, ...), by its number. *)
Inductive EventType : Type :=
  | EventTypeWorkflowExecutionStarted
  | EventTypeWorkflowExecutionCompleted
  | EventTypeWorkflowExecutionFailed
  | EventTypeWorkflowExecutionCanceled
  | EventTypeWorkflowExecutionContinuedAsNew
  | EventTypeDecisionTaskScheduled
  | EventTypeDecisionTaskStarted
  | EventTypeDecisionTaskCompleted
  | EventTypeDecisionTaskTimedOut
  | EventTypeDecisionTaskFailed
  | EventTypeActivityTaskScheduled
  | EventTypeActivityTaskStarted
  | EventTypeActivityTaskCancelRequested
  | EventTypeRequestCancelActivityTaskFailed
  | EventTypeTimerStarted
  | EventTypeTimerCanceled
  | EventTypeCancelTimerFailed
  | EventTypeMarkerRecorded
  | EventTypeStartChildWorkflowExecutionInitiated
  | EventTypeRequestCancelExternalWorkflowExecutionInitiated
  | EventTypeSignalExternalWorkflowExecutionInitiated
  | EventTypeOther (code : Z).

#[global] Instance EventType_eq_dec : EqDecision EventType.
Proof. solve_decision. Defined.

(** The attributes of an event: the thrift union, of which an event carries
    the member of its type.  A getter on an absent member returns the zero
    value, as the generated getters do. *)
Inductive EventAttributes : Type :=
  | NoEventAttributes
  | WorkflowExecutionStartedEventAttributes
      (TaskList : option string)
      (ExecutionStartToCloseTimeoutSeconds TaskStartToCloseTimeoutSeconds Attempt : Z)
  | WorkflowExecutionCompletedEventAttributes (Result : string)
  | WorkflowExecutionFailedEventAttributes (Reason Details : string)
  | WorkflowExecutionCanceledEventAttributes (Details : string)
  | ActivityTaskScheduledEventAttributes (ActivityId ActivityType TaskList Input : string)
  | ActivityTaskCancelRequestedEventAttributes (ActivityId : string)
  | RequestCancelActivityTaskFailedEventAttributes (ActivityId : string)
  | TimerStartedEventAttributes (TimerId : string) (StartToFireTimeoutSeconds : Z)
  | TimerCanceledEventAttributes (TimerId : string)
  | CancelTimerFailedEventAttributes (TimerId : string)
  | MarkerRecordedEventAttributes (MarkerName : string)
  | StartChildWorkflowExecutionInitiatedEventAttributes (WorkflowType Domain TaskList : string)
  | RequestCancelExternalWorkflowExecutionInitiatedEventAttributes (Domain WorkflowId : string)
  | SignalExternalWorkflowExecutionInitiatedEventAttributes (Domain SignalName WorkflowId : string).

Record HistoryEvent : Type := mkHistoryEvent {
  EventId : Z;
  Timestamp : Z;
  GetEventType : EventType;
  EventAttrs : EventAttributes
}.

Inductive DecisionType : Type :=
  | DecisionTypeScheduleActivityTask
  | DecisionTypeRequestCancelActivityTask
  | DecisionTypeStartTimer
  | DecisionTypeCancelTimer
  | DecisionTypeCompleteWorkflowExecution
  | DecisionTypeFailWorkflowExecution
  | DecisionTypeCancelWorkflowExecution
  | DecisionTypeContinueAsNewWorkflowExecution
  | DecisionTypeRecordMarker
  | DecisionTypeStartChildWorkflowExecution
  | DecisionTypeRequestCancelExternalWorkflowExecution
  | DecisionTypeSignalExternalWorkflowExecution
  | DecisionTypeOther (code : Z).

#[global] Instance DecisionType_eq_dec : EqDecision DecisionType.
Proof. solve_decision. Defined.

Inductive DecisionAttributes : Type :=
  | NoDecisionAttributes
  | ScheduleActivityTaskDecisionAttributes (ActivityId ActivityType TaskList Input : string)
  | RequestCancelActivityTaskDecisionAttributes (ActivityId : string)
  | StartTimerDecisionAttributes (TimerId : string) (StartToFireTimeoutSeconds : Z)
  | CancelTimerDecisionAttributes (TimerId : string)
  | CompleteWorkflowExecutionDecisionAttributes (Result : string)
  | FailWorkflowExecutionDecisionAttributes (Reason Details : string)
  | CancelWorkflowExecutionDecisionAttributes (Details : string)
  | ContinueAsNewWorkflowExecutionDecisionAttributes
      (WorkflowType Input TaskList : string)
      (ExecutionStartToCloseTimeoutSeconds TaskStartToCloseTimeoutSeconds : Z)
  | RecordMarkerDecisionAttributes (MarkerName : string)
  | StartChildWorkflowExecutionDecisionAttributes (WorkflowType Domain TaskList : string)
  | RequestCancelExternalWorkflowExecutionDecisionAttributes (Domain WorkflowId : string)
  | SignalExternalWorkflowExecutionDecisionAttributes (Domain SignalName WorkflowId : string).

Record Decision : Type := mkDecision {
  GetDecisionType : DecisionType;
  DecisionAttrs : DecisionAttributes
}.

Record WorkflowQuery : Type := mkWorkflowQuery {
  GetQueryType : string;
  QueryArgs : string
}.

Record History : Type := mkHistory { Events : list HistoryEvent }.

Record PollForDecisionTaskResponse : Type := mkTask {
  TaskToken : string;
  GetWorkflowId : string;
  GetRunId : string;
  WorkflowTypeName : string;
  TaskHistory : option History;
  GetPreviousStartedEventId : Z;
  GetStartedEventId : Z;
  Query : option WorkflowQuery
}.

(** The events of [task.History], for the readers that come after a check
    or a replacement of a nil history: [ProcessWorkflowTask] of the task
    handler replaces a nil history by an empty one at its entry, and
    [ResetIfStale], which [ProcessWorkflowTask] of the context calls first,
    panics on a nil history before anything else reads it. *)
Definition HistoryEvents (task : PollForDecisionTaskResponse) : list HistoryEvent :=
  match TaskHistory task with
  | Some h => Events h
  | None => []
  end.

(** ** Errors *)

(** The error values the file tells apart by their dynamic type, and the
    plain errors of [errors.New] and [fmt.Errorf]. *)
Inductive error : Type :=
  | ErrorString (msg : string)
  | PanicError (value stackTrace : string)
  | CanceledError (details : string)
  | ContinueAsNewError
      (workflowType input taskListName : string)
      (executionStartToCloseTimeoutSeconds taskStartToCloseTimeoutSeconds : Z)
  | CustomError (reason details : string)
  | EntityNotExistsError (msg : string).

(** ** The history iterator *)

(** Modelled from the spec: [HistoryIterator] is an interface implemented
    outside this file, "a restartable paged cursor over a workflow's history,
    providing reset(), has_next_page(), get_next_page()".  The model is a
    finite list of page results and a cursor into it. *)
Record HistoryIterator : Type := mkIterator {
  pages : list (History + error);
  cursor : nat
}.

Definition Reset (it : HistoryIterator) : HistoryIterator :=
  mkIterator (pages it) 0.

Definition HasNextPage (it : HistoryIterator) : bool :=
  bool_decide (cursor it < length (pages it)).

Definition GetNextPage (it : HistoryIterator) : HistoryIterator * (History + error) :=
  match pages it !! cursor it with
  | Some r => (mkIterator (pages it) (S (cursor it)), r)
  | None => (it, inr (ErrorString "no more history pages"))
  end.

(** ** The history reorderer *)

Record workflowTask : Type := mkWorkflowTask {
  task : PollForDecisionTaskResponse;
  historyIterator : option HistoryIterator
}.

(** The [history] wrapper.  Its [eventsHandler] field is never read in this
    file and is left out. *)
Record history : Type := mkHistoryWrapper {
  hWorkflowTask : workflowTask;
  loadedEvents : list HistoryEvent;
  currentIndex : nat;
  next : slice HistoryEvent
}.

Definition newHistory (t : workflowTask) : history :=
  mkHistoryWrapper t (HistoryEvents (task t)) 0 None.

Definition isDecisionEvent (eventType : EventType) : bool :=
  match eventType with
  | EventTypeWorkflowExecutionCompleted
  | EventTypeWorkflowExecutionFailed
  | EventTypeWorkflowExecutionCanceled
  | EventTypeWorkflowExecutionContinuedAsNew
  | EventTypeActivityTaskScheduled
  | EventTypeActivityTaskCancelRequested
  | EventTypeRequestCancelActivityTaskFailed
  | EventTypeTimerStarted
  | EventTypeTimerCanceled
  | EventTypeCancelTimerFailed
  | EventTypeMarkerRecorded
  | EventTypeStartChildWorkflowExecutionInitiated
  | EventTypeRequestCancelExternalWorkflowExecutionInitiated
  | EventTypeSignalExternalWorkflowExecutionInitiated => true
  | _ => false
  end.

Definition IsReplayEvent (eh : history) (event : HistoryEvent) : bool :=
  (EventId event <=? GetPreviousStartedEventId (task (hWorkflowTask eh)))%Z
  || isDecisionEvent (GetEventType event).

(** The loop of [IsNextDecisionFailed], over the events from [currentIndex]. *)
Fixpoint scanNextDecision (events : list HistoryEvent) : bool :=
  match events with
  | [] => false
  | e :: rest =>
      match GetEventType e with
      | EventTypeDecisionTaskCompleted => false
      | EventTypeDecisionTaskTimedOut => true
      | EventTypeDecisionTaskFailed => true
      | _ => scanNextDecision rest
      end
  end.

Definition IsNextDecisionFailed (eh : history) : bool :=
  scanNextDecision (drop (currentIndex eh) (loadedEvents eh)).

Definition isPreloadMarkerEvent (event : HistoryEvent) : bool :=
  bool_decide (GetEventType event = EventTypeMarkerRecorded).

Definition hasMoreEvents (eh : history) : bool :=
  match historyIterator (hWorkflowTask eh) with
  | Some it => HasNextPage it
  | None => false
  end.

Definition setIterator (eh : history) (it : HistoryIterator) : history :=
  mkHistoryWrapper (mkWorkflowTask (task (hWorkflowTask eh)) (Some it))
    (loadedEvents eh) (currentIndex eh) (next eh).

Definition getMoreEvents (eh : history) : res (history * (History + error)) :=
  match historyIterator (hWorkflowTask eh) with
  | Some it => let '(it', r) := GetNextPage it in Ret (setIterator eh it', r)
  | None => Panic "nil pointer dereference"
  end.

Definition setLoaded (eh : history) (events : list HistoryEvent) (index : nat) : history :=
  mkHistoryWrapper (hWorkflowTask eh) events index (next eh).

Definition setNext (eh : history) (n : slice HistoryEvent) : history :=
  mkHistoryWrapper (hWorkflowTask eh) (loadedEvents eh) (currentIndex eh) n.

(** "shrink loaded events so it can be GCed" *)
Definition shrinkLoaded (eh : history) : history :=
  setLoaded eh (drop (currentIndex eh) (loadedEvents eh)) 0.

Definition HistoryBatch : Type :=
  history * slice HistoryEvent * slice HistoryEvent * option error.

(** The [OrderEvents] loop of [nextDecisionEvents].  One unit of fuel is one
    turn of the inner loop (a page is loaded) or of the outer loop (an event
    is looked at). *)
Fixpoint orderEvents (fuel : nat) (eh : history)
    (nextEvents markers : slice HistoryEvent) : res HistoryBatch :=
  match fuel with
  | O => Diverge
  | S fuel' =>
      if decide (currentIndex eh = length (loadedEvents eh)) then
        if negb (hasMoreEvents eh) then
          Ret (shrinkLoaded eh, nextEvents, markers, None)
        else
          '(eh1, page) ← getMoreEvents eh;
          match page with
          | inr err1 => Ret (eh1, nextEvents, markers, Some err1)
          | inl historyPage =>
              orderEvents fuel'
                (setLoaded eh1 (loadedEvents eh1 ++ Events historyPage) (currentIndex eh1))
                nextEvents markers
          end
      else
        match loadedEvents eh !! currentIndex eh with
        | None => Panic "index out of range"
        | Some event =>
            let advanced := setLoaded eh (loadedEvents eh) (S (currentIndex eh)) in
            match GetEventType event with
            | EventTypeDecisionTaskStarted =>
                if negb (IsNextDecisionFailed eh) then
                  Ret (shrinkLoaded advanced, append nextEvents event, markers, None)
                else orderEvents fuel' advanced nextEvents markers
            | EventTypeDecisionTaskCompleted
            | EventTypeDecisionTaskScheduled
            | EventTypeDecisionTaskTimedOut
            | EventTypeDecisionTaskFailed =>
                orderEvents fuel' advanced nextEvents markers
            | _ =>
                let markers' :=
                  if isPreloadMarkerEvent event then append markers event else markers in
                orderEvents fuel' advanced (append nextEvents event) markers'
            end
        end
  end.

(** The events and pages the loop can still look at: a bound on its turns. *)
Definition pendingPages (eh : history) : list (History + error) :=
  match historyIterator (hWorkflowTask eh) with
  | Some it => drop (cursor it) (pages it)
  | None => []
  end.

Definition pageSize (p : History + error) : nat :=
  match p with
  | inl h => S (length (Events h))
  | inr _ => 1
  end.

Definition pendingWork (eh : history) : nat :=
  (length (loadedEvents eh) - currentIndex eh) + sum_list (pageSize <$> pendingPages eh).

Definition nextDecisionEvents (eh : history) : res HistoryBatch :=
  if bool_decide (currentIndex eh = length (loadedEvents eh)) && negb (hasMoreEvents eh) then
    Ret (eh, Some [], Some [], None)
  else orderEvents (S (pendingWork eh)) eh None None.

Definition NextDecisionEvents (eh : history) : res HistoryBatch :=
  '(eh1, err) ←
    match next eh with
    | None =>
        '(eh0, nextEvents, _, err) ← nextDecisionEvents eh;
        Ret (setNext eh0 nextEvents, err)
    | Some _ => Ret (eh, None)
    end;
  match err with
  | Some e => Ret (eh1, None, None, Some e)
  | None =>
      let result := next eh1 in
      if bool_decide (0 < len result) then
        '(eh2, nextEvents, markers, err2) ← nextDecisionEvents eh1;
        Ret (setNext eh2 nextEvents, result, markers, err2)
      else Ret (eh1, result, None, None)
  end.

(** ** The replay matcher *)

(** [strings.LastIndex(name, sep)] for a separator of one byte: the index of
    its last occurrence, or -1. *)
Fixpoint LastIndexByte (name : string) (sep : ascii) : Z :=
  match name with
  | EmptyString => -1
  | String c rest =>
      let r := LastIndexByte rest sep in
      if (0 <=? r)%Z then (r + 1)%Z
      else if Ascii.eqb c sep then 0%Z else (-1)%Z
  end.

Definition lastPartOfName (name : string) : string :=
  let lastDotIdx := LastIndexByte name "." in
  if (lastDotIdx <? 0)%Z || (lastDotIdx =? Z.of_nat (String.length name) - 1)%Z then name
  else
    let from := Z.to_nat (lastDotIdx + 1) in
    substring from (String.length name - from) name.

(** Getters of the event attributes a decision is compared with. *)
Definition evActivityTaskScheduled (e : HistoryEvent) : string * string * string * string :=
  match EventAttrs e with
  | ActivityTaskScheduledEventAttributes id ty tl input => (id, ty, tl, input)
  | _ => ("", "", "", "")
  end.
Definition evActivityTaskCancelRequested_ActivityId (e : HistoryEvent) : string :=
  match EventAttrs e with ActivityTaskCancelRequestedEventAttributes id => id | _ => "" end.
Definition evRequestCancelActivityTaskFailed_ActivityId (e : HistoryEvent) : string :=
  match EventAttrs e with RequestCancelActivityTaskFailedEventAttributes id => id | _ => "" end.
Definition evTimerStarted (e : HistoryEvent) : string * Z :=
  match EventAttrs e with TimerStartedEventAttributes id t => (id, t) | _ => ("", 0%Z) end.
Definition evTimerCanceled_TimerId (e : HistoryEvent) : string :=
  match EventAttrs e with TimerCanceledEventAttributes id => id | _ => "" end.
Definition evCancelTimerFailed_TimerId (e : HistoryEvent) : string :=
  match EventAttrs e with CancelTimerFailedEventAttributes id => id | _ => "" end.
Definition evWorkflowExecutionCompleted_Result (e : HistoryEvent) : string :=
  match EventAttrs e with WorkflowExecutionCompletedEventAttributes r => r | _ => "" end.
Definition evWorkflowExecutionFailed (e : HistoryEvent) : string * string :=
  match EventAttrs e with WorkflowExecutionFailedEventAttributes r d => (r, d) | _ => ("", "") end.
Definition evWorkflowExecutionCanceled_Details (e : HistoryEvent) : string :=
  match EventAttrs e with WorkflowExecutionCanceledEventAttributes d => d | _ => "" end.
Definition evMarkerName (e : HistoryEvent) : string :=
  match EventAttrs e with MarkerRecordedEventAttributes n => n | _ => "" end.
Definition evRequestCancelExternal (e : HistoryEvent) : string * string :=
  match EventAttrs e with
  | RequestCancelExternalWorkflowExecutionInitiatedEventAttributes dom wid => (dom, wid)
  | _ => ("", "")
  end.
Definition evSignalExternal (e : HistoryEvent) : string * string * string :=
  match EventAttrs e with
  | SignalExternalWorkflowExecutionInitiatedEventAttributes dom sig wid => (dom, sig, wid)
  | _ => ("", "", "")
  end.
Definition evStartChildWorkflow (e : HistoryEvent) : string * string * string :=
  match EventAttrs e with
  | StartChildWorkflowExecutionInitiatedEventAttributes ty dom tl => (ty, dom, tl)
  | _ => ("", "", "")
  end.

(** Getters of the decision attributes. *)
Definition decScheduleActivityTask (d : Decision) : string * string * string * string :=
  match DecisionAttrs d with
  | ScheduleActivityTaskDecisionAttributes id ty tl input => (id, ty, tl, input)
  | _ => ("", "", "", "")
  end.
Definition decRequestCancelActivityTask_ActivityId (d : Decision) : string :=
  match DecisionAttrs d with RequestCancelActivityTaskDecisionAttributes id => id | _ => "" end.
Definition decStartTimer (d : Decision) : string * Z :=
  match DecisionAttrs d with StartTimerDecisionAttributes id t => (id, t) | _ => ("", 0%Z) end.
Definition decCancelTimer_TimerId (d : Decision) : string :=
  match DecisionAttrs d with CancelTimerDecisionAttributes id => id | _ => "" end.
Definition decCompleteWorkflow_Result (d : Decision) : string :=
  match DecisionAttrs d with CompleteWorkflowExecutionDecisionAttributes r => r | _ => "" end.
Definition decFailWorkflow (d : Decision) : string * string :=
  match DecisionAttrs d with FailWorkflowExecutionDecisionAttributes r dt => (r, dt) | _ => ("", "") end.
Definition decCancelWorkflow_Details (d : Decision) : string :=
  match DecisionAttrs d with CancelWorkflowExecutionDecisionAttributes dt => dt | _ => "" end.
Definition decMarkerName (d : Decision) : string :=
  match DecisionAttrs d with RecordMarkerDecisionAttributes n => n | _ => "" end.
Definition decRequestCancelExternal (d : Decision) : string * string :=
  match DecisionAttrs d with
  | RequestCancelExternalWorkflowExecutionDecisionAttributes dom wid => (dom, wid)
  | _ => ("", "")
  end.
Definition decSignalExternal (d : Decision) : string * string * string :=
  match DecisionAttrs d with
  | SignalExternalWorkflowExecutionDecisionAttributes dom sig wid => (dom, sig, wid)
  | _ => ("", "", "")
  end.
Definition decStartChildWorkflow (d : Decision) : string * string * string :=
  match DecisionAttrs d with
  | StartChildWorkflowExecutionDecisionAttributes ty dom tl => (ty, dom, tl)
  | _ => ("", "", "")
  end.

(** Whether the event, or the decision, carries the attribute structure that
    [isDecisionMatchEvent] reads a field of: reading a field (not calling a
    getter) through an absent one is a nil pointer dereference. *)
Definition evHasActivityTaskScheduled (e : HistoryEvent) : bool :=
  match EventAttrs e with ActivityTaskScheduledEventAttributes _ _ _ _ => true | _ => false end.
Definition evHasWorkflowExecutionCompleted (e : HistoryEvent) : bool :=
  match EventAttrs e with WorkflowExecutionCompletedEventAttributes _ => true | _ => false end.
Definition evHasWorkflowExecutionFailed (e : HistoryEvent) : bool :=
  match EventAttrs e with WorkflowExecutionFailedEventAttributes _ _ => true | _ => false end.
Definition evHasWorkflowExecutionCanceled (e : HistoryEvent) : bool :=
  match EventAttrs e with WorkflowExecutionCanceledEventAttributes _ => true | _ => false end.
Definition evHasRequestCancelExternal (e : HistoryEvent) : bool :=
  match EventAttrs e with
  | RequestCancelExternalWorkflowExecutionInitiatedEventAttributes _ _ => true
  | _ => false
  end.
Definition evHasSignalExternal (e : HistoryEvent) : bool :=
  match EventAttrs e with
  | SignalExternalWorkflowExecutionInitiatedEventAttributes _ _ _ => true
  | _ => false
  end.
Definition evHasStartChildWorkflow (e : HistoryEvent) : bool :=
  match EventAttrs e with
  | StartChildWorkflowExecutionInitiatedEventAttributes _ _ _ => true
  | _ => false
  end.
Definition decHasScheduleActivityTask (d : Decision) : bool :=
  match DecisionAttrs d with ScheduleActivityTaskDecisionAttributes _ _ _ _ => true | _ => false end.
Definition decHasCompleteWorkflow (d : Decision) : bool :=
  match DecisionAttrs d with CompleteWorkflowExecutionDecisionAttributes _ => true | _ => false end.
Definition decHasFailWorkflow (d : Decision) : bool :=
  match DecisionAttrs d with FailWorkflowExecutionDecisionAttributes _ _ => true | _ => false end.
Definition decHasCancelWorkflow (d : Decision) : bool :=
  match DecisionAttrs d with CancelWorkflowExecutionDecisionAttributes _ => true | _ => false end.
Definition decHasSignalExternal (d : Decision) : bool :=
  match DecisionAttrs d with
  | SignalExternalWorkflowExecutionDecisionAttributes _ _ _ => true
  | _ => false
  end.
Definition decHasStartChildWorkflow (d : Decision) : bool :=
  match DecisionAttrs d with
  | StartChildWorkflowExecutionDecisionAttributes _ _ _ => true
  | _ => false
  end.

Definition neqb (a b : string) : bool := negb (String.eqb a b).
Definition isType (e : HistoryEvent) (t : EventType) : bool := bool_decide (GetEventType e = t).

(** [isDecisionMatchEvent].  The conditions joined by [||] are evaluated from
    the left and stop at the first true one; a condition that reads a field
    of an absent attribute structure panics when it is reached. *)
Definition isDecisionMatchEvent (d : Decision) (e : HistoryEvent) (strictMode : bool)
  : res bool :=
  match GetDecisionType d with
  | DecisionTypeScheduleActivityTask =>
      if negb (isType e EventTypeActivityTaskScheduled) then Ret false
      else
        let '(eId, eType, eTaskList, eInput) := evActivityTaskScheduled e in
        let '(dId, dType, dTaskList, dInput) := decScheduleActivityTask d in
        if neqb eId dId then Ret false
        else if negb (evHasActivityTaskScheduled e) || negb (decHasScheduleActivityTask d)
        then Panic "nil pointer dereference"
        else if neqb (lastPartOfName eType) (lastPartOfName dType)
                || (strictMode && neqb eTaskList dTaskList)
                || (strictMode && neqb eInput dInput)
        then Ret false else Ret true
  | DecisionTypeRequestCancelActivityTask =>
      if negb (isType e EventTypeActivityTaskCancelRequested)
         && negb (isType e EventTypeRequestCancelActivityTaskFailed) then Ret false
      else
        let dId := decRequestCancelActivityTask_ActivityId d in
        if isType e EventTypeActivityTaskCancelRequested then
          if neqb (evActivityTaskCancelRequested_ActivityId e) dId then Ret false else Ret true
        else if isType e EventTypeRequestCancelActivityTaskFailed then
          if neqb (evRequestCancelActivityTaskFailed_ActivityId e) dId then Ret false
          else Ret true
        else Ret true
  | DecisionTypeStartTimer =>
      if negb (isType e EventTypeTimerStarted) then Ret false
      else
        let '(eId, eTimeout) := evTimerStarted e in
        let '(dId, dTimeout) := decStartTimer d in
        if neqb eId dId || (strictMode && negb (eTimeout =? dTimeout)%Z) then Ret false
        else Ret true
  | DecisionTypeCancelTimer =>
      if negb (isType e EventTypeTimerCanceled)
         && negb (isType e EventTypeCancelTimerFailed) then Ret false
      else
        let dId := decCancelTimer_TimerId d in
        if isType e EventTypeTimerCanceled then
          if neqb (evTimerCanceled_TimerId e) dId then Ret false else Ret true
        else if isType e EventTypeCancelTimerFailed then
          if neqb (evCancelTimerFailed_TimerId e) dId then Ret false else Ret true
        else Ret true
  | DecisionTypeCompleteWorkflowExecution =>
      if negb (isType e EventTypeWorkflowExecutionCompleted) then Ret false
      else if strictMode then
        if negb (evHasWorkflowExecutionCompleted e) || negb (decHasCompleteWorkflow d)
        then Panic "nil pointer dereference"
        else if neqb (evWorkflowExecutionCompleted_Result e) (decCompleteWorkflow_Result d)
        then Ret false else Ret true
      else Ret true
  | DecisionTypeFailWorkflowExecution =>
      if negb (isType e EventTypeWorkflowExecutionFailed) then Ret false
      else if strictMode then
        let '(eReason, eDetails) := evWorkflowExecutionFailed e in
        let '(dReason, dDetails) := decFailWorkflow d in
        if neqb eReason dReason then Ret false
        else if negb (evHasWorkflowExecutionFailed e) || negb (decHasFailWorkflow d)
        then Panic "nil pointer dereference"
        else if neqb eDetails dDetails then Ret false else Ret true
      else Ret true
  | DecisionTypeRecordMarker =>
      if negb (isType e EventTypeMarkerRecorded) then Ret false
      else if neqb (evMarkerName e) (decMarkerName d) then Ret false else Ret true
  | DecisionTypeRequestCancelExternalWorkflowExecution =>
      if negb (isType e EventTypeRequestCancelExternalWorkflowExecutionInitiated) then Ret false
      else
        let '(eDomain, eWorkflowId) := evRequestCancelExternal e in
        let '(dDomain, dWorkflowId) := decRequestCancelExternal d in
        if neqb eDomain dDomain then Ret false
        else if negb (evHasRequestCancelExternal e) then Panic "nil pointer dereference"
        else if neqb eWorkflowId dWorkflowId then Ret false else Ret true
  | DecisionTypeSignalExternalWorkflowExecution =>
      if negb (isType e EventTypeSignalExternalWorkflowExecutionInitiated) then Ret false
      else
        let '(eDomain, eSignal, eWorkflowId) := evSignalExternal e in
        let '(dDomain, dSignal, dWorkflowId) := decSignalExternal d in
        if neqb eDomain dDomain || neqb eSignal dSignal then Ret false
        else if negb (evHasSignalExternal e) || negb (decHasSignalExternal d)
        then Panic "nil pointer dereference"
        else if neqb eWorkflowId dWorkflowId then Ret false else Ret true
  | DecisionTypeCancelWorkflowExecution =>
      if negb (isType e EventTypeWorkflowExecutionCanceled) then Ret false
      else if strictMode then
        if negb (evHasWorkflowExecutionCanceled e) || negb (decHasCancelWorkflow d)
        then Panic "nil pointer dereference"
        else if neqb (evWorkflowExecutionCanceled_Details e) (decCancelWorkflow_Details d)
        then Ret false else Ret true
      else Ret true
  | DecisionTypeContinueAsNewWorkflowExecution =>
      if negb (isType e EventTypeWorkflowExecutionContinuedAsNew) then Ret false else Ret true
  | DecisionTypeStartChildWorkflowExecution =>
      if negb (isType e EventTypeStartChildWorkflowExecutionInitiated) then Ret false
      else
        let '(eType, eDomain, eTaskList) := evStartChildWorkflow e in
        let '(dType, dDomain, dTaskList) := decStartChildWorkflow d in
        if negb (evHasStartChildWorkflow e) || negb (decHasStartChildWorkflow d)
        then Panic "nil pointer dereference"
        else if neqb (lastPartOfName eType) (lastPartOfName dType)
                || (strictMode && neqb eDomain dDomain)
                || (strictMode && neqb eTaskList dTaskList)
        then Ret false else Ret true
  | DecisionTypeOther _ => Ret false
  end.

(** ** What the file uses of the rest of the SDK *)

(** Constants and printers declared in other files of the package: the marker
    names, and [util.HistoryEventToString] and [util.DecisionToString]. *)
Class SDK : Type := {
  versionMarkerName : string;
  mutableSideEffectMarkerName : string;
  localActivityMarkerName : string;
  HistoryEventToString : HistoryEvent -> string;
  DecisionToString : Decision -> string
}.

Record WorkflowInfo : Type := mkWorkflowInfo {
  InfoWorkflowId : string;
  InfoRunId : string;
  InfoWorkflowType : string;
  InfoTaskListName : string;
  InfoDomain : string;
  ExecutionStartToCloseTimeoutSeconds : Z;
  TaskStartToCloseTimeoutSeconds : Z;
  InfoAttempt : Z
}.

(** [workflowExecutionEventHandlerImpl]: the coroutine dispatcher, opaque here
    ([dispatcher]), and the two local-activity tables this file reads and
    writes, by activity id. *)
Record workflowExecutionEventHandlerImpl (St : Type) : Type := mkEventHandler {
  dispatcher : St;
  pendingLaTasks : list string;
  unstartedLaTasks : list string
}.
Arguments mkEventHandler {St}.
Arguments dispatcher {St}.
Arguments pendingLaTasks {St}.
Arguments unstartedLaTasks {St}.

(** The methods of the event handler that are implemented outside this file.
    The handler reaches the context only through the completion callback
    given to it at construction ([w.completeWorkflow]); a method yields the
    arguments of that callback when it calls it. *)
Class EventHandlerOps (St : Type) : Type := {
  newWorkflowExecutionEventHandler : WorkflowInfo -> workflowExecutionEventHandlerImpl St;
  ProcessEvent :
    workflowExecutionEventHandlerImpl St -> HistoryEvent -> bool -> bool ->
    workflowExecutionEventHandlerImpl St * option (string * option error) * option error;
  ProcessQuery :
    workflowExecutionEventHandlerImpl St -> string -> string ->
    workflowExecutionEventHandlerImpl St * string * option error;
  (** [decisionsHelper.getDecisions(true)] *)
  getDecisions :
    workflowExecutionEventHandlerImpl St -> workflowExecutionEventHandlerImpl St * list Decision
}.

Inductive NonDeterministicWorkflowPolicy : Type :=
  | NonDeterministicWorkflowPolicyBlockWorkflow
  | NonDeterministicWorkflowPolicyFailWorkflow
  | NonDeterministicWorkflowPolicyOther (n : Z).

Inductive pressurePointType : Type :=
  | pressurePointTypeDecisionTaskStartTimeout
  | pressurePointTypeActivityTaskScheduleTimeout
  | pressurePointTypeActivityTaskStartTimeout
  | pressurePointTypeDecisionTaskCompleted.

(** The worker owns one local-activity tunnel; a context points to it or to
    nothing. *)
Inductive tunnelPtr : Type := TheTunnel.

(** The fields of [workflowTaskHandlerImpl] that decide a result.  Loggers,
    metrics scopes, the host environment and the data converter are left
    out: this file only passes them on. *)
Record workflowTaskHandlerImpl : Type := mkTaskHandler {
  domain : string;
  identity : string;
  disableStickyExecution : bool;
  nonDeterministicWorkflowPolicy : NonDeterministicWorkflowPolicy;
  ppMgr : option (pressurePointType -> option error);
  handlerLaTunnel : option tunnelPtr
}.

Record ResetStickyTaskListRequest : Type := mkResetSticky {
  ResetDomain : string;
  ResetWorkflowId : string;
  ResetRunId : string
}.

Record localActivityTunnel : Type := mkTunnel {
  taskCh : list string;
  resultCh : list ResetStickyTaskListRequest
}.

Inductive QueryTaskCompletedType : Type :=
  | QueryTaskCompletedTypeCompleted
  | QueryTaskCompletedTypeFailed.

(** The requests [completeWorkflow] answers with. *)
Inductive response : Type :=
  | RespondQueryTaskCompletedRequest
      (taskToken : string) (CompletedType : QueryTaskCompletedType)
      (QueryResult : string) (ErrorMessage : option string)
  | RespondDecisionTaskFailedRequest (taskToken Details Identity : string)
  | RespondDecisionTaskCompletedRequest
      (taskToken : string) (Decisions : list Decision) (Identity : string)
      (ReturnNewDecisionTask ForceCreateNewDecisionTask : bool).

(** Modelled from the spec: [error.Error()], [NewCustomError] and
    [getErrorDetails] are declared in other files.  The spec has the custom
    error carry a reason and details ("CustomError / Generic — fails the
    workflow with reason + details") and the closing decision take both from
    the stored error ("Other error → FailWorkflowExecution { reason,
    details }"); the reasons of the other kinds are the package's reserved
    ones. *)
Definition errorMessage (e : error) : string :=
  match e with
  | ErrorString msg => msg
  | PanicError value _ => value
  | CanceledError _ => "CanceledError"
  | ContinueAsNewError _ _ _ _ _ => "ContinueAsNew"
  | CustomError reason _ => reason
  | EntityNotExistsError msg => msg
  end.

Definition NewCustomError (reason details : string) : error := CustomError reason details.

Definition getErrorDetails (e : error) : string * string :=
  match e with
  | CustomError reason details => (reason, details)
  | CanceledError details => ("cadenceInternal:Canceled", details)
  | PanicError value stackTrace => ("cadenceInternal:Panic", stackTrace)
  | _ => ("cadenceInternal:Generic", errorMessage e)
  end.

Section Matcher.
Context `{SDK}.

Definition skipDeterministicCheckForDecision (d : Decision) : bool :=
  if bool_decide (GetDecisionType d = DecisionTypeRecordMarker) then
    let markerName := decMarkerName d in
    if String.eqb markerName versionMarkerName
       || String.eqb markerName mutableSideEffectMarkerName
    then true else false
  else false.

Definition skipDeterministicCheckForEvent (e : HistoryEvent) : bool :=
  if bool_decide (GetEventType e = EventTypeMarkerRecorded) then
    let markerName := evMarkerName e in
    if String.eqb markerName versionMarkerName
       || String.eqb markerName mutableSideEffectMarkerName
    then true else false
  else false.

Definition errMissingReplayDecision (e : HistoryEvent) : error :=
  ErrorString ("nondeterministic workflow: missing replay decision for "
               +:+ HistoryEventToString e).
Definition errExtraReplayDecision (d : Decision) : error :=
  ErrorString ("nondeterministic workflow: extra replay decision for "
               +:+ DecisionToString d).
Definition errHistoryMismatch (e : HistoryEvent) (d : Decision) : error :=
  ErrorString ("nondeterministic workflow: history event is " +:+ HistoryEventToString e
               +:+ ", replay decision is " +:+ DecisionToString d).

(** The [matchLoop] of [matchReplayWithHistory]: the walk with the two
    indices [hi] and [di], on what is left of the two slices. *)
Fixpoint matchLoop (historyEvents : list HistoryEvent) (replayDecisions : list Decision)
    {struct historyEvents} : res (option error) :=
  match historyEvents with
  | e :: events' =>
      if skipDeterministicCheckForEvent e then matchLoop events' replayDecisions
      else
        (fix nextDecision (decisions : list Decision) : res (option error) :=
           match decisions with
           | d :: decisions' =>
               if skipDeterministicCheckForDecision d then nextDecision decisions'
               else
                 match isDecisionMatchEvent d e false with
                 | Ret matched =>
                     if negb matched then Ret (Some (errHistoryMismatch e d))
                     else matchLoop events' decisions'
                 | Panic msg => Panic msg
                 | Diverge => Diverge
                 end
           | [] => Ret (Some (errMissingReplayDecision e))
           end) replayDecisions
  | [] =>
      (fix nextDecision (decisions : list Decision) : res (option error) :=
         match decisions with
         | d :: decisions' =>
             if skipDeterministicCheckForDecision d then nextDecision decisions'
             else Ret (Some (errExtraReplayDecision d))
         | [] => Ret None
         end) replayDecisions
  end.

Definition matchReplayWithHistory (replayDecisions : list Decision)
    (historyEvents : list HistoryEvent) : res (option error) :=
  matchLoop historyEvents replayDecisions.

End Matcher.

(** ** The workflow execution context *)

(** The value of an [int64] computation whose exact result is [z]. *)
Definition wrap64 (z : Z) : Z := ((z + 2 ^ 63) mod 2 ^ 64 - 2 ^ 63)%Z.

Definition isFullHistory (events : list HistoryEvent) : bool :=
  match events with
  | [] => false
  | e :: _ => bool_decide (GetEventType e = EventTypeWorkflowExecutionStarted)
  end.

(** [resetHistory]: the iterator is an interface value; calling a method on a
    nil one panics. *)
Definition resetHistory (t : PollForDecisionTaskResponse) (it : option HistoryIterator)
  : res (PollForDecisionTaskResponse * option HistoryIterator * option error) :=
  match it with
  | None => Panic "nil pointer dereference"
  | Some it0 =>
      let '(it1, page) := GetNextPage (Reset it0) in
      match page with
      | inr e => Ret (t, Some it1, Some e)
      | inl firstPageHistory =>
          Ret (mkTask (TaskToken t) (GetWorkflowId t) (GetRunId t) (WorkflowTypeName t)
                 (Some firstPageHistory) (GetPreviousStartedEventId t) (GetStartedEventId t)
                 (Query t),
               Some it1, None)
      end
  end.

Section Context.
Context {St : Type} `{!EventHandlerOps St}.

(** [workflowExecutionContextImpl], the cached state of a run.  The mutex is
    in the store ([World]); the two time stamps only feed metrics and are
    left out. *)
Record workflowExecutionContextImpl : Type := mkContext {
  workflowInfo : WorkflowInfo;
  wth : workflowTaskHandlerImpl;
  eventHandler : option (workflowExecutionEventHandlerImpl St);
  isWorkflowCompleted : bool;
  result : string;
  err : option error;
  previousStartedEventID : Z;
  newDecisions : list Decision;
  currentDecisionTask : option PollForDecisionTaskResponse;
  laTunnel : option tunnelPtr
}.

Definition setEventHandler (w : workflowExecutionContextImpl)
    (h : option (workflowExecutionEventHandlerImpl St)) : workflowExecutionContextImpl :=
  mkContext (workflowInfo w) (wth w) h (isWorkflowCompleted w) (result w) (err w)
    (previousStartedEventID w) (newDecisions w) (currentDecisionTask w) (laTunnel w).

Definition setLaTunnel (w : workflowExecutionContextImpl) (t : option tunnelPtr)
  : workflowExecutionContextImpl :=
  mkContext (workflowInfo w) (wth w) (eventHandler w) (isWorkflowCompleted w) (result w)
    (err w) (previousStartedEventID w) (newDecisions w) (currentDecisionTask w) t.

Definition setNewDecisions (w : workflowExecutionContextImpl) (ds : list Decision)
  : workflowExecutionContextImpl :=
  mkContext (workflowInfo w) (wth w) (eventHandler w) (isWorkflowCompleted w) (result w)
    (err w) (previousStartedEventID w) ds (currentDecisionTask w) (laTunnel w).

(** The completion callback handed to the event handler. *)
Definition completeWorkflow (w : workflowExecutionContextImpl) (r : string)
    (e : option error) : workflowExecutionContextImpl :=
  mkContext (workflowInfo w) (wth w) (eventHandler w) true r e
    (previousStartedEventID w) (newDecisions w) (currentDecisionTask w) (laTunnel w).

Definition shouldResetStickyOnEviction (w : workflowExecutionContextImpl) : bool :=
  match err w with
  | None => negb (isWorkflowCompleted w)
  | Some _ => false
  end.

Definition isDestroyed (w : workflowExecutionContextImpl) : bool :=
  match eventHandler w with
  | None => true
  | Some _ => false
  end.

Definition clearCurrentTask (w : workflowExecutionContextImpl) : workflowExecutionContextImpl :=
  mkContext (workflowInfo w) (wth w) (eventHandler w) (isWorkflowCompleted w) (result w)
    (err w) (previousStartedEventID w) [] None (laTunnel w).

(** [clearState]; closing the handler releases its coroutines and has no
    other effect on the context, which then drops it. *)
Definition clearState (w : workflowExecutionContextImpl) : workflowExecutionContextImpl :=
  let w1 := clearCurrentTask w in
  mkContext (workflowInfo w1) (wth w1) None false "" None 0%Z [] (currentDecisionTask w1)
    (laTunnel w1).

Definition createEventHandler (w : workflowExecutionContextImpl) : workflowExecutionContextImpl :=
  let w1 := clearState w in
  setEventHandler w1 (Some (newWorkflowExecutionEventHandler (workflowInfo w1))).

Definition hasPendingLocalActivityWork (w : workflowExecutionContextImpl) : bool :=
  negb (isWorkflowCompleted w)
  && match eventHandler w with
     | Some h => bool_decide (0 < length (pendingLaTasks h))
     | None => false
     end.

Definition queueResetStickinessTask (w : workflowExecutionContextImpl)
    (tunnel : localActivityTunnel) : res localActivityTunnel :=
  let task :=
    mkResetSticky (InfoDomain (workflowInfo w)) (InfoWorkflowId (workflowInfo w))
      (InfoRunId (workflowInfo w)) in
  match laTunnel w with
  | None => Panic "nil pointer dereference"
  | Some _ => Ret (mkTunnel (taskCh tunnel) (resultCh tunnel ++ [task]))
  end.

Definition skipReplayCheck (w : workflowExecutionContextImpl) : res bool :=
  match currentDecisionTask w with
  | None => Panic "nil pointer dereference"
  | Some t =>
      Ret (match Query t with Some _ => true | None => false end
           || negb (isFullHistory (HistoryEvents t)))
  end.

Definition SetCurrentTask (w : workflowExecutionContextImpl)
    (t : PollForDecisionTaskResponse) : workflowExecutionContextImpl :=
  mkContext (workflowInfo w) (wth w) (eventHandler w) (isWorkflowCompleted w) (result w)
    (err w)
    (match Query t with
     | None => GetStartedEventId t
     | Some _ => previousStartedEventID w
     end)
    (newDecisions w) (Some t) (laTunnel w).

Definition TaskState : Type :=
  workflowExecutionContextImpl * PollForDecisionTaskResponse * option HistoryIterator
  * option error.

Definition resetStateIfDestroyed (w : workflowExecutionContextImpl)
    (t : PollForDecisionTaskResponse) (it : option HistoryIterator) : res TaskState :=
  if isDestroyed w then
    let w1 := createEventHandler w in
    if negb (isFullHistory (HistoryEvents t)) then
      '(t1, it1, e) ← resetHistory t it;
      Ret (w1, t1, it1, e)
    else Ret (w1, t, it, None)
  else Ret (w, t, it, None).

(** [ResetIfStale]: the first reader of [task.History] on the way through
    [ProcessWorkflowTask] of the context; it reads [task.History.Events]
    whatever the task is, so a nil history is a nil pointer dereference. *)
Definition ResetIfStale (w : workflowExecutionContextImpl)
    (t : PollForDecisionTaskResponse) (it : option HistoryIterator) : res TaskState :=
  match TaskHistory t with
  | None => Panic "nil pointer dereference"
  | Some _ =>
      match HistoryEvents t with
      | first :: _ =>
          if negb (EventId first =? wrap64 (previousStartedEventID w + 1))%Z then
            resetStateIfDestroyed (clearState w) t it
          else Ret (w, t, it, None)
      | [] => Ret (w, t, it, None)
      end
  end.

(** [errorToFailDecisionTask] *)
Definition errorToFailDecisionTask (taskToken : string) (e : error) (ident : string)
  : response :=
  RespondDecisionTaskFailedRequest taskToken (getErrorDetails e).2 ident.

(** [completeWorkflow] of the task handler: the answer to a task, and the
    event handler after the query it may have run. *)
Definition wth_completeWorkflow (h : workflowTaskHandlerImpl)
    (eh : workflowExecutionEventHandlerImpl St) (t : PollForDecisionTaskResponse)
    (w : workflowExecutionContextImpl) (decisions : list Decision)
    (forceNewDecision : bool) : workflowExecutionEventHandlerImpl St * response :=
  match Query t with
  | Some q =>
      match err w with
      | Some (PanicError value st) =>
          (eh, RespondQueryTaskCompletedRequest (TaskToken t) QueryTaskCompletedTypeFailed ""
                 (Some ("Workflow panic: " +:+ errorMessage (PanicError value st))))
      | _ =>
          let '(eh1, r, e) := ProcessQuery eh (GetQueryType q) (QueryArgs q) in
          match e with
          | Some e1 =>
              (eh1, RespondQueryTaskCompletedRequest (TaskToken t) QueryTaskCompletedTypeFailed
                      "" (Some (errorMessage e1)))
          | None =>
              (eh1, RespondQueryTaskCompletedRequest (TaskToken t)
                      QueryTaskCompletedTypeCompleted r None)
          end
      end
  | None =>
      match err w with
      | Some (PanicError value st) =>
          (eh, errorToFailDecisionTask (TaskToken t) (PanicError value st) (identity h))
      | _ =>
          let closeDecision : option Decision :=
            match err w with
            | Some (CanceledError details) =>
                Some (mkDecision DecisionTypeCancelWorkflowExecution
                        (CancelWorkflowExecutionDecisionAttributes
                           (getErrorDetails (CanceledError details)).2))
            | Some (ContinueAsNewError wt input tl execTimeout taskTimeout) =>
                Some (mkDecision DecisionTypeContinueAsNewWorkflowExecution
                        (ContinueAsNewWorkflowExecutionDecisionAttributes wt input tl
                           execTimeout taskTimeout))
            | Some e =>
                let '(reason, details) := getErrorDetails e in
                Some (mkDecision DecisionTypeFailWorkflowExecution
                        (FailWorkflowExecutionDecisionAttributes reason details))
            | None =>
                if isWorkflowCompleted w then
                  Some (mkDecision DecisionTypeCompleteWorkflowExecution
                          (CompleteWorkflowExecutionDecisionAttributes (result w)))
                else None
            end in
          match closeDecision with
          | Some cd =>
              (eh, RespondDecisionTaskCompletedRequest (TaskToken t) (decisions ++ [cd])
                     (identity h) true false)
          | None =>
              (eh, RespondDecisionTaskCompletedRequest (TaskToken t) decisions
                     (identity h) true forceNewDecision)
          end
      end
  end.

(** [sendTask] for every unstarted local activity; a task that is not in the
    pending table is a nil pointer. *)
Fixpoint sendUnstarted (pending unstarted : list string) (tunnel : localActivityTunnel)
  : res localActivityTunnel :=
  match unstarted with
  | [] => Ret tunnel
  | activityID :: rest =>
      if bool_decide (activityID ∈ pending) then
        sendUnstarted pending rest (mkTunnel (taskCh tunnel ++ [activityID]) (resultCh tunnel))
      else Panic "nil pointer dereference"
  end.

(** The first part of [CompleteDecisionTask]: the unstarted local activities
    go to the tunnel; the flag tells whether the task must wait for them. *)
Definition startLocalActivities (w : workflowExecutionContextImpl)
    (tunnel : localActivityTunnel) (waitLocalActivities : bool)
  : res (workflowExecutionContextImpl * localActivityTunnel * bool) :=
  if hasPendingLocalActivityWork w && bool_decide (is_Some (laTunnel w)) then
    match eventHandler w with
    | None => Panic "nil pointer dereference"
    | Some eh =>
        '(w1, tunnel1) ←
          (if bool_decide (0 < length (unstartedLaTasks eh)) then
             tunnel1 ← sendUnstarted (pendingLaTasks eh) (unstartedLaTasks eh) tunnel;
             Ret (setEventHandler w
                    (Some (mkEventHandler (dispatcher eh) (pendingLaTasks eh) [])),
                  tunnel1)
           else Ret (w, tunnel));
        Ret (w1, tunnel1, waitLocalActivities)
    end
  else Ret (w, tunnel, false).

(** The second part: the decisions are drained, the answer is assembled and
    the current task is cleared. *)
Definition respondToTask (w : workflowExecutionContextImpl) (tunnel : localActivityTunnel)
    (t : PollForDecisionTaskResponse) (waitLocalActivities : bool)
  : res (workflowExecutionContextImpl * localActivityTunnel * option response) :=
  match eventHandler w with
  | None => Panic "nil pointer dereference"
  | Some eh =>
      let '(eh1, eventDecisions) := getDecisions eh in
      let w2 := setEventHandler w (Some eh1) in
      let w3 :=
        if bool_decide (0 < length eventDecisions)
        then setNewDecisions w2 (newDecisions w2 ++ eventDecisions) else w2 in
      let '(eh2, completeRequest) :=
        wth_completeWorkflow (wth w3) eh1 t w3 (newDecisions w3)
          (negb waitLocalActivities) in
      Ret (clearCurrentTask (setEventHandler w3 (Some eh2)), tunnel, Some completeRequest)
  end.

Definition CompleteDecisionTask (w : workflowExecutionContextImpl)
    (tunnel : localActivityTunnel) (waitLocalActivities : bool)
  : res (workflowExecutionContextImpl * localActivityTunnel * option response) :=
  match currentDecisionTask w with
  | None => Ret (w, tunnel, None)
  | Some t =>
      '(w1, tunnel1, stop) ← startLocalActivities w tunnel waitLocalActivities;
      if (stop : bool) then Ret (w1, tunnel1, None)
      else respondToTask w1 tunnel1 t waitLocalActivities
  end.

(** [eventHandler.Complete(result, err)].  Modelled from the spec: the method
    is declared in another file; the handler is built with a "completion
    callback that sets is_completed/result/err", which [Complete] calls. *)
Definition Complete (w : workflowExecutionContextImpl) (r : string) (e : option error)
  : res workflowExecutionContextImpl :=
  match eventHandler w with
  | None => Panic "nil pointer dereference"
  | Some _ => Ret (completeWorkflow w r e)
  end.

Definition executeAnyPressurePoints (h : workflowTaskHandlerImpl) (event : HistoryEvent)
    (isInReplay : bool) : option error :=
  match ppMgr h with
  | Some execute =>
      if negb isInReplay then
        match GetEventType event with
        | EventTypeDecisionTaskStarted => execute pressurePointTypeDecisionTaskStartTimeout
        | EventTypeActivityTaskScheduled => execute pressurePointTypeActivityTaskScheduleTimeout
        | EventTypeActivityTaskStarted => execute pressurePointTypeActivityTaskStartTimeout
        | EventTypeDecisionTaskCompleted => execute pressurePointTypeDecisionTaskCompleted
        | _ => None
        end
      else None
  | None => None
  end.

Context `{!SDK}.

(** A call of [eventHandler.ProcessEvent], with the completion callback the
    handler may invoke during it. *)
Definition handlerProcessEvent (w : workflowExecutionContextImpl) (event : HistoryEvent)
    (isReplay isLast : bool) : res (workflowExecutionContextImpl * option error) :=
  match eventHandler w with
  | None => Panic "nil pointer dereference"
  | Some eh =>
      let '(eh1, completion, e) := ProcessEvent eh event isReplay isLast in
      let w1 := setEventHandler w (Some eh1) in
      Ret (match completion with
           | Some (r, ce) => completeWorkflow w1 r ce
           | None => w1
           end, e)
  end.

(** The two loops over [markers]: the first applies the markers that are not
    local-activity markers, the second ([localActivity = true]) those that
    are. *)
Fixpoint applyMarkers (localActivity : bool) (w : workflowExecutionContextImpl)
    (markers : list HistoryEvent) : res (workflowExecutionContextImpl * option error) :=
  match markers with
  | [] => Ret (w, None)
  | m :: rest =>
      if Bool.eqb (String.eqb (evMarkerName m) localActivityMarkerName) localActivity then
        '(w1, e) ← handlerProcessEvent w m true false;
        match e with
        | Some _ => Ret (w1, e)
        | None => applyMarkers localActivity w1 rest
        end
      else applyMarkers localActivity w rest
  end.

(** The loop over the events of a batch, from index [i]. *)
Fixpoint processBatchEvents (w : workflowExecutionContextImpl) (rh : history)
    (skip : bool) (size i : nat) (events respondEvents : list HistoryEvent)
  : res (workflowExecutionContextImpl * list HistoryEvent * option error) :=
  match events with
  | [] => Ret (w, respondEvents, None)
  | event :: rest =>
      let isInReplay := IsReplayEvent rh event in
      let isLast := negb isInReplay && bool_decide (i = size - 1) in
      let respondEvents1 :=
        if negb skip && isDecisionEvent (GetEventType event)
        then respondEvents ++ [event] else respondEvents in
      if isPreloadMarkerEvent event then
        processBatchEvents w rh skip size (S i) rest respondEvents1
      else
        match executeAnyPressurePoints (wth w) event isInReplay with
        | Some e => Ret (w, respondEvents1, Some e)
        | None =>
            '(w1, e) ← handlerProcessEvent w event isInReplay isLast;
            match e with
            | Some _ => Ret (w1, respondEvents1, e)
            | None => processBatchEvents w1 rh skip size (S i) rest respondEvents1
            end
        end
  end.

Inductive replayOutcome : Type :=
  | ReplayDone (replayDecisions : list Decision) (respondEvents : list HistoryEvent)
  | ReplayError (e : error).

(** The [ProcessEvents] loop of [ProcessWorkflowTask]; one unit of fuel is
    one batch. *)
Fixpoint processEvents (fuel : nat) (w : workflowExecutionContextImpl) (rh : history)
    (skip : bool) (replayDecisions : list Decision) (respondEvents : list HistoryEvent)
  : res (workflowExecutionContextImpl * replayOutcome) :=
  match fuel with
  | O => Diverge
  | S fuel' =>
      '(rh1, reordered, markers, e) ← NextDecisionEvents rh;
      match e with
      | Some e1 => Ret (w, ReplayError e1)
      | None =>
          let reorderedEvents := elems reordered in
          if bool_decide (length reorderedEvents = 0) then
            Ret (w, ReplayDone replayDecisions respondEvents)
          else
            '(w1, e) ← applyMarkers false w (elems markers);
            match e with
            | Some e1 => Ret (w1, ReplayError e1)
            | None =>
                '(w2, respondEvents1, e) ←
                  processBatchEvents w1 rh1 skip (length reorderedEvents) 0
                    reorderedEvents respondEvents;
                match e with
                | Some e1 => Ret (w2, ReplayError e1)
                | None =>
                    '(w3, e) ← applyMarkers true w2 (elems markers);
                    match e with
                    | Some e1 => Ret (w3, ReplayError e1)
                    | None =>
                        let isReplay :=
                          match last reorderedEvents with
                          | Some lastEvent => IsReplayEvent rh1 lastEvent
                          | None => false
                          end in
                        if isReplay then
                          match eventHandler w3 with
                          | None => Panic "nil pointer dereference"
                          | Some eh =>
                              let '(eh1, eventDecisions) := getDecisions eh in
                              let replayDecisions1 :=
                                if bool_decide (0 < length eventDecisions) && negb skip
                                then replayDecisions ++ eventDecisions
                                else replayDecisions in
                              processEvents fuel' (setEventHandler w3 (Some eh1)) rh1 skip
                                replayDecisions1 respondEvents1
                          end
                        else processEvents fuel' w3 rh1 skip replayDecisions respondEvents1
                    end
                end
            end
      end
  end.

(** [ProcessWorkflowTask] up to the end of its [ProcessEvents] loop: the
    context, the value of [skipReplayCheck], and how the loop ended. *)
Definition replayTask (w : workflowExecutionContextImpl) (t : PollForDecisionTaskResponse)
    (it : option HistoryIterator)
  : res (workflowExecutionContextImpl * bool * replayOutcome) :=
  '(w1, t1, it1, e) ← ResetIfStale w t it;
  match e with
  | Some e1 => Ret (w1, false, ReplayError e1)
  | None =>
      let w2 := SetCurrentTask w1 t1 in
      let reorderedHistory := newHistory (mkWorkflowTask t1 it1) in
      skip ← skipReplayCheck w2;
      '(w3, outcome) ←
        processEvents (S (S (pendingWork reorderedHistory))) w2 reorderedHistory skip [] [];
      Ret (w3, skip, outcome)
  end.

Definition TaskResult : Type :=
  workflowExecutionContextImpl * localActivityTunnel * option response * option error.

(** [ProcessWorkflowTask] of the context. *)
Definition ProcessWorkflowTask (w : workflowExecutionContextImpl)
    (tunnel : localActivityTunnel) (t : PollForDecisionTaskResponse)
    (it : option HistoryIterator) : res TaskResult :=
  '(w1, skip, outcome) ← replayTask w t it;
  match outcome with
  | ReplayError e => Ret (w1, tunnel, None, Some e)
  | ReplayDone replayDecisions respondEvents =>
      w2 ←
        (if negb (skip : bool) then
           mismatch ← matchReplayWithHistory replayDecisions respondEvents;
           match mismatch with
           | Some e =>
               match nonDeterministicWorkflowPolicy (wth w1) with
               | NonDeterministicWorkflowPolicyFailWorkflow =>
                   w2 ← Complete w1 ""
                          (Some (NewCustomError "nondeterministic workflow" (errorMessage e)));
                   Ret (inl w2)
               | NonDeterministicWorkflowPolicyBlockWorkflow => Ret (inr e)
               | NonDeterministicWorkflowPolicyOther _ =>
                   Panic "unknown mismatched workflow history policy."
               end
           | None => Ret (inl w1)
           end
         else Ret (inl w1));
      match w2 with
      | inr e => Ret (w1, tunnel, None, Some e)
      | inl w3 =>
          '(w4, tunnel1, completeRequest) ← CompleteDecisionTask w3 tunnel true;
          Ret (w4, tunnel1, completeRequest, None)
      end
  end.

(** ** The sticky cache and the store of contexts *)

(** What a context does to the world around it, in the order it does it. *)
Inductive effect : Type :=
  | MutexLock (p : nat)
  | MutexUnlock (p : nat)
  | CacheDelete (runID : string)
  | CachePut (runID : string) (p : nat)
  | ResultChSend (request : ResetStickyTaskListRequest)
  | StateCleared (p : nat).

(** Contexts are shared by pointer: the cache holds pointers, and a context
    lives in [contexts] under its pointer.  Modelled from the spec: the cache
    package is outside this file, a map "keyed by run_id" with "get(k),
    put_if_not_exist(k, v) → existing_or_new, delete(k), size()"; its bound
    and the order of eviction are its own. *)
Record World : Type := mkWorld {
  workflowCache : gmap string nat;
  contexts : gmap nat workflowExecutionContextImpl;
  nextPtr : nat;
  tunnel : localActivityTunnel;
  effects : list effect
}.

Definition logEffect (σ : World) (e : effect) : World :=
  mkWorld (workflowCache σ) (contexts σ) (nextPtr σ) (tunnel σ) (effects σ ++ [e]).

Definition setCache (σ : World) (c : gmap string nat) : World :=
  mkWorld c (contexts σ) (nextPtr σ) (tunnel σ) (effects σ).

Definition setTunnel (σ : World) (t : localActivityTunnel) : World :=
  mkWorld (workflowCache σ) (contexts σ) (nextPtr σ) t (effects σ).

Definition storeContext (σ : World) (p : nat) (w : workflowExecutionContextImpl) : World :=
  mkWorld (workflowCache σ) (<[p := w]> (contexts σ)) (nextPtr σ) (tunnel σ) (effects σ).

Definition loadContext (σ : World) (p : nat) : res workflowExecutionContextImpl :=
  match contexts σ !! p with
  | Some w => Ret w
  | None => Panic "nil pointer dereference"
  end.

Definition newContext (σ : World) (w : workflowExecutionContextImpl) : World * nat :=
  (mkWorld (workflowCache σ) (<[nextPtr σ := w]> (contexts σ)) (S (nextPtr σ)) (tunnel σ)
     (effects σ), nextPtr σ).

Definition getWorkflowContext (σ : World) (runID : string) : option nat :=
  workflowCache σ !! runID.

Definition putWorkflowContext (σ : World) (runID : string) (p : nat) : World * nat :=
  match workflowCache σ !! runID with
  | Some existing => (σ, existing)
  | None => (logEffect (setCache σ (<[runID := p]> (workflowCache σ))) (CachePut runID p), p)
  end.

Definition removeWorkflowContext (σ : World) (runID : string) : World :=
  logEffect (setCache σ (delete runID (workflowCache σ))) (CacheDelete runID).

Definition Lock (σ : World) (p : nat) : World := logEffect σ (MutexLock p).

(** The condition under which [Unlock] removes the context from the cache. *)
Definition unlockRemoves (w : workflowExecutionContextImpl) (e : option error) : bool :=
  match e with Some _ => true | None => false end
  || match err w with Some _ => true | None => false end
  || isWorkflowCompleted w
  || (disableStickyExecution (wth w) && negb (hasPendingLocalActivityWork w)).

Definition Unlock (σ : World) (p : nat) (e : option error) : res World :=
  w ← loadContext σ p;
  let σ1 :=
    if unlockRemoves w e then removeWorkflowContext σ (InfoRunId (workflowInfo w)) else σ in
  Ret (logEffect σ1 (MutexUnlock p)).

Definition onEviction (σ : World) (p : nat) : res World :=
  w ← loadContext σ p;
  let σ1 := Lock σ p in
  σ2 ←
    (if shouldResetStickyOnEviction w then
       tunnel1 ← queueResetStickinessTask w (tunnel σ1);
       Ret (logEffect (setTunnel σ1 tunnel1)
              (ResultChSend (mkResetSticky (InfoDomain (workflowInfo w))
                               (InfoWorkflowId (workflowInfo w))
                               (InfoRunId (workflowInfo w)))))
     else Ret σ1);
  Ret (logEffect (logEffect (storeContext σ2 p (clearState w)) (StateCleared p))
         (MutexUnlock p)).

(** ** The workflow task handler *)

Definition createWorkflowContext (h : workflowTaskHandlerImpl)
    (t : PollForDecisionTaskResponse) : res (workflowExecutionContextImpl + error) :=
  match HistoryEvents t with
  | [] => Panic "index out of range"
  | first :: _ =>
      match EventAttrs first with
      | WorkflowExecutionStartedEventAttributes taskList execTimeout taskTimeout attempt =>
          match taskList with
          | None => Ret (inr (ErrorString "nil TaskList in WorkflowExecutionStarted event"))
          | Some taskListName =>
              let info :=
                mkWorkflowInfo (GetWorkflowId t) (GetRunId t) (WorkflowTypeName t)
                  taskListName (domain h) execTimeout taskTimeout attempt in
              Ret (inl (createEventHandler
                          (mkContext info h None false "" None 0%Z [] None None)))
          end
      | _ => Ret (inr (ErrorString "first history event is not WorkflowExecutionStarted"))
      end
  end.

Definition ContextLookup : Type :=
  World * PollForDecisionTaskResponse * option HistoryIterator * option nat * option error.

(** The deferred function of [getOrCreateWorkflowContext]. *)
Definition attachTunnel (h : workflowTaskHandlerImpl) (r : ContextLookup) : res ContextLookup :=
  let '(σ, t, it, ctx, e) := r in
  match e, ctx with
  | None, Some p =>
      w ← loadContext σ p;
      Ret (storeContext σ p (setLaTunnel w (handlerLaTunnel h)), t, it, ctx, e)
  | _, _ => Ret r
  end.

Definition getOrCreateWorkflowContext (h : workflowTaskHandlerImpl) (σ : World)
    (t : PollForDecisionTaskResponse) (it : option HistoryIterator) : res ContextLookup :=
  let runID := GetRunId t in
  let full := isFullHistory (HistoryEvents t) in
  let isQuery := match Query t with Some _ => true | None => false end in
  let cached :=
    if negb isQuery || (isQuery && negb full) then getWorkflowContext σ runID else None in
  r ←
    match cached with
    | Some p =>
        w ← loadContext σ p;
        let σ1 := Lock σ p in
        '(w1, t1, it1) ←
          (if isQuery && negb full then Ret (w, t, it)
           else
             match HistoryEvents t with
             | [] => Panic "index out of range"
             | first :: _ =>
                 if (EventId first =? wrap64 (previousStartedEventID w + 1))%Z
                 then Ret (w, t, it)
                 else
                   '(w1, t1, it1, _) ← ResetIfStale w t it;
                   Ret (w1, t1, it1)
             end);
        '(w2, t2, it2, e) ← resetStateIfDestroyed w1 t1 it1;
        Ret (storeContext σ1 p w2, t2, it2, Some p, e)
    | None =>
        '(t1, it1, e) ← (if negb full then resetHistory t it else Ret (t, it, None));
        match e with
        | Some _ => Ret (σ, t1, it1, None, e)
        | None =>
            created ← createWorkflowContext h t1;
            match created with
            | inr e1 => Ret (σ, t1, it1, None, Some e1)
            | inl w =>
                let '(σ1, p) := newContext σ w in
                let '(σ2, p1) :=
                  if negb (disableStickyExecution h) && negb isQuery
                  then putWorkflowContext σ1 runID p else (σ1, p) in
                let σ3 := Lock σ2 p1 in
                w1 ← loadContext σ3 p1;
                '(w2, t2, it2, e2) ← resetStateIfDestroyed w1 t1 it1;
                Ret (storeContext σ3 p1 w2, t2, it2, Some p1, e2)
            end
        end
    end;
  attachTunnel h r.

Definition HandlerResult : Type := World * option response * option nat * option error.

(** [ProcessWorkflowTask] of the task handler, for a task that is not nil. *)
Definition wth_ProcessWorkflowTask (h : workflowTaskHandlerImpl) (σ : World)
    (t : PollForDecisionTaskResponse) (it : option HistoryIterator) : res HandlerResult :=
  let t0 :=
    match HistoryEvents t with
    | [] =>
        mkTask (TaskToken t) (GetWorkflowId t) (GetRunId t) (WorkflowTypeName t)
          (Some (mkHistory [])) (GetPreviousStartedEventId t) (GetStartedEventId t) (Query t)
    | _ => t
    end in
  match Query t0, HistoryEvents t0 with
  | None, [] => Ret (σ, None, None, Some (ErrorString "nil or empty history"))
  | _, _ =>
      '(σ1, t1, it1, ctx, e) ← getOrCreateWorkflowContext h σ t0 it;
      match e, ctx with
      | Some _, _ => Ret (σ1, None, None, e)
      | None, None => Panic "nil pointer dereference"
      | None, Some p =>
          w ← loadContext σ1 p;
          '(w1, tunnel1, completeRequest, e1) ← ProcessWorkflowTask w (tunnel σ1) t1 it1;
          σ2 ← Unlock (setTunnel (storeContext σ1 p w1) tunnel1) p e1;
          Ret (σ2, completeRequest, Some p, e1)
      end
  end.

End Context.

Arguments workflowExecutionContextImpl St : clear implicits.
Arguments World St : clear implicits.

(** ** The heartbeat invoker *)

Definition defaultHeartBeatIntervalInSec : Z := 10 * 60.

(** [float32]: IEEE 754 binary32, precision 24 and maximal exponent 128,
    rounding to nearest even. *)
Definition float32_of_int (z : Z) : spec_float := binary_normalize 24 128 z 0 false.
Definition float32_mul (x y : spec_float) : spec_float := SFmul 24 128 x y.
(** The constant [0.8] converted to [float32]: the nearest one to 4/5. *)
Definition float32_0_8 : spec_float := SFdiv 24 128 (float32_of_int 4) (float32_of_int 5).

(** [time.Duration(f)]: the conversion of a float to [int64] drops the
    fraction. *)
Definition Duration_of_float32 (f : spec_float) : Z :=
  match f with
  | S754_finite s m e =>
      let a := if (0 <=? e)%Z then (Z.pos m * 2 ^ e)%Z else (Z.pos m / 2 ^ (- e))%Z in
      if s then (- a)%Z else a
  | _ => 0%Z
  end.

(** [time.Second], in nanoseconds. *)
Definition Second : Z := 1000000000.

(** The fields of [cadenceInvoker] that [Heartbeat] reads and writes; the
    timer is the duration it was created with. *)
Record cadenceInvoker : Type := mkInvoker {
  heartBeatTimeoutInSec : Z;
  hbBatchEndTimer : option Z;
  lastDetailsToReport : option string
}.

Inductive invokerEffect : Type :=
  | RecordActivityTaskHeartbeat (details : string)
  | CancelHandler
  | NewTimer (duration : Z)
  | GoBatchEnd.

(** The service call under [backoff.Retry]: the response (nil, or its
    cancel-requested flag) and the error that is left when the retries end. *)
Definition heartbeatService : Type := string -> option bool * option error.

Definition recordActivityHeartbeat (service : heartbeatService) (details : string)
  : option error :=
  let '(heartbeatResponse, heartbeatErr) := service details in
  match heartbeatErr, heartbeatResponse with
  | None, Some true => Some (CanceledError "")
  | _, _ => heartbeatErr
  end.

Definition internalHeartBeat (service : heartbeatService) (details : string)
  : bool * option error * list invokerEffect :=
  let e := recordActivityHeartbeat service details in
  match e with
  | Some (CanceledError _) => (true, e, [RecordActivityTaskHeartbeat details; CancelHandler])
  | Some (EntityNotExistsError _) =>
      (true, e, [RecordActivityTaskHeartbeat details; CancelHandler])
  | _ => (false, e, [RecordActivityTaskHeartbeat details])
  end.

(** The length of the batch window [Heartbeat] opens. *)
Definition batchWindow (timeoutInSec : Z) : Z :=
  let deadlineToTrigger :=
    if (timeoutInSec <=? 0)%Z then defaultHeartBeatIntervalInSec else timeoutInSec in
  wrap64 (Duration_of_float32 (float32_mul float32_0_8 (float32_of_int deadlineToTrigger))
          * Second).

(** [Heartbeat], up to the goroutine it starts: the invoker after the call,
    what the call did, and the error it returns. *)
Definition Heartbeat (service : heartbeatService) (i : cadenceInvoker) (details : string)
  : cadenceInvoker * list invokerEffect * option error :=
  match hbBatchEndTimer i with
  | Some _ => (mkInvoker (heartBeatTimeoutInSec i) (hbBatchEndTimer i) (Some details), [], None)
  | None =>
      let '(isActivityCancelled, e, performed) := internalHeartBeat service details in
      if match e with None => true | Some _ => false end || isActivityCancelled then
        let duration := batchWindow (heartBeatTimeoutInSec i) in
        (mkInvoker (heartBeatTimeoutInSec i) (Some duration) None,
         performed ++ [NewTimer duration; GoBatchEnd], e)
      else (i, performed, e)
  end.

(** The goroutine a successful [Heartbeat] starts, from the moment its timer
    fires, when no other call comes between its critical section and the
    [Heartbeat] it ends with: the window is closed, and the details that the
    window kept last, if any, are reported.  The error of that [Heartbeat]
    is dropped. *)
Definition batchEnd (service : heartbeatService) (i : cadenceInvoker)
  : res (cadenceInvoker * list invokerEffect) :=
  match hbBatchEndTimer i with
  | None => Panic "nil pointer dereference"
  | Some _ =>
      let detailsToReport := lastDetailsToReport i in
      let i1 := mkInvoker (heartBeatTimeoutInSec i) None (lastDetailsToReport i) in
      match detailsToReport with
      | Some details =>
          let '(i2, performed, _) := Heartbeat service i1 details in Ret (i2, performed)
      | None => Ret (i1, [])
      end
  end.

(** ** The properties in the words of the specification *)

(** The four decision-task events the reorderer skips outright. *)
Definition isSkippedType (t : EventType) : bool :=
  match t with
  | EventTypeDecisionTaskCompleted
  | EventTypeDecisionTaskScheduled
  | EventTypeDecisionTaskTimedOut
  | EventTypeDecisionTaskFailed => true
  | _ => false
  end.

(** The outcomes of a decision task: completion, time-out, failure. *)
Definition isDecisionOutcome (t : EventType) : bool :=
  match t with
  | EventTypeDecisionTaskCompleted
  | EventTypeDecisionTaskTimedOut
  | EventTypeDecisionTaskFailed => true
  | _ => false
  end.

(** The next decision outcome a forward scan of [events] finds, if any. *)
Definition nextDecisionOutcome (events : list HistoryEvent) : option EventType :=
  head (filter (fun t => isDecisionOutcome t) (GetEventType <$> events)).

(** "failure or timeout" *)
Definition outcomeFailed (o : option EventType) : Prop :=
  o = Some EventTypeDecisionTaskTimedOut \/ o = Some EventTypeDecisionTaskFailed.

(** A batch: none of the skipped types, and a [DecisionTaskStarted] only as
    its final element. *)
Definition batch_ok (batch : list HistoryEvent) : Prop :=
  (forall e, e ∈ batch -> isSkippedType (GetEventType e) = false) /\
  (forall i e, batch !! i = Some e -> GetEventType e = EventTypeDecisionTaskStarted ->
               S i = length batch).

(** The index of the reorderer stays within the loaded events. *)
Definition history_wf (eh : history) : Prop :=
  currentIndex eh <= length (loadedEvents eh).

(** The decision events of the specification: the events "produced by a
    prior decision". *)
Definition decisionEventTypes : list EventType :=
  [ EventTypeActivityTaskScheduled;
    EventTypeActivityTaskCancelRequested;
    EventTypeRequestCancelActivityTaskFailed;
    EventTypeTimerStarted;
    EventTypeTimerCanceled;
    EventTypeCancelTimerFailed;
    EventTypeMarkerRecorded;
    EventTypeWorkflowExecutionCompleted;
    EventTypeWorkflowExecutionFailed;
    EventTypeWorkflowExecutionCanceled;
    EventTypeWorkflowExecutionContinuedAsNew;
    EventTypeStartChildWorkflowExecutionInitiated;
    EventTypeRequestCancelExternalWorkflowExecutionInitiated;
    EventTypeSignalExternalWorkflowExecutionInitiated ].

(** The component of a dotted name after its final dot; the whole name when
    it has no dot. *)
Fixpoint hasDot (name : string) : bool :=
  match name with
  | EmptyString => false
  | String c rest => Ascii.eqb c "." || hasDot rest
  end.

Fixpoint afterFinalDot (name : string) : string :=
  match name with
  | EmptyString => EmptyString
  | String c rest =>
      if hasDot rest then afterFinalDot rest
      else if Ascii.eqb c "." then rest else name
  end.

Fixpoint endsWithDot (name : string) : bool :=
  match name with
  | EmptyString => false
  | String c EmptyString => Ascii.eqb c "."
  | String _ rest => endsWithDot rest
  end.

(** The match of a [ScheduleActivity] decision and an event as the match
    table words it: the event is [ActivityTaskScheduled], same activity id,
    and equal components after the final dot of the activity type names. *)
Definition scheduleActivityMatches (d : Decision) (e : HistoryEvent) : Prop :=
  GetEventType e = EventTypeActivityTaskScheduled /\
  (evActivityTaskScheduled e).1.1.1 = (decScheduleActivityTask d).1.1.1 /\
  afterFinalDot (evActivityTaskScheduled e).1.1.2
  = afterFinalDot (decScheduleActivityTask d).1.1.2.

(** 80% of a heartbeat timeout given in seconds, in nanoseconds. *)
Definition eightyPercent (timeoutInSec : Z) : Z := (timeoutInSec * 800000000)%Z.

(** What [lastPartOfName] compares: the component after the final dot, but
    the whole name when the name ends with a dot. *)
Definition namePart (name : string) : string :=
  if endsWithDot name then name else afterFinalDot name.

(** The [MarkerRecorded] events of a batch, in order. *)
Definition markersOf (batch : list HistoryEvent) : list HistoryEvent :=
  filter (fun e => isPreloadMarkerEvent e) batch.

(** Nothing is left to reorder: the index is at the end of the loaded events
    and the iterator has no further page. *)
Definition exhausted (eh : history) : Prop :=
  currentIndex eh = length (loadedEvents eh) /\ hasMoreEvents eh = false.

(** An event type the reorderer emits without ending the batch. *)
Definition plainType (t : EventType) : Prop :=
  isSkippedType t = false /\ t <> EventTypeDecisionTaskStarted.

(** The invariant of the reorderer between two calls. *)
Definition reorderer_inv (eh : history) : Prop :=
  history_wf eh /\ batch_ok (elems (next eh)).

(** What bounds the number of batches still to come. *)
Definition replayMeasure (eh : history) : nat := pendingWork eh + len (next eh).

(** The reorderer after it has looked at the event under its index. *)
Definition advance (eh : history) : history :=
  setLoaded eh (loadedEvents eh) (S (currentIndex eh)).

Section ContextSpec.
Context {St : Type}.

Implicit Types (w : workflowExecutionContextImpl St).

(** What the replay loop leaves alone in the context. *)
Definition sameFrame w w' : Prop :=
  workflowInfo w' = workflowInfo w /\ wth w' = wth w
  /\ previousStartedEventID w' = previousStartedEventID w
  /\ currentDecisionTask w' = currentDecisionTask w
  /\ laTunnel w' = laTunnel w /\ newDecisions w' = newDecisions w
  /\ (is_Some (eventHandler w) -> is_Some (eventHandler w')).

(** The history of the task does not continue the one the context has seen:
    [ResetIfStale] resets the context. *)
Definition taskIsStale w (t : PollForDecisionTaskResponse) : Prop :=
  match HistoryEvents t with
  | first :: _ => EventId first <> wrap64 (previousStartedEventID w + 1)
  | [] => False
  end.

(** The [previousStartedEventID] of the context a task was processed on. *)
Definition previousStartedAfter (r : res (World St * option response * option nat * option error))
  : option Z :=
  match r with
  | Ret (σ, _, Some p, _) => previousStartedEventID <$> contexts σ !! p
  | _ => None
  end.

End ContextSpec.

(** ** Notions of the further properties *)

(** The events of a page; a page that failed to load has none. *)
Definition pageEvents (p : History + error) : list HistoryEvent :=
  match p with
  | inl h => Events h
  | inr _ => []
  end.

(** The events the reorderer has not looked at yet: the loaded ones from its
    index on, then those of the pages still to come. *)
Definition pendingEvents (eh : history) : list HistoryEvent :=
  drop (currentIndex eh) (loadedEvents eh) ++ concat (pageEvents <$> pendingPages eh).



Section MatcherSpec.
Context `{SDK}.

(** The decisions and the events the matcher compares: those it does not skip. *)
Definition checkedDecisions (ds : list Decision) : list Decision :=
  filter (fun d => skipDeterministicCheckForDecision d = false) ds.
Definition checkedEvents (es : list HistoryEvent) : list HistoryEvent :=
  filter (fun e => skipDeterministicCheckForEvent e = false) es.

End MatcherSpec.

(** An event, or a decision, that carries the attribute structure of its
    type, for the types whose structure [isDecisionMatchEvent] reads a field
    of. *)
Definition eventCarriesAttributes (e : HistoryEvent) : bool :=
  match GetEventType e with
  | EventTypeActivityTaskScheduled => evHasActivityTaskScheduled e
  | EventTypeWorkflowExecutionCompleted => evHasWorkflowExecutionCompleted e
  | EventTypeWorkflowExecutionFailed => evHasWorkflowExecutionFailed e
  | EventTypeWorkflowExecutionCanceled => evHasWorkflowExecutionCanceled e
  | EventTypeRequestCancelExternalWorkflowExecutionInitiated => evHasRequestCancelExternal e
  | EventTypeSignalExternalWorkflowExecutionInitiated => evHasSignalExternal e
  | EventTypeStartChildWorkflowExecutionInitiated => evHasStartChildWorkflow e
  | _ => true
  end.

Definition decisionCarriesAttributes (d : Decision) : bool :=
  match GetDecisionType d with
  | DecisionTypeScheduleActivityTask => decHasScheduleActivityTask d
  | DecisionTypeCompleteWorkflowExecution => decHasCompleteWorkflow d
  | DecisionTypeFailWorkflowExecution => decHasFailWorkflow d
  | DecisionTypeCancelWorkflowExecution => decHasCancelWorkflow d
  | DecisionTypeSignalExternalWorkflowExecution => decHasSignalExternal d
  | DecisionTypeStartChildWorkflowExecution => decHasStartChildWorkflow d
  | _ => true
  end.

(** A decision that closes the workflow. *)
Definition isClosingDecision (d : Decision) : bool :=
  match GetDecisionType d with
  | DecisionTypeCompleteWorkflowExecution
  | DecisionTypeFailWorkflowExecution
  | DecisionTypeCancelWorkflowExecution
  | DecisionTypeContinueAsNewWorkflowExecution => true
  | _ => false
  end.

(** The answer [r] is the one to the task [t]: a query answer for a query
    task, a decision-task answer otherwise, with the token of the task. *)
Definition answers (r : response) (t : PollForDecisionTaskResponse) : Prop :=
  match Query t, r with
  | Some _, RespondQueryTaskCompletedRequest token _ _ _ => token = TaskToken t
  | None, RespondDecisionTaskFailedRequest token _ _ => token = TaskToken t
  | None, RespondDecisionTaskCompletedRequest token _ _ _ _ => token = TaskToken t
  | _, _ => False
  end.

(** The task [t1] is the task [t] but for its history. *)
Definition sameTask (t1 t : PollForDecisionTaskResponse) : Prop :=
  TaskToken t1 = TaskToken t /\ GetWorkflowId t1 = GetWorkflowId t
  /\ GetRunId t1 = GetRunId t /\ WorkflowTypeName t1 = WorkflowTypeName t
  /\ GetPreviousStartedEventId t1 = GetPreviousStartedEventId t
  /\ GetStartedEventId t1 = GetStartedEventId t /\ Query t1 = Query t.

(** The task [ProcessWorkflowTask] of the task handler works on: a nil
    history is replaced by an empty one. *)
Definition normalizedTask (t : PollForDecisionTaskResponse) : PollForDecisionTaskResponse :=
  match HistoryEvents t with
  | [] =>
      mkTask (TaskToken t) (GetWorkflowId t) (GetRunId t) (WorkflowTypeName t)
        (Some (mkHistory [])) (GetPreviousStartedEventId t) (GetStartedEventId t) (Query t)
  | _ => t
  end.

Section WorldSpec.
Context {St : Type}.

(** Every cached pointer leads to a context of the run it is cached under,
    and the pointers in use are below the next one to be given out. *)
Definition world_ok (σ : World St) : Prop :=
  (forall k p, workflowCache σ !! k = Some p ->
     exists w, contexts σ !! p = Some w /\ InfoRunId (workflowInfo w) = k)
  /\ (forall p w, contexts σ !! p = Some w -> p < nextPtr σ).

End WorldSpec.

(** [Heartbeat] called with each of the details in turn: the invoker after
    the last call, what the calls did, and the errors they returned. *)
Fixpoint heartbeats (service : heartbeatService) (i : cadenceInvoker) (ds : list string)
  : cadenceInvoker * list invokerEffect * list (option error) :=
  match ds with
  | [] => (i, [], [])
  | details :: rest =>
      let '(i1, performed, e) := Heartbeat service i details in
      let '(i2, performed', es) := heartbeats service i1 rest in
      (i2, performed ++ performed', e :: es)
  end.

(** ** Example data *)

Definition exampleSDK : SDK := {|
  versionMarkerName := "Version";
  mutableSideEffectMarkerName := "MutableSideEffect";
  localActivityMarkerName := "LocalActivity";
  HistoryEventToString := fun _ => "event";
  DecisionToString := fun _ => "decision"
|}.

Definition scheduleActivity (id ty : string) : Decision :=
  mkDecision DecisionTypeScheduleActivityTask
    (ScheduleActivityTaskDecisionAttributes id ty "" "").

Definition activityTaskScheduled (eventId : Z) (id ty : string) : HistoryEvent :=
  mkHistoryEvent eventId 0 EventTypeActivityTaskScheduled
    (ActivityTaskScheduledEventAttributes id ty "" "").

(** A workflow that schedules one activity when it starts: the state of the
    dispatcher is the list of decisions not yet handed out. *)
Definition exampleHandler : EventHandlerOps (list Decision) := {|
  newWorkflowExecutionEventHandler := fun _ => mkEventHandler [] [] [];
  ProcessEvent := fun h e _ _ =>
    (match GetEventType e with
     | EventTypeWorkflowExecutionStarted =>
         mkEventHandler (dispatcher h ++ [scheduleActivity "1" "a.b.Foo"])
           (pendingLaTasks h) (unstartedLaTasks h)
     | _ => h
     end, None, None);
  ProcessQuery := fun h _ _ => (h, "state", None);
  getDecisions := fun h =>
    (mkEventHandler [] (pendingLaTasks h) (unstartedLaTasks h), dispatcher h)
|}.

Definition event (id : Z) (t : EventType) : HistoryEvent :=
  mkHistoryEvent id 0 t NoEventAttributes.

Definition startedEvent : HistoryEvent :=
  mkHistoryEvent 1 0 EventTypeWorkflowExecutionStarted
    (WorkflowExecutionStartedEventAttributes (Some "task-list") 60 10 0).

Definition decisionTask (events : list HistoryEvent) : PollForDecisionTaskResponse :=
  mkTask "token" "workflow-id" "run-id" "workflow-type" (Some (mkHistory events)) 0
    (Z.of_nat (length events)) None.

(** The history of a first decision task. *)
Definition firstDecisionHistory : list HistoryEvent :=
  [ event 1 EventTypeWorkflowExecutionStarted;
    event 2 EventTypeDecisionTaskScheduled;
    event 3 EventTypeDecisionTaskStarted ].

(** The first decision recorded a marker. *)
Definition markerHistory : list HistoryEvent :=
  [ event 1 EventTypeWorkflowExecutionStarted;
    event 2 EventTypeDecisionTaskScheduled;
    event 3 EventTypeDecisionTaskStarted;
    event 4 EventTypeDecisionTaskCompleted;
    event 5 EventTypeMarkerRecorded;
    event 6 EventTypeDecisionTaskScheduled;
    event 7 EventTypeDecisionTaskStarted ].

(** The first decision scheduled activity 2; the example workflow schedules
    activity 1. *)
Definition otherActivityHistory : list HistoryEvent :=
  [ startedEvent;
    event 2 EventTypeDecisionTaskScheduled;
    event 3 EventTypeDecisionTaskStarted;
    event 4 EventTypeDecisionTaskCompleted;
    activityTaskScheduled 5 "2" "x.y.Foo";
    event 6 EventTypeDecisionTaskScheduled;
    event 7 EventTypeDecisionTaskStarted ].

Definition otherActivityTask : PollForDecisionTaskResponse :=
  mkTask "token" "workflow-id" "run-id" "workflow-type" (Some (mkHistory otherActivityHistory))
    3 7 None.

Definition reordererOf (events : list HistoryEvent) : history :=
  newHistory (mkWorkflowTask (decisionTask events) None).

Definition exampleTaskHandler (policy : NonDeterministicWorkflowPolicy)
  : workflowTaskHandlerImpl :=
  mkTaskHandler "domain" "worker" false policy None (Some TheTunnel).

Definition exampleInfo : WorkflowInfo :=
  mkWorkflowInfo "workflow-id" "run-id" "workflow-type" "task-list" "domain" 60 10 0.

Definition emptyTunnel : localActivityTunnel := mkTunnel [] [].

Definition okService : heartbeatService := fun _ => (Some false, None).

Section Examples.
#[local] Existing Instance exampleSDK.
#[local] Existing Instance exampleHandler.

Definition freshContext (policy : NonDeterministicWorkflowPolicy)
  : workflowExecutionContextImpl (list Decision) :=
  createEventHandler
    (mkContext exampleInfo (exampleTaskHandler policy) None false "" None 0%Z [] None
       (Some TheTunnel)).

(** The context after the replay of [otherActivityTask]. *)
Definition replayedContext : workflowExecutionContextImpl (list Decision) :=
  Eval vm_compute in
    match replayTask (freshContext NonDeterministicWorkflowPolicyFailWorkflow)
            otherActivityTask None with
    | Ret (w, _, _) => w
    | _ => freshContext NonDeterministicWorkflowPolicyFailWorkflow
    end.

(** A context that has processed the decision task started at event 5, the
    cache that holds it, and a query task whose only event is event 9. *)
Definition cachedContext : workflowExecutionContextImpl (list Decision) :=
  mkContext exampleInfo (exampleTaskHandler NonDeterministicWorkflowPolicyFailWorkflow)
    (Some (mkEventHandler [] [] [])) false "" None 5%Z [] None (Some TheTunnel).

Definition cachedWorld : World (list Decision) :=
  mkWorld {[ "run-id" := 0 ]} {[ 0 := cachedContext ]} 1 emptyTunnel [].

Definition staleQueryTask : PollForDecisionTaskResponse :=
  mkTask "token" "workflow-id" "run-id" "workflow-type"
    (Some (mkHistory [event 9 (EventTypeOther 11)])) 5 0
    (Some (mkWorkflowQuery "state" "")).

Definition emptyQueryTask : PollForDecisionTaskResponse :=
  mkTask "token" "workflow-id" "run-id" "workflow-type" (Some (mkHistory [])) 5 0
    (Some (mkWorkflowQuery "state" "")).

Definition fullHistoryIterator : option HistoryIterator :=
  Some (mkIterator [inl (mkHistory [startedEvent; event 2 EventTypeDecisionTaskScheduled;
                                    event 3 EventTypeDecisionTaskStarted])] 0).

(** A task handler as [newWorkflowTaskHandler] builds it, with no
    local-activity tunnel, an empty cache, and the first decision task of a
    run. *)
Definition tunnellessTaskHandler : workflowTaskHandlerImpl :=
  mkTaskHandler "domain" "worker" false NonDeterministicWorkflowPolicyBlockWorkflow None None.

Definition emptyWorld : World (list Decision) := mkWorld ∅ ∅ 0 emptyTunnel [].

Definition firstDecisionTask : PollForDecisionTaskResponse :=
  decisionTask [startedEvent; event 2 EventTypeDecisionTaskScheduled;
                event 3 EventTypeDecisionTaskStarted].

(** An iterator whose first page does not load. *)
Definition failingIterator : HistoryIterator :=
  mkIterator [inr (ErrorString "transport")] 0.

(** The cached context with a decision task to answer. *)
Definition busyContext : workflowExecutionContextImpl (list Decision) :=
  SetCurrentTask cachedContext firstDecisionTask.

(** The cache holds a context that was destroyed under it. *)
Definition destroyedWorld : World (list Decision) :=
  mkWorld {[ "run-id" := 0 ]} {[ 0 := clearState cachedContext ]} 1 emptyTunnel [].

End Examples.

(** * Properties *)

(** * The history reorderer *)

Lemma isDecisionEvent_spec (t : EventType) :
  isDecisionEvent t = true <-> t ∈ decisionEventTypes.
Proof.
  unfold decisionEventTypes.
  destruct t; simpl; split; intros Hx; try discriminate; try reflexivity;
    try (repeat (first [ apply list_elem_of_here | apply list_elem_of_further ]); fail);
    exfalso; repeat (apply elem_of_cons in Hx as [Hx|Hx]; [discriminate|]);
    by apply elem_of_nil in Hx.
Qed.

(** C4.  [IsReplayEvent] answers true exactly when the event id is at most
    the task's previous started event id, or the type of the event is one of
    the fourteen decision-event types. *)
Theorem IsReplayEvent_iff (eh : history) (e : HistoryEvent) :
  IsReplayEvent eh e = true <->
  (EventId e <= GetPreviousStartedEventId (task (hWorkflowTask eh)))%Z
  \/ GetEventType e ∈ decisionEventTypes.
Proof.
  unfold IsReplayEvent.
  rewrite orb_true_iff, Z.leb_le, isDecisionEvent_spec. reflexivity.
Qed.

Lemma scanNextDecision_spec (events : list HistoryEvent) :
  scanNextDecision events = true <-> outcomeFailed (nextDecisionOutcome events).
Proof.
  unfold outcomeFailed, nextDecisionOutcome.
  induction events as [|e rest IH].
  - simpl. split; [discriminate | intros [?|?]; discriminate].
  - cbn [scanNextDecision]. rewrite fmap_cons, filter_cons.
    destruct (GetEventType e) eqn:Ht; simpl; try exact IH;
      split; intros Hx; try discriminate; try (destruct Hx; discriminate); auto.
Qed.

Lemma batch_ok_nil : batch_ok [].
Proof. split; [intros e He; by apply elem_of_nil in He | intros i e Hi; by rewrite lookup_nil in Hi]. Qed.

Lemma batch_ok_started (e : HistoryEvent) :
  GetEventType e = EventTypeDecisionTaskStarted -> batch_ok [e].
Proof.
  intros Ht. split.
  - intros e' He'. apply list_elem_of_singleton in He'. subst e'. by rewrite Ht.
  - intros [|i] e' Hi _; [reflexivity|]. by rewrite lookup_cons, lookup_nil in Hi.
Qed.

Lemma batch_ok_cons (e : HistoryEvent) (l : list HistoryEvent) :
  plainType (GetEventType e) -> batch_ok l -> batch_ok (e :: l).
Proof.
  intros [Hs Hn] [Hl1 Hl2]. split.
  - intros e' He'. apply elem_of_cons in He' as [->|He']; auto.
  - intros [|i] e' Hi Ht; simpl in *.
    + congruence.
    + f_equal. eauto.
Qed.

Lemma pendingWork_shrink (eh : history) :
  history_wf eh -> pendingWork (shrinkLoaded eh) = pendingWork eh.
Proof.
  unfold pendingWork, shrinkLoaded, history_wf, pendingPages. simpl.
  rewrite length_drop. lia.
Qed.

Lemma isPreloadMarkerEvent_started (e : HistoryEvent) :
  GetEventType e = EventTypeDecisionTaskStarted -> isPreloadMarkerEvent e = false.
Proof. unfold isPreloadMarkerEvent. intros ->. reflexivity. Qed.

Lemma getMoreEvents_inv (eh eh1 : history) (r : History + error) :
  hasMoreEvents eh = true -> getMoreEvents eh = Ret (eh1, r) ->
  loadedEvents eh1 = loadedEvents eh /\ currentIndex eh1 = currentIndex eh
  /\ next eh1 = next eh /\ task (hWorkflowTask eh1) = task (hWorkflowTask eh)
  /\ sum_list (pageSize <$> pendingPages eh)
     = pageSize r + sum_list (pageSize <$> pendingPages eh1).
Proof.
  unfold hasMoreEvents, getMoreEvents, pendingPages.
  destruct (historyIterator (hWorkflowTask eh)) as [it|] eqn:Hit; [|discriminate].
  unfold HasNextPage, GetNextPage. intros Hlt%bool_decide_eq_true.
  destruct (lookup_lt_is_Some_2 _ _ Hlt) as [p Hp]. rewrite Hp.
  intros [= <- <-]. simpl. repeat split.
  by rewrite (drop_S _ _ _ Hp).
Qed.

Lemma pendingWork_setLoaded (eh : history) (l : list HistoryEvent) (i : nat) :
  pendingWork (setLoaded eh l i) = (length l - i) + sum_list (pageSize <$> pendingPages eh).
Proof. reflexivity. Qed.

Lemma orderEvents_spec (fuel : nat) :
  forall eh ne mk eh' ne' mk' err,
  history_wf eh ->
  orderEvents fuel eh ne mk = Ret (eh', ne', mk', err) ->
  exists added,
    elems ne' = elems ne ++ added /\ batch_ok added
    /\ elems mk' = elems mk ++ markersOf added
    /\ history_wf eh' /\ pendingWork eh' + length added <= pendingWork eh
    /\ next eh' = next eh /\ task (hWorkflowTask eh') = task (hWorkflowTask eh)
    /\ (err = None -> added = [] -> exhausted eh' /\ ne' = ne /\ mk' = mk).
Proof.
  induction fuel as [|fuel IH]; intros eh ne mk eh' ne' mk' err Hwf Hrun; [discriminate|].
  cbn [orderEvents] in Hrun.
  destruct (decide (currentIndex eh = length (loadedEvents eh))) as [Hend|Hin].
  - destruct (hasMoreEvents eh) eqn:Hmore; cbn [negb] in Hrun.
    + destruct (getMoreEvents eh) as [[eh1 page]| |] eqn:Hget; try discriminate.
      destruct (getMoreEvents_inv _ _ _ Hmore Hget) as (Hl & Hi & Hn & Ht & Hsum).
      cbn in Hrun. destruct page as [historyPage|err1].
      * apply IH in Hrun as (added & ? & ? & ? & ? & Hle & Hn' & Ht' & Hex).
        2:{ unfold history_wf. simpl. rewrite length_app, Hl, Hi. unfold history_wf in Hwf. lia. }
        exists added. split_and!; try done.
        -- revert Hle. rewrite pendingWork_setLoaded. unfold pendingWork.
           rewrite length_app, Hsum, Hl, Hi. simpl. lia.
        -- by rewrite Hn'.
        -- by rewrite Ht'.
      * injection Hrun as <- <- <- <-. exists []. rewrite !app_nil_r.
        split_and!; auto using batch_ok_nil; try discriminate.
        -- unfold history_wf. rewrite Hl, Hi. exact Hwf.
        -- unfold pendingWork. rewrite Hl, Hi, Hsum. simpl. lia.
    + injection Hrun as <- <- <- <-. exists []. rewrite !app_nil_r.
      split_and!; auto using batch_ok_nil.
      * unfold history_wf, shrinkLoaded. simpl. lia.
      * rewrite pendingWork_shrink by done. simpl. lia.
      * intros _ _. split; [|done]. split; [|exact Hmore].
        unfold shrinkLoaded. simpl. rewrite length_drop. lia.
  - destruct (loadedEvents eh !! currentIndex eh) as [event|] eqn:Hev; [|discriminate].
    assert (Hlt : currentIndex eh < length (loadedEvents eh)) by (unfold history_wf in Hwf; lia).
    set (advanced := setLoaded eh (loadedEvents eh) (S (currentIndex eh))) in *.
    assert (Hwfa : history_wf advanced) by (unfold history_wf; simpl; lia).
    assert (Hpa : S (pendingWork advanced) = pendingWork eh)
      by (unfold advanced; rewrite pendingWork_setLoaded; unfold pendingWork; lia).
    assert (Hskip : forall ne0 mk0,
      orderEvents fuel advanced ne0 mk0 = Ret (eh', ne', mk', err) ->
      ne0 = ne -> mk0 = mk ->
      exists added,
        elems ne' = elems ne ++ added /\ batch_ok added
        /\ elems mk' = elems mk ++ markersOf added
        /\ history_wf eh' /\ pendingWork eh' + length added <= pendingWork eh
        /\ next eh' = next eh /\ task (hWorkflowTask eh') = task (hWorkflowTask eh)
        /\ (err = None -> added = [] -> exhausted eh' /\ ne' = ne /\ mk' = mk)).
    { intros ne0 mk0 Hr -> ->.
      apply IH in Hr as (added & ? & ? & ? & ? & Hle & Hn' & Ht' & Hex); [|done].
      exists added. split_and!; try done; try lia. }
    assert (Hplain : plainType (GetEventType event) ->
      orderEvents fuel advanced (append ne event)
        (if isPreloadMarkerEvent event then append mk event else mk)
      = Ret (eh', ne', mk', err) ->
      exists added,
        elems ne' = elems ne ++ added /\ batch_ok added
        /\ elems mk' = elems mk ++ markersOf added
        /\ history_wf eh' /\ pendingWork eh' + length added <= pendingWork eh
        /\ next eh' = next eh /\ task (hWorkflowTask eh') = task (hWorkflowTask eh)
        /\ (err = None -> added = [] -> exhausted eh' /\ ne' = ne /\ mk' = mk)).
    { intros Hp Hr.
      apply IH in Hr as (added & Hne & Hok & Hmk & ? & Hle & Hn' & Ht' & Hex); [|done].
      exists (event :: added). split_and!; try done.
      - rewrite Hne. unfold append. simpl. by rewrite <- app_assoc.
      - apply batch_ok_cons; tauto.
      - rewrite Hmk. unfold markersOf. rewrite filter_cons.
        destruct (isPreloadMarkerEvent event); simpl; [|done].
        by rewrite <- app_assoc.
      - simpl. lia. }
    destruct (GetEventType event) eqn:Hty; try (apply Hplain; [by split|exact Hrun]);
      try (by eapply Hskip).
    destruct (IsNextDecisionFailed eh); cbn [negb] in Hrun; [by eapply Hskip|].
    injection Hrun as <- <- <- <-. exists [event]. split_and!; try done.
    + apply batch_ok_started; done.
    + unfold markersOf. rewrite filter_cons, isPreloadMarkerEvent_started by done.
      simpl. by rewrite app_nil_r.
    + unfold history_wf, shrinkLoaded. simpl. lia.
    + rewrite pendingWork_shrink by done. simpl. lia.
Qed.

Lemma orderEvents_returns (fuel : nat) :
  forall eh ne mk, history_wf eh -> pendingWork eh < fuel ->
  exists r, orderEvents fuel eh ne mk = Ret r.
Proof.
  induction fuel as [|fuel IH]; intros eh ne mk Hwf Hfuel; [lia|].
  cbn [orderEvents].
  destruct (decide (currentIndex eh = length (loadedEvents eh))) as [Hend|Hin].
  - destruct (hasMoreEvents eh) eqn:Hmore; cbn [negb]; [|eauto].
    destruct (getMoreEvents eh) as [[eh1 page]| |] eqn:Hget.
    + destruct (getMoreEvents_inv _ _ _ Hmore Hget) as (Hl & Hi & Hn & Ht & Hsum).
      cbn. destruct page as [historyPage|err1]; [|eauto].
      apply IH.
      * unfold history_wf. simpl. rewrite length_app, Hl, Hi. unfold history_wf in Hwf. lia.
      * revert Hfuel. rewrite pendingWork_setLoaded. unfold pendingWork.
        rewrite length_app, Hsum, Hl, Hi. simpl. lia.
    + exfalso. revert Hmore Hget. unfold hasMoreEvents, getMoreEvents.
      destruct (historyIterator (hWorkflowTask eh)); [|discriminate].
      by destruct (GetNextPage _).
    + exfalso. revert Hget. unfold getMoreEvents.
      destruct (historyIterator (hWorkflowTask eh)); [|discriminate].
      by destruct (GetNextPage _).
  - assert (Hlt : currentIndex eh < length (loadedEvents eh)) by (unfold history_wf in Hwf; lia).
    destruct (lookup_lt_is_Some_2 _ _ Hlt) as [event Hev]. rewrite Hev.
    set (advanced := setLoaded eh (loadedEvents eh) (S (currentIndex eh))).
    assert (Hwfa : history_wf advanced) by (unfold history_wf; simpl; lia).
    assert (Hpa : pendingWork advanced < fuel)
      by (unfold advanced; rewrite pendingWork_setLoaded; unfold pendingWork in *; lia).
    cbv zeta.
    destruct (GetEventType event); try (by apply IH).
    destruct (IsNextDecisionFailed eh); cbn [negb]; [by apply IH | eauto].
Qed.

Lemma nextDecisionEvents_spec (eh eh' : history) (ne' mk' : slice HistoryEvent)
    (err : option error) :
  history_wf eh ->
  nextDecisionEvents eh = Ret (eh', ne', mk', err) ->
  batch_ok (elems ne') /\ elems mk' = markersOf (elems ne')
  /\ history_wf eh' /\ pendingWork eh' + len ne' <= pendingWork eh
  /\ next eh' = next eh /\ task (hWorkflowTask eh') = task (hWorkflowTask eh)
  /\ (err = None -> len ne' = 0 -> exhausted eh').
Proof.
  intros Hwf. unfold nextDecisionEvents.
  destruct (bool_decide (currentIndex eh = length (loadedEvents eh))
            && negb (hasMoreEvents eh)) eqn:Hexit.
  - intros [= <- <- <- <-]. apply andb_true_iff in Hexit as [Hi Hm].
    apply bool_decide_eq_true in Hi. apply negb_true_iff in Hm.
    split_and!; auto using batch_ok_nil.
    + unfold len. simpl. lia.
    + intros _ _. by split.
  - intros Hrun. apply orderEvents_spec in Hrun as (added & Hne & Hok & Hmk & ? & ? & ? & ? & Hex);
      [|done].
    simpl in Hne, Hmk. unfold len. rewrite Hne, Hmk.
    split_and!; try done.
    intros He Hlen. apply Hex; [done|]. by apply length_zero_iff_nil.
Qed.

Lemma nextDecisionEvents_returns (eh : history) :
  history_wf eh -> exists r, nextDecisionEvents eh = Ret r.
Proof.
  intros Hwf. unfold nextDecisionEvents.
  destruct (_ && _); [eauto|]. apply orderEvents_returns; [done|lia].
Qed.

Lemma nextDecisionEvents_exhausted (eh : history) :
  exhausted eh -> nextDecisionEvents eh = Ret (eh, Some [], Some [], None).
Proof.
  intros [Hi Hm]. unfold nextDecisionEvents.
  by rewrite bool_decide_eq_true_2, Hm.
Qed.

Lemma newHistory_inv (t : workflowTask) : reorderer_inv (newHistory t).
Proof.
  split.
  - unfold history_wf. simpl. lia.
  - apply batch_ok_nil.
Qed.

Lemma pendingWork_setNext (eh : history) (n : slice HistoryEvent) :
  pendingWork (setNext eh n) = pendingWork eh.
Proof. reflexivity. Qed.

Lemma NextDecisionEvents_spec (eh eh' : history) (result markers : slice HistoryEvent)
    (err : option error) :
  reorderer_inv eh ->
  NextDecisionEvents eh = Ret (eh', result, markers, err) ->
  batch_ok (elems result) /\ reorderer_inv eh'
  /\ task (hWorkflowTask eh') = task (hWorkflowTask eh)
  /\ (err = None -> 0 < len result ->
      elems markers = markersOf (elems (next eh'))
      /\ (next eh' = None -> exhausted eh')
      /\ replayMeasure eh' < replayMeasure eh).
Proof.
  intros [Hwf Hnext]. unfold NextDecisionEvents.
  assert (Hsecond : forall eh1,
    history_wf eh1 -> batch_ok (elems (next eh1)) ->
    task (hWorkflowTask eh1) = task (hWorkflowTask eh) ->
    (next eh = None -> pendingWork eh1 + len (next eh1) <= pendingWork eh) ->
    (next eh <> None -> eh1 = eh) ->
    (if bool_decide (0 < len (next eh1)) then
       '(eh2, nextEvents, markers0, err2) ← nextDecisionEvents eh1;
       Ret (setNext eh2 nextEvents, next eh1, markers0, err2)
     else Ret (eh1, next eh1, None, None)) = Ret (eh', result, markers, err) ->
    batch_ok (elems result) /\ reorderer_inv eh'
    /\ task (hWorkflowTask eh') = task (hWorkflowTask eh)
    /\ (err = None -> 0 < len result ->
        elems markers = markersOf (elems (next eh'))
        /\ (next eh' = None -> exhausted eh')
        /\ replayMeasure eh' < replayMeasure eh)).
  { intros eh1 Hwf1 Hn1 Ht1 Hfirst Hsame.
    case_bool_decide as Hlen.
    - destruct (nextDecisionEvents eh1) as [[[[eh2 ne2] mk2] err2]| |] eqn:Hrun; try discriminate.
      cbn. intros [= <- <- <- <-].
      apply nextDecisionEvents_spec in Hrun as (Hok & Hmk & Hwf2 & Hle & Hn2 & Ht2 & Hex); [|done].
      split_and!; try done.
      + by rewrite <- Ht1.
      + intros -> _. simpl. split_and!; try done.
        * intros ->. apply Hex; [done|]. reflexivity.
        * unfold replayMeasure. rewrite pendingWork_setNext. simpl.
          destruct (next eh) as [l|] eqn:Hne.
          -- rewrite (Hsame ltac:(done)) in *. rewrite Hne in *. lia.
          -- specialize (Hfirst eq_refl). unfold len at 2. simpl. lia.
    - intros [= <- <- <- <-]. split_and!; try done. }
  destruct (next eh) as [l|] eqn:Hne.
  - cbn. apply Hsecond; try done. by rewrite Hne.
  - destruct (nextDecisionEvents eh) as [[[[eh0 ne0] mk0] err0]| |] eqn:Hrun; try discriminate.
    cbn. apply nextDecisionEvents_spec in Hrun as (Hok & Hmk & Hwf0 & Hle & Hn0 & Ht0 & Hex);
      [|done].
    destruct err0 as [e0|].
    + intros [= <- <- <- <-]. split_and!; try done; apply batch_ok_nil.
    + intros Hrun2. apply (Hsecond (setNext eh0 ne0)); done.
Qed.

Lemma NextDecisionEvents_returns (eh : history) :
  reorderer_inv eh -> exists r, NextDecisionEvents eh = Ret r.
Proof.
  intros [Hwf Hnext]. unfold NextDecisionEvents.
  assert (Hsecond : forall eh1, history_wf eh1 ->
    exists r,
      (if bool_decide (0 < len (next eh1)) then
         '(eh2, nextEvents, markers0, err2) ← nextDecisionEvents eh1;
         Ret (setNext eh2 nextEvents, next eh1, markers0, err2)
       else Ret (eh1, next eh1, None, None)) = Ret r).
  { intros eh1 Hwf1. case_bool_decide; [|eauto].
    destruct (nextDecisionEvents_returns eh1 Hwf1) as [[[[eh2 ne2] mk2] err2] ->].
    cbn. eauto. }
  destruct (next eh) as [l|] eqn:Hne.
  - cbn. by apply Hsecond.
  - destruct (nextDecisionEvents_returns eh Hwf) as [[[[eh0 ne0] mk0] err0] Hrun].
    rewrite Hrun. cbn.
    apply nextDecisionEvents_spec in Hrun as (_ & _ & Hwf0 & _); [|done].
    destruct err0; [eauto|]. by apply (Hsecond (setNext eh0 ne0)).
Qed.

(** C1, as amended.  Every call of [NextDecisionEvents] on a reorderer made by
    [newHistory] and advanced by such calls returns, and its batch holds no
    [DecisionTaskCompleted], [DecisionTaskScheduled], [DecisionTaskTimedOut]
    or [DecisionTaskFailed] event and a [DecisionTaskStarted] event only as
    its final element.  When the reorderer looks at a [DecisionTaskStarted]
    event, it emits it as the final element and ends the batch if the
    forward scan of the loaded events does not find a failure or a timeout
    as the next decision outcome (it finds a completion, or no outcome at
    all); otherwise it skips the event and goes on. *)
Theorem next_decision_events_batches :
  (forall t, reorderer_inv (newHistory t)) /\
  (forall eh, reorderer_inv eh -> exists r, NextDecisionEvents eh = Ret r) /\
  (forall eh eh' result markers err,
     reorderer_inv eh -> NextDecisionEvents eh = Ret (eh', result, markers, err) ->
     batch_ok (elems result) /\ reorderer_inv eh') /\
  (forall fuel eh nextEvents markers e,
     loadedEvents eh !! currentIndex eh = Some e ->
     GetEventType e = EventTypeDecisionTaskStarted ->
     let outcome := nextDecisionOutcome (drop (currentIndex eh) (loadedEvents eh)) in
     (~ outcomeFailed outcome ->
      orderEvents (S fuel) eh nextEvents markers
      = Ret (shrinkLoaded (advance eh), append nextEvents e, markers, None)) /\
     (outcomeFailed outcome ->
      orderEvents (S fuel) eh nextEvents markers
      = orderEvents fuel (advance eh) nextEvents markers)).
Proof.
  split_and!.
  - apply newHistory_inv.
  - apply NextDecisionEvents_returns.
  - intros eh eh' result markers err Hinv Hrun.
    apply NextDecisionEvents_spec in Hrun; tauto.
  - intros fuel eh ne mk e He Ht outcome.
    assert (Hstep : orderEvents (S fuel) eh ne mk
      = if negb (IsNextDecisionFailed eh)
        then Ret (shrinkLoaded (advance eh), append ne e, mk, None)
        else orderEvents fuel (advance eh) ne mk).
    { cbn [orderEvents]. rewrite decide_False.
      - by rewrite He, Ht.
      - apply lookup_lt_Some in He. lia. }
    rewrite Hstep. unfold IsNextDecisionFailed.
    pose proof (scanNextDecision_spec (drop (currentIndex eh) (loadedEvents eh))) as Hscan.
    fold outcome in Hscan.
    destruct (scanNextDecision _); simpl; split; intros Ho; try reflexivity.
    + destruct Ho. by apply Hscan.
    + apply Hscan in Ho. discriminate.
Qed.

(** The batch of a first decision task, by the theorem. *)
Lemma next_decision_events_batches_witness :
  batch_ok [event 1 EventTypeWorkflowExecutionStarted; event 3 EventTypeDecisionTaskStarted].
Proof.
  destruct next_decision_events_batches as (Hnew & _ & Hbatch & _).
  refine (proj1 (Hbatch (reordererOf firstDecisionHistory) _
    (Some [event 1 EventTypeWorkflowExecutionStarted; event 3 EventTypeDecisionTaskStarted])
    _ _ (Hnew _) _)).
  reflexivity.
Defined.

(** C1 as stated fails: for the history of a first decision task the started
    event is emitted as the final element of the batch, and the forward scan
    finds no completion. *)
Lemma started_emitted_without_completion :
  (exists eh' markers,
     NextDecisionEvents (reordererOf firstDecisionHistory)
     = Ret (eh', Some [event 1 EventTypeWorkflowExecutionStarted;
                       event 3 EventTypeDecisionTaskStarted], markers, None))
  /\ nextDecisionOutcome (drop 2 firstDecisionHistory) = None
  /\ nextDecisionOutcome (drop 2 firstDecisionHistory)
     <> Some EventTypeDecisionTaskCompleted.
Proof.
  split_and!.
  - eexists _, _. reflexivity.
  - reflexivity.
  - discriminate.
Qed.

(** C6, as amended.  When [NextDecisionEvents], on a reorderer made by
    [newHistory] and advanced by such calls, returns a non-empty batch and
    no error, its markers are exactly the [MarkerRecorded] events, in order,
    of the batch it has computed ahead and keeps in [next], which is the
    batch the following call returns. *)
Theorem markers_of_look_ahead_batch (eh eh' : history) (result markers : slice HistoryEvent) :
  reorderer_inv eh ->
  NextDecisionEvents eh = Ret (eh', result, markers, None) ->
  0 < len result ->
  elems markers = markersOf (elems (next eh'))
  /\ exists eh'' markers' err',
       NextDecisionEvents eh' = Ret (eh'', Some (elems (next eh')), markers', err').
Proof.
  intros Hinv Hrun Hpos.
  pose proof (NextDecisionEvents_spec _ _ _ _ _ Hinv Hrun) as (_ & Hinv' & _ & Hmk).
  destruct (Hmk eq_refl Hpos) as (Hmarkers & Hnil & _).
  split; [done|].
  destruct (NextDecisionEvents_returns eh' Hinv') as [[[[eh'' r'] mk'] err'] Hnext].
  exists eh'', mk', err'. rewrite Hnext. do 3 f_equal.
  revert Hnext. unfold NextDecisionEvents.
  destruct (next eh') as [l|] eqn:Hne.
  - cbn. rewrite Hne. case_bool_decide.
    + destruct (nextDecisionEvents eh') as [[[[? ?] ?] ?]| |]; try discriminate.
      cbn. by intros [= _ <- _ _].
    + by intros [= _ <- _ _].
  - rewrite (nextDecisionEvents_exhausted eh' (Hnil eq_refl)). cbn.
    by intros [= _ <- _ _].
Qed.

(** The first call on [markerHistory]: the marker of the second batch. *)
Lemma markers_of_look_ahead_batch_witness :
  [event 5 EventTypeMarkerRecorded]
  = markersOf [event 5 EventTypeMarkerRecorded; event 7 EventTypeDecisionTaskStarted].
Proof.
  refine (proj1 (markers_of_look_ahead_batch (reordererOf markerHistory)
    (mkHistoryWrapper (mkWorkflowTask (decisionTask markerHistory) None) [] 0
       (Some [event 5 EventTypeMarkerRecorded; event 7 EventTypeDecisionTaskStarted]))
    (Some [event 1 EventTypeWorkflowExecutionStarted; event 3 EventTypeDecisionTaskStarted])
    (Some [event 5 EventTypeMarkerRecorded]) (newHistory_inv _) _ _)).
  - reflexivity.
  - unfold len. simpl. lia.
Defined.

(** C6 as stated fails: the first call on [markerHistory] returns the batch
    of events 1 and 3, which holds no marker, with the marker event 5. *)
Lemma markers_not_of_returned_batch :
  exists eh' result markers,
    NextDecisionEvents (reordererOf markerHistory) = Ret (eh', result, markers, None)
    /\ 0 < len result
    /\ elems markers = [event 5 EventTypeMarkerRecorded]
    /\ markersOf (elems result) = []
    /\ elems markers <> markersOf (elems result).
Proof.
  eexists _, _, _. split_and!; [reflexivity | unfold len; simpl; lia | reflexivity | reflexivity | discriminate].
Qed.

(** * The replay matcher *)

Lemma substring_all (s : string) : substring 0 (String.length s) s = s.
Proof. induction s as [|c s IH]; simpl; [done|]. by rewrite IH. Qed.

Lemma LastIndexByte_range (name : string) (c : ascii) :
  (-1 <= LastIndexByte name c < Z.of_nat (String.length name))%Z.
Proof.
  induction name as [|a rest IH]; simpl; [lia|].
  destruct (0 <=? LastIndexByte rest c)%Z eqn:Hr.
  - apply Z.leb_le in Hr. lia.
  - destruct (Ascii.eqb a c); lia.
Qed.

Lemma LastIndexByte_hasDot (name : string) :
  hasDot name = negb (LastIndexByte name "." <? 0)%Z.
Proof.
  induction name as [|a rest IH]; simpl; [done|].
  rewrite IH. destruct (0 <=? LastIndexByte rest ".")%Z eqn:Hr.
  - apply Z.leb_le in Hr.
    replace (LastIndexByte rest "." <? 0)%Z with false by (symmetry; apply Z.ltb_ge; lia).
    replace (LastIndexByte rest "." + 1 <? 0)%Z with false by (symmetry; apply Z.ltb_ge; lia).
    simpl. by rewrite orb_true_r.
  - apply Z.leb_gt in Hr.
    replace (LastIndexByte rest "." <? 0)%Z with true by (symmetry; by apply Z.ltb_lt).
    simpl. rewrite orb_false_r. by destruct (Ascii.eqb a ".").
Qed.

Lemma hasDot_false_afterFinalDot (name : string) :
  hasDot name = false -> afterFinalDot name = name /\ endsWithDot name = false.
Proof.
  induction name as [|a rest IH]; simpl; [done|].
  intros [Ha Hrest]%orb_false_iff. rewrite Hrest, Ha.
  split; [done|]. destruct rest; [done|]. by apply IH.
Qed.

Lemma lastPartOfName_dotted (name : string) :
  (0 <= LastIndexByte name ".")%Z ->
  substring (Z.to_nat (LastIndexByte name "." + 1))
    (String.length name - Z.to_nat (LastIndexByte name "." + 1)) name
  = afterFinalDot name
  /\ (endsWithDot name = true <->
      LastIndexByte name "." = (Z.of_nat (String.length name) - 1)%Z).
Proof.
  induction name as [|a rest IH]; [simpl; lia|].
  cbn [LastIndexByte afterFinalDot String.length].
  rewrite (LastIndexByte_hasDot rest).
  pose proof (LastIndexByte_range rest ".") as Hrange.
  destruct (0 <=? LastIndexByte rest ".")%Z eqn:Hr.
  - apply Z.leb_le in Hr. intros _. destruct (IH Hr) as [IH1 IH2].
    replace (LastIndexByte rest "." <? 0)%Z with false by (symmetry; apply Z.ltb_ge; lia).
    cbn [negb]. split.
    + rewrite <- IH1.
      replace (Z.to_nat (LastIndexByte rest "." + 1 + 1))
        with (S (Z.to_nat (LastIndexByte rest "." + 1))) by lia.
      reflexivity.
    + destruct rest as [|b rest']; [simpl in Hr; lia|].
      change (endsWithDot (String a (String b rest'))) with (endsWithDot (String b rest')).
      rewrite IH2. lia.
  - apply Z.leb_gt in Hr.
    replace (LastIndexByte rest "." <? 0)%Z with true by (symmetry; by apply Z.ltb_lt).
    cbn [negb].
    destruct (Ascii.eqb a ".") eqn:Ha; [intros _|lia].
    split.
    + simpl. replace (String.length rest - 0) with (String.length rest) by lia.
      apply substring_all.
    + destruct rest as [|b rest']; [simpl; rewrite Ha; done|].
      change (endsWithDot (String a (String b rest'))) with (endsWithDot (String b rest')).
      assert (Hnd : hasDot (String b rest') = false).
      { rewrite LastIndexByte_hasDot. apply negb_false_iff. by apply Z.ltb_lt. }
      apply hasDot_false_afterFinalDot in Hnd as [_ ->].
      cbn [String.length]. split; [discriminate|lia].
Qed.

Lemma lastPartOfName_spec (name : string) : lastPartOfName name = namePart name.
Proof.
  unfold lastPartOfName, namePart.
  destruct (LastIndexByte name "." <? 0)%Z eqn:Hneg.
  - simpl. assert (Hnd : hasDot name = false) by (by rewrite LastIndexByte_hasDot, Hneg).
    by apply hasDot_false_afterFinalDot in Hnd as [-> ->].
  - apply Z.ltb_ge in Hneg. destruct (lastPartOfName_dotted name Hneg) as [Hsub Hend].
    simpl. destruct (_ =? _)%Z eqn:Heq.
    + apply Z.eqb_eq in Heq. apply Hend in Heq. by rewrite Heq.
    + apply Z.eqb_neq in Heq. destruct (endsWithDot name); [by destruct Heq; apply Hend|].
      exact Hsub.
Qed.

(** C5, as amended.  In non-strict mode a [ScheduleActivity] decision matches
    an event exactly when the event is [ActivityTaskScheduled], the activity
    ids are equal, the event and the decision both carry their attributes, and
    the two activity type names have the same [namePart]: the component after
    the final dot, or the whole name when it ends with a dot.  When the ids
    are equal and the attributes of the event or of the decision are absent,
    the comparison of the type names panics. *)
Theorem schedule_activity_match (d : Decision) (e : HistoryEvent) :
  GetDecisionType d = DecisionTypeScheduleActivityTask ->
  (isDecisionMatchEvent d e false = Ret true <->
   GetEventType e = EventTypeActivityTaskScheduled
   /\ evHasActivityTaskScheduled e = true /\ decHasScheduleActivityTask d = true
   /\ (evActivityTaskScheduled e).1.1.1 = (decScheduleActivityTask d).1.1.1
   /\ namePart (evActivityTaskScheduled e).1.1.2 = namePart (decScheduleActivityTask d).1.1.2)
  /\ (isDecisionMatchEvent d e false = Panic "nil pointer dereference" <->
      GetEventType e = EventTypeActivityTaskScheduled
      /\ (evActivityTaskScheduled e).1.1.1 = (decScheduleActivityTask d).1.1.1
      /\ (evHasActivityTaskScheduled e = false \/ decHasScheduleActivityTask d = false)).
Proof.
  intros Hd. unfold isDecisionMatchEvent. rewrite Hd.
  rewrite <- !lastPartOfName_spec.
  unfold isType. case_bool_decide as Ht; cbn [negb].
  - destruct (evActivityTaskScheduled e) as [[[eId eType] eTaskList] eInput].
    destruct (decScheduleActivityTask d) as [[[dId dType] dTaskList] dInput].
    cbn [fst snd andb]. rewrite !orb_false_r. unfold neqb.
    destruct (String.eqb_spec eId dId) as [Hid|Hid]; cbn [negb].
    + destruct (evHasActivityTaskScheduled e), (decHasScheduleActivityTask d); cbn [negb orb].
      * destruct (String.eqb_spec (lastPartOfName eType) (lastPartOfName dType)) as [Hn|Hn];
          cbn [negb]; split; split; try done; try (intros (_ & _ & _ & _ & ?); done);
          intros (_ & _ & [?|?]); done.
      * split; split; try done; [intros (_ & _ & ? & _); done|]. intros _. split_and!; auto.
      * split; split; try done; [intros (_ & ? & _); done|]. intros _. split_and!; auto.
      * split; split; try done; [intros (_ & ? & _); done|]. intros _. split_and!; auto.
    + split; split; try done; [intros (_ & _ & _ & ? & _); done|intros (_ & ? & _); done].
  - split; split; try done; by intros [? _].
Qed.

(** Scenario E3: "a.b.Foo" matches "x.y.Foo" under the same activity id. *)
Lemma schedule_activity_match_witness :
  isDecisionMatchEvent (scheduleActivity "1" "a.b.Foo")
    (activityTaskScheduled 5 "1" "x.y.Foo") false = Ret true.
Proof.
  apply (schedule_activity_match (scheduleActivity "1" "a.b.Foo")
           (activityTaskScheduled 5 "1" "x.y.Foo")).
  - reflexivity.
  - split_and!; reflexivity.
Defined.

(** C5 as stated fails: the names "a." and "b." have the same (empty)
    component after the final dot, and the decision does not match. *)
Lemma trailing_dot_names_do_not_match :
  scheduleActivityMatches (scheduleActivity "1" "a.") (activityTaskScheduled 5 "1" "b.")
  /\ isDecisionMatchEvent (scheduleActivity "1" "a.") (activityTaskScheduled 5 "1" "b.") false
     = Ret false.
Proof. split; [split_and!; reflexivity | reflexivity]. Qed.

(** * The workflow execution context *)

Section ContextProperties.
Context {St : Type} `{!EventHandlerOps St} `{!SDK}.

Implicit Types (w : workflowExecutionContextImpl St) (σ : World St).

(** C3.  [Unlock] removes the run id of the context from the cache, before it
    releases the mutex, exactly when the error given is not nil, or the
    stored error is not nil, or the workflow is completed, or sticky
    execution is disabled and there is no pending local-activity work; in
    particular a completed context or one with a stored error is no longer
    in the cache after [Unlock].  There is pending local-activity work when
    the workflow is not completed and the event handler holds a pending
    local-activity task. *)
Theorem Unlock_removes_iff σ (p : nat) w (e : option error) :
  contexts σ !! p = Some w ->
  let remove :=
    e <> None \/ err w <> None \/ isWorkflowCompleted w = true
    \/ (disableStickyExecution (wth w) = true /\ hasPendingLocalActivityWork w = false) in
  exists σ',
    Unlock σ p e = Ret σ'
    /\ (remove ->
        workflowCache σ' = delete (InfoRunId (workflowInfo w)) (workflowCache σ)
        /\ effects σ' = effects σ ++ [CacheDelete (InfoRunId (workflowInfo w)); MutexUnlock p])
    /\ (~ remove ->
        workflowCache σ' = workflowCache σ /\ effects σ' = effects σ ++ [MutexUnlock p])
    /\ (isWorkflowCompleted w = true \/ err w <> None ->
        workflowCache σ' !! InfoRunId (workflowInfo w) = None)
    /\ (hasPendingLocalActivityWork w = true <->
        isWorkflowCompleted w = false
        /\ exists eh, eventHandler w = Some eh /\ pendingLaTasks eh <> []).
Proof.
  intros Hw remove. unfold Unlock, loadContext. rewrite Hw. cbn.
  assert (Hpending : hasPendingLocalActivityWork w = true <->
    isWorkflowCompleted w = false
    /\ exists eh, eventHandler w = Some eh /\ pendingLaTasks eh <> []).
  { unfold hasPendingLocalActivityWork.
    rewrite andb_true_iff, negb_true_iff. destruct (eventHandler w) as [eh|].
    - rewrite bool_decide_eq_true. split.
      + intros [Hc Hlen]. split; [done|]. exists eh. split; [done|].
        intros Hnil. rewrite Hnil in Hlen. simpl in Hlen. lia.
      + intros [Hc (eh' & [= <-] & Hne)]. split; [done|].
        destruct (pendingLaTasks eh); [done|simpl; lia].
    - split; [by intros [_ ?]|by intros [_ (? & ? & _)]]. }
  assert (Hiff : unlockRemoves w e = true <-> remove).
  { unfold unlockRemoves, remove.
    rewrite !orb_true_iff, andb_true_iff, negb_true_iff.
    destruct e, (err w); intuition congruence. }
  eexists. split; [reflexivity|].
  destruct (unlockRemoves w e) eqn:Hr.
  - split_and!.
    + intros _. simpl. split; [done|]. by rewrite <- app_assoc.
    + intros Hn. destruct Hn. by apply Hiff.
    + intros _. simpl. apply lookup_delete_eq.
    + exact Hpending.
  - split_and!.
    + intros Hrm. apply Hiff in Hrm. discriminate.
    + done.
    + intros Hc. assert (remove) as Hrm by (unfold remove; tauto).
      apply Hiff in Hrm. discriminate.
    + exact Hpending.
Qed.

(** What [onEviction] does on a context that has a local-activity tunnel:
    it sends one [ResetStickyTaskList] request with the domain, workflow id
    and run id of the context to the result channel exactly when the stored
    error is nil and the workflow is not completed; the send comes before
    the state is cleared, and the context ends destroyed. *)
Lemma onEviction_resets_live_context σ (p : nat) w :
  contexts σ !! p = Some w ->
  is_Some (laTunnel w) ->
  let request :=
    mkResetSticky (InfoDomain (workflowInfo w)) (InfoWorkflowId (workflowInfo w))
      (InfoRunId (workflowInfo w)) in
  let live := err w = None /\ isWorkflowCompleted w = false in
  exists σ' w',
    onEviction σ p = Ret σ'
    /\ (live ->
        resultCh (tunnel σ') = resultCh (tunnel σ) ++ [request]
        /\ effects σ' = effects σ
             ++ [MutexLock p; ResultChSend request; StateCleared p; MutexUnlock p])
    /\ (~ live ->
        resultCh (tunnel σ') = resultCh (tunnel σ)
        /\ effects σ' = effects σ ++ [MutexLock p; StateCleared p; MutexUnlock p])
    /\ contexts σ' !! p = Some w' /\ eventHandler w' = None /\ isDestroyed w' = true.
Proof.
  intros Hw [tp Htp] request live. unfold onEviction, loadContext. rewrite Hw. cbn.
  assert (Hiff : shouldResetStickyOnEviction w = true <-> live).
  { unfold shouldResetStickyOnEviction, live.
    destruct (err w), (isWorkflowCompleted w); simpl; intuition congruence. }
  unfold queueResetStickinessTask. rewrite Htp.
  destruct (shouldResetStickyOnEviction w) eqn:Hs; cbn;
    eexists _, (clearState w); (split; [reflexivity|]); split_and!; try done.
  - intros _. simpl. split; [done|]. by rewrite <- !app_assoc.
  - intros Hn. destruct Hn. by apply Hiff.
  - simpl. apply lookup_insert_eq.
  - intros Hl. apply Hiff in Hl. discriminate.
  - intros _. simpl. split; [done|]. by rewrite <- !app_assoc.
  - simpl. apply lookup_insert_eq.
Qed.

(** Without a tunnel the send of a live context panics and the state is not
    cleared. *)
Lemma onEviction_without_tunnel σ (p : nat) w :
  contexts σ !! p = Some w -> laTunnel w = None ->
  err w = None -> isWorkflowCompleted w = false ->
  onEviction σ p = Panic "nil pointer dereference".
Proof.
  intros Hw Ht He Hc. unfold onEviction, loadContext. rewrite Hw. cbn.
  unfold shouldResetStickyOnEviction, queueResetStickinessTask. by rewrite He, Hc, Ht.
Qed.

(** C10.  On a task whose history has no events [ResetIfStale] returns nil
    and leaves the context, the task and the iterator as they are. *)
Theorem ResetIfStale_empty_history w (t : PollForDecisionTaskResponse)
    (it : option HistoryIterator) (h : History) :
  TaskHistory t = Some h -> Events h = [] -> ResetIfStale w t it = Ret (w, t, it, None).
Proof.
  intros Hh Hempty. unfold ResetIfStale, HistoryEvents. by rewrite Hh, Hempty.
Qed.

(** A task without a history is not a task with an empty one: the length of
    [task.History.Events] is read through the nil pointer. *)
Lemma ResetIfStale_nil_history w (t : PollForDecisionTaskResponse)
    (it : option HistoryIterator) :
  TaskHistory t = None -> ResetIfStale w t it = Panic "nil pointer dereference".
Proof. intros Hh. unfold ResetIfStale. by rewrite Hh. Qed.

End ContextProperties.

(** * The workflow task handler *)

Section TaskProperties.
Context {St : Type} `{!EventHandlerOps St} `{!SDK}.

Implicit Types (w : workflowExecutionContextImpl St) (σ : World St).

Lemma sameFrame_refl w : sameFrame w w.
Proof. by repeat split. Qed.

Lemma sameFrame_trans w1 w2 w3 : sameFrame w1 w2 -> sameFrame w2 w3 -> sameFrame w1 w3.
Proof.
  intros (?&?&?&?&?&?&?) (?&?&?&?&?&?&?). repeat split; try congruence. auto.
Qed.

Lemma handlerProcessEvent_frame w (ev : HistoryEvent) (isReplay isLast : bool) w'
    (e : option error) :
  handlerProcessEvent w ev isReplay isLast = Ret (w', e) ->
  sameFrame w w' /\ is_Some (eventHandler w) /\ is_Some (eventHandler w').
Proof.
  unfold handlerProcessEvent. destruct (eventHandler w) as [eh|] eqn:Heh; [|discriminate].
  destruct (ProcessEvent eh ev isReplay isLast) as [[eh1 completion] e1].
  intros [= <- <-]. destruct completion as [[r ce]|]; repeat split; simpl; eauto.
Qed.

Lemma applyMarkers_frame (la : bool) (ms : list HistoryEvent) :
  forall w w' (e : option error),
  applyMarkers la w ms = Ret (w', e) ->
  sameFrame w w' /\ (eventHandler w = None -> w' = w /\ e = None).
Proof.
  induction ms as [|m ms IH]; intros w w' e; cbn [applyMarkers].
  - intros [= <- <-]. split; [apply sameFrame_refl|done].
  - destruct (Bool.eqb _ la).
    + destruct (handlerProcessEvent w m true false) as [[w1 e1]| |] eqn:Hp; try discriminate.
      apply handlerProcessEvent_frame in Hp as (Hf & Hs & Hs'). cbn.
      destruct e1 as [e1|].
      * intros [= <- <-]. split; [done|]. intros Hn. rewrite Hn in Hs. by destruct Hs.
      * intros Hrest. apply IH in Hrest as [Hf' _]. split; [by eapply sameFrame_trans|].
        intros Hn. rewrite Hn in Hs. by destruct Hs.
    + apply IH.
Qed.

Lemma processBatchEvents_frame (rh : history) (skip : bool) (size : nat)
    (events : list HistoryEvent) :
  forall w (i : nat) (re : list HistoryEvent) w' (re' : list HistoryEvent) (e : option error),
  processBatchEvents w rh skip size i events re = Ret (w', re', e) ->
  sameFrame w w'
  /\ (eventHandler w = None -> e = None ->
      w' = w /\ Forall (fun ev => isPreloadMarkerEvent ev = true) events).
Proof.
  induction events as [|ev events IH]; intros w i re w' re' e; cbn [processBatchEvents].
  - intros [= <- <- <-]. split; [apply sameFrame_refl|]. by split.
  - destruct (isPreloadMarkerEvent ev) eqn:Hm.
    + intros Hrest. apply IH in Hrest as [Hf Hn]. split; [done|].
      intros Hnone He. destruct (Hn Hnone He) as [-> Hall]. split; [done|].
      by constructor.
    + destruct (executeAnyPressurePoints (wth w) ev (IsReplayEvent rh ev)) as [e1|].
      * intros [= <- <- <-]. split; [apply sameFrame_refl|]. discriminate.
      * destruct (handlerProcessEvent w ev _ _) as [[w1 e1]| |] eqn:Hp; try discriminate.
        apply handlerProcessEvent_frame in Hp as (Hf & Hs & Hs'). cbn.
        destruct e1 as [e1|].
        -- intros [= <- <- <-]. split; [done|]. discriminate.
        -- intros Hrest. apply IH in Hrest as [Hf' _].
           split; [by eapply sameFrame_trans|].
           intros Hn. rewrite Hn in Hs. by destruct Hs.
Qed.

Lemma setEventHandler_frame w (h : workflowExecutionEventHandlerImpl St) :
  sameFrame w (setEventHandler w (Some h)).
Proof. repeat split; simpl; eauto. Qed.

Lemma processEvents_frame (fuel : nat) :
  forall w (rh : history) (skip : bool) (rd : list Decision) (re : list HistoryEvent)
         w' (outcome : replayOutcome),
  processEvents fuel w rh skip rd re = Ret (w', outcome) -> sameFrame w w'.
Proof.
  induction fuel as [|fuel IH]; intros w rh skip rd re w' outcome; [discriminate|].
  cbn [processEvents].
  destruct (NextDecisionEvents rh) as [[[[rh1 reordered] markers] e]| |]; try discriminate.
  cbn. destruct e as [e|]; [intros [= <- _]; apply sameFrame_refl|].
  case_bool_decide; [intros [= <- _]; apply sameFrame_refl|].
  destruct (applyMarkers false w (elems markers)) as [[w1 e1]| |] eqn:H1; try discriminate.
  apply applyMarkers_frame in H1 as [Hf1 _]. cbn.
  destruct e1 as [e1|]; [by intros [= <- _]|].
  destruct (processBatchEvents w1 rh1 skip _ 0 (elems reordered) re)
    as [[[w2 re1] e2]| |] eqn:H2; try discriminate.
  apply processBatchEvents_frame in H2 as [Hf2 _]. cbn.
  destruct e2 as [e2|]; [intros [= <- _]; by eapply sameFrame_trans|].
  destruct (applyMarkers true w2 (elems markers)) as [[w3 e3]| |] eqn:H3; try discriminate.
  apply applyMarkers_frame in H3 as [Hf3 _]. cbn.
  assert (Hf : sameFrame w w3) by (eapply sameFrame_trans; [|done]; by eapply sameFrame_trans).
  destruct e3 as [e3|]; [by intros [= <- _]|].
  destruct (match last (elems reordered) with Some _ => _ | None => _ end).
  - destruct (eventHandler w3) as [eh|] eqn:Heh; [|discriminate].
    destruct (getDecisions eh) as [eh1 eventDecisions].
    intros Hrest. apply IH in Hrest.
    eapply sameFrame_trans; [done|]. eapply sameFrame_trans; [|done].
    apply setEventHandler_frame.
  - intros Hrest. apply IH in Hrest. by eapply sameFrame_trans.
Qed.

Lemma processEvents_nil_handler (fuel : nat) w (rh : history) (skip : bool)
    (rd : list Decision) (re : list HistoryEvent) w' (rd' : list Decision)
    (re' : list HistoryEvent) :
  eventHandler w = None ->
  processEvents fuel w rh skip rd re = Ret (w', ReplayDone rd' re') ->
  exists rh1 r mk, NextDecisionEvents rh = Ret (rh1, r, mk, None) /\ len r = 0.
Proof.
  intros Hnone. destruct fuel as [|fuel]; [discriminate|]. cbn [processEvents].
  destruct (NextDecisionEvents rh) as [[[[rh1 reordered] markers] e]| |]; try discriminate.
  cbn. destruct e as [e|]; [discriminate|].
  case_bool_decide as Hlen; [intros _; by eexists _, _, _|].
  destruct (applyMarkers false w (elems markers)) as [[w1 e1]| |] eqn:H1; try discriminate.
  apply applyMarkers_frame in H1 as [_ H1]. destruct (H1 Hnone) as [-> ->]. cbn.
  destruct (processBatchEvents w rh1 skip _ 0 (elems reordered) re)
    as [[[w2 re1] e2]| |] eqn:H2; try discriminate.
  apply processBatchEvents_frame in H2 as [_ H2]. cbn.
  destruct e2 as [e2|]; [discriminate|]. destruct (H2 Hnone eq_refl) as [-> Hall].
  destruct (applyMarkers true w (elems markers)) as [[w3 e3]| |] eqn:H3; try discriminate.
  apply applyMarkers_frame in H3 as [_ H3]. destruct (H3 Hnone) as [-> ->]. cbn.
  destruct (last (elems reordered)) as [lastEvent|] eqn:Hlast.
  - assert (Hmarker : isPreloadMarkerEvent lastEvent = true).
    { rewrite Forall_forall in Hall. apply Hall.
      apply last_Some in Hlast as [l' ->]. apply elem_of_app. right. by left. }
    unfold IsReplayEvent. unfold isPreloadMarkerEvent in Hmarker.
    apply bool_decide_eq_true in Hmarker. rewrite Hmarker. simpl. rewrite orb_true_r.
    by rewrite Hnone.
  - apply last_None in Hlast. by rewrite Hlast in Hlen.
Qed.




Lemma orderEvents_started_step (fuel : nat) (eh : history) (ne mk : slice HistoryEvent)
    (e : HistoryEvent) :
  loadedEvents eh !! currentIndex eh = Some e ->
  GetEventType e = EventTypeWorkflowExecutionStarted ->
  orderEvents (S fuel) eh ne mk
  = orderEvents fuel (advance eh) (append ne e)
      (if isPreloadMarkerEvent e then append mk e else mk).
Proof.
  intros He Ht. cbn [orderEvents]. rewrite decide_False.
  - by rewrite He, Ht.
  - apply lookup_lt_Some in He. lia.
Qed.

Lemma first_batch_nonempty (t : workflowTask) (rh1 : history) (r mk : slice HistoryEvent) :
  isFullHistory (HistoryEvents (task t)) = true ->
  NextDecisionEvents (newHistory t) = Ret (rh1, r, mk, None) -> 0 < len r.
Proof.
  intros Hfull. unfold NextDecisionEvents, newHistory. cbn [next].
  destruct (HistoryEvents (task t)) as [|first rest] eqn:Hev; [discriminate|].
  simpl in Hfull. apply bool_decide_eq_true in Hfull.
  set (eh := mkHistoryWrapper t (first :: rest) 0 None).
  assert (Hwf : history_wf eh) by (unfold history_wf; simpl; lia).
  assert (Hfirst : forall eh0 ne0 mk0 err0,
    nextDecisionEvents eh = Ret (eh0, ne0, mk0, err0) -> 0 < len ne0).
  { intros eh0 ne0 mk0 err0. unfold nextDecisionEvents.
    rewrite bool_decide_eq_false_2 by (simpl; lia). cbn [andb].
    rewrite (orderEvents_started_step _ eh None None first) by done.
    intros Hrun. apply orderEvents_spec in Hrun as (added & Hne & _).
    - unfold len. rewrite Hne. simpl. lia.
    - unfold history_wf. simpl. lia. }
  destruct (nextDecisionEvents eh) as [[[[eh0 ne0] mk0] err0]| |] eqn:Hrun; try discriminate.
  specialize (Hfirst _ _ _ _ eq_refl). cbn.
  destruct err0; [discriminate|]. cbn [next setNext].
  rewrite bool_decide_eq_true_2 by done.
  destruct (nextDecisionEvents (setNext eh0 ne0)) as [[[[eh2 ne2] mk2] err2]| |];
    try discriminate.
  cbn. by intros [= _ <- _ _].
Qed.

Lemma ResetIfStale_full_history w (t : PollForDecisionTaskResponse)
    (it : option HistoryIterator) :
  isFullHistory (HistoryEvents t) = true ->
  exists w1,
    ResetIfStale w t it = Ret (w1, t, it, None) /\ wth w1 = wth w
    /\ (is_Some (eventHandler w) -> is_Some (eventHandler w1)).
Proof.
  intros Hfull. unfold ResetIfStale.
  destruct (TaskHistory t) as [h|] eqn:Hh;
    [|unfold HistoryEvents in Hfull; by rewrite Hh in Hfull].
  destruct (HistoryEvents t) as [|first rest] eqn:Hev; [discriminate|].
  destruct (negb _); [|by eexists].
  unfold resetStateIfDestroyed. simpl. rewrite Hev, Hfull. simpl.
  eexists. split; [reflexivity|]. simpl. eauto.
Qed.

Lemma replayTask_full_history w (t : PollForDecisionTaskResponse)
    (it : option HistoryIterator) w1 (skip : bool) (rd : list Decision)
    (re : list HistoryEvent) :
  Query t = None -> isFullHistory (HistoryEvents t) = true ->
  replayTask w t it = Ret (w1, skip, ReplayDone rd re) ->
  skip = false /\ currentDecisionTask w1 = Some t /\ wth w1 = wth w
  /\ is_Some (eventHandler w1).
Proof.
  intros Hq Hfull. unfold replayTask.
  destruct (ResetIfStale_full_history w t it Hfull) as (w0 & -> & Hwth & _).
  cbn -[processEvents].
  unfold skipReplayCheck. cbn [currentDecisionTask SetCurrentTask]. rewrite Hq, Hfull.
  cbn -[processEvents].
  match goal with
  | |- context [processEvents ?f ?a ?b ?c ?d ?e] =>
      destruct (processEvents f a b c d e) as [[w3 outcome]| |] eqn:Hrun; try discriminate
  end.
  cbn. intros [= <- <- ->].
  pose proof (processEvents_frame _ _ _ _ _ _ _ _ Hrun) as (_ & Hw & _ & Hc & _ & _ & Hh).
  split_and!; try done.
  - by rewrite Hw.
  - apply Hh. destruct (eventHandler (SetCurrentTask w0 t)) eqn:Heh; [done|].
    destruct (processEvents_nil_handler _ _ _ _ _ _ _ _ _ Heh Hrun)
      as (rh1 & r & mk & Hnext & Hlen).
    apply first_batch_nonempty in Hnext; [lia|done].
Qed.

(** C2.  For a non-query task with a full history whose replay ends without
    error and whose replayed decisions do not match the history:
    under [FailWorkflow], [ProcessWorkflowTask] returns a
    [RespondDecisionTaskCompleted] request whose last decision is a
    [FailWorkflowExecution] with reason "nondeterministic workflow" and no
    error; under [BlockWorkflow] it returns the mismatch error and no
    request. *)
Theorem nondeterminism_policy w (tunnel : localActivityTunnel)
    (t : PollForDecisionTaskResponse) (it : option HistoryIterator) w1 (skip : bool)
    (replayDecisions : list Decision) (respondEvents : list HistoryEvent)
    (mismatch : error) :
  Query t = None -> isFullHistory (HistoryEvents t) = true ->
  replayTask w t it = Ret (w1, skip, ReplayDone replayDecisions respondEvents) ->
  matchReplayWithHistory replayDecisions respondEvents = Ret (Some mismatch) ->
  match nonDeterministicWorkflowPolicy (wth w) with
  | NonDeterministicWorkflowPolicyFailWorkflow =>
      exists w' decisions,
        ProcessWorkflowTask w tunnel t it
        = Ret (w', tunnel,
               Some (RespondDecisionTaskCompletedRequest (TaskToken t)
                       (decisions
                        ++ [mkDecision DecisionTypeFailWorkflowExecution
                              (FailWorkflowExecutionDecisionAttributes
                                 "nondeterministic workflow" (errorMessage mismatch))])
                       (identity (wth w)) true false),
               None)
  | NonDeterministicWorkflowPolicyBlockWorkflow =>
      ProcessWorkflowTask w tunnel t it = Ret (w1, tunnel, None, Some mismatch)
  | NonDeterministicWorkflowPolicyOther _ =>
      ProcessWorkflowTask w tunnel t it = Panic "unknown mismatched workflow history policy."
  end.
Proof.
  intros Hq Hfull Hreplay Hmismatch.
  destruct (replayTask_full_history _ _ _ _ _ _ _ Hq Hfull Hreplay)
    as (-> & Htask & Hwth & [eh Heh]).
  unfold ProcessWorkflowTask. rewrite Hreplay. cbn. rewrite Hmismatch, Hwth.
  destruct (nonDeterministicWorkflowPolicy (wth w)); [done| |done].
  unfold Complete. rewrite Heh. cbn.
  unfold CompleteDecisionTask. cbn [currentDecisionTask completeWorkflow]. rewrite Htask.
  unfold startLocalActivities, hasPendingLocalActivityWork.
  cbn [isWorkflowCompleted negb andb]. cbn.
  unfold respondToTask.
  change (eventHandler (completeWorkflow w1 _ _)) with (eventHandler w1).
  rewrite Heh. destruct (getDecisions eh) as [eh1 eventDecisions] eqn:Hd.
  unfold wth_completeWorkflow. rewrite Hq.
  case_bool_decide; cbn; rewrite Hwth; eauto.
Qed.

Lemma sendUnstarted_returns (pending unstarted : list string) :
  forall tunnel, sendUnstarted pending unstarted tunnel <> Diverge.
Proof.
  induction unstarted as [|a rest IH]; intros tunnel; cbn [sendUnstarted]; [done|].
  case_bool_decide; [apply IH|done].
Qed.

Lemma startLocalActivities_spec w (tunnel : localActivityTunnel) (wait : bool) :
  startLocalActivities w tunnel wait <> Diverge
  /\ forall w' tunnel' stop,
       startLocalActivities w tunnel wait = Ret (w', tunnel', stop) ->
       previousStartedEventID w' = previousStartedEventID w.
Proof.
  unfold startLocalActivities. destruct (_ && _); [|split; [done|]].
  2:{ by intros w' tunnel' stop [= <- _ _]. }
  destruct (eventHandler w) as [eh|]; [|done].
  case_bool_decide.
  - pose proof (sendUnstarted_returns (pendingLaTasks eh) (unstartedLaTasks eh) tunnel) as Hs.
    destruct (sendUnstarted _ _ tunnel) as [tunnel1| |]; try done. cbn.
    split; [done|]. by intros w' tunnel' stop [= <- _ _].
  - cbn. split; [done|]. by intros w' tunnel' stop [= <- _ _].
Qed.

Lemma respondToTask_spec w (tunnel : localActivityTunnel)
    (t : PollForDecisionTaskResponse) (wait : bool) :
  respondToTask w tunnel t wait <> Diverge
  /\ forall w' tunnel' resp,
       respondToTask w tunnel t wait = Ret (w', tunnel', resp) ->
       previousStartedEventID w' = previousStartedEventID w.
Proof.
  unfold respondToTask. destruct (eventHandler w) as [eh|]; [|done].
  destruct (getDecisions eh) as [eh1 eventDecisions]. cbv zeta.
  destruct (wth_completeWorkflow _ _ _ _ _ _) as [eh2 completeRequest].
  split; [done|]. intros w' tunnel' resp [= <- _ _].
  case_bool_decide; simpl; done.
Qed.

Lemma CompleteDecisionTask_spec w (tunnel : localActivityTunnel) (wait : bool) :
  CompleteDecisionTask w tunnel wait <> Diverge
  /\ forall w' tunnel' resp,
       CompleteDecisionTask w tunnel wait = Ret (w', tunnel', resp) ->
       previousStartedEventID w' = previousStartedEventID w.
Proof.
  unfold CompleteDecisionTask. destruct (currentDecisionTask w) as [t|]; [|split; [done|]].
  2:{ by intros w' tunnel' resp [= <- _ _]. }
  destruct (startLocalActivities_spec w tunnel wait) as [Hd Hp].
  destruct (startLocalActivities w tunnel wait) as [[[w1 tunnel1] stop]| |]; try done.
  cbn. specialize (Hp _ _ _ eq_refl).
  destruct stop; [split; [done|]; by intros w' tunnel' resp [= <- _ _]|].
  destruct (respondToTask_spec w1 tunnel1 t wait) as [Hd' Hp'].
  split; [done|]. intros w' tunnel' resp Hr. rewrite <- Hp. eauto.
Qed.






Lemma resetStateIfDestroyed_spec w (t : PollForDecisionTaskResponse)
    (it : option HistoryIterator) w1 (t1 : PollForDecisionTaskResponse)
    (it1 : option HistoryIterator) (e : option error) :
  resetStateIfDestroyed w t it = Ret (w1, t1, it1, e) ->
  Query t1 = Query t
  /\ (isDestroyed w = false -> w1 = w)
  /\ (isDestroyed w = true -> previousStartedEventID w1 = 0%Z).
Proof.
  unfold resetStateIfDestroyed. destruct (isDestroyed w).
  - destruct (negb _).
    + unfold resetHistory. destruct it as [it0|]; [|discriminate].
      destruct (GetNextPage (Reset it0)) as [it2 [page|e1]]; cbn;
        intros [= <- <- <- <-]; by split_and!.
    + intros [= <- <- <- <-]. by split_and!.
  - intros [= <- <- <- <-]. by split_and!.
Qed.

Lemma ResetIfStale_spec w (t : PollForDecisionTaskResponse) (it : option HistoryIterator)
    w1 (t1 : PollForDecisionTaskResponse) (it1 : option HistoryIterator) (e : option error) :
  ResetIfStale w t it = Ret (w1, t1, it1, e) ->
  Query t1 = Query t
  /\ (taskIsStale w t -> previousStartedEventID w1 = 0%Z)
  /\ (~ taskIsStale w t -> w1 = w).
Proof.
  unfold ResetIfStale, taskIsStale. destruct (TaskHistory t); [|discriminate].
  destruct (HistoryEvents t) as [|first rest].
  - intros [= <- <- <- <-]. by split_and!.
  - destruct (Z.eqb_spec (EventId first) (wrap64 (previousStartedEventID w + 1))) as [Heq|Hne];
      cbn [negb].
    + intros [= <- <- <- <-]. by split_and!.
    + intros Hr. apply resetStateIfDestroyed_spec in Hr as (Hq & _ & Hd).
      split_and!; [done| |done]. intros _. by apply Hd.
Qed.

Lemma ProcessWorkflowTask_query_previous w (tunnel : localActivityTunnel)
    (t : PollForDecisionTaskResponse) (it : option HistoryIterator) (q : WorkflowQuery)
    w' (tunnel' : localActivityTunnel) (resp : option response) (e : option error) :
  Query t = Some q ->
  ProcessWorkflowTask w tunnel t it = Ret (w', tunnel', resp, e) ->
  (~ taskIsStale w t -> previousStartedEventID w' = previousStartedEventID w)
  /\ (taskIsStale w t -> previousStartedEventID w' = 0%Z).
Proof.
  intros Hq. unfold ProcessWorkflowTask, replayTask.
  destruct (ResetIfStale w t it) as [[[[w1 t1] it1] e1]| |] eqn:Hreset; try discriminate.
  apply ResetIfStale_spec in Hreset as (Hq1 & Hstale & Hfresh). rewrite Hq in Hq1.
  assert (Hprev : forall w2, previousStartedEventID w2 = previousStartedEventID w1 ->
    (~ taskIsStale w t -> previousStartedEventID w2 = previousStartedEventID w)
    /\ (taskIsStale w t -> previousStartedEventID w2 = 0%Z)).
  { intros w2 Hw2. split; intros Hs; rewrite Hw2; [by rewrite (Hfresh Hs)|auto]. }
  cbn -[processEvents]. destruct e1 as [e1|].
  { cbn. intros [= <- _ _ _]. by apply Hprev. }
  unfold skipReplayCheck. cbn [currentDecisionTask SetCurrentTask]. rewrite Hq1.
  cbn -[processEvents].
  match goal with
  | |- context [processEvents ?f ?a ?b ?c ?d ?e] =>
      destruct (processEvents f a b c d e) as [[w3 outcome]| |] eqn:Hrun; try discriminate
  end.
  apply processEvents_frame in Hrun as (_ & _ & Hp3 & _).
  cbn [previousStartedEventID SetCurrentTask] in Hp3. rewrite Hq1 in Hp3.
  cbn. destruct outcome as [rd re|e2].
  - destruct (CompleteDecisionTask_spec w3 tunnel true) as [_ Hc].
    destruct (CompleteDecisionTask w3 tunnel true) as [[[w4 tunnel4] resp4]| |];
      try discriminate.
    cbn. intros [= <- _ _ _]. apply Hprev. by rewrite (Hc _ _ _ eq_refl).
  - intros [= <- _ _ _]. by apply Hprev.
Qed.

Lemma getOrCreateWorkflowContext_query_cache (h : workflowTaskHandlerImpl) σ
    (t : PollForDecisionTaskResponse) (it : option HistoryIterator) (q : WorkflowQuery)
    σ1 (t1 : PollForDecisionTaskResponse) (it1 : option HistoryIterator)
    (ctx : option nat) (e : option error) :
  Query t = Some q ->
  getOrCreateWorkflowContext h σ t it = Ret (σ1, t1, it1, ctx, e) ->
  workflowCache σ1 = workflowCache σ.
Proof.
  intros Hq. unfold getOrCreateWorkflowContext. rewrite Hq. cbn [negb orb andb].
  assert (Hattach : forall r σ2 t2 it2 ctx2 e2,
    attachTunnel h r = Ret (σ2, t2, it2, ctx2, e2) ->
    workflowCache σ2 = workflowCache r.1.1.1.1).
  { intros [[[[σ0 t0] it0] ctx0] e0] σ2 t2 it2 ctx2 e2. unfold attachTunnel.
    destruct e0; [by intros [= <- _ _ _ _]|].
    destruct ctx0 as [p|]; [|by intros [= <- _ _ _ _]].
    unfold loadContext. destruct (contexts σ0 !! p); [|discriminate].
    cbn. by intros [= <- _ _ _ _]. }
  match goal with
  | |- (?m ≫= _) = _ -> _ => destruct m as [r| |] eqn:Hm; try discriminate
  end.
  cbn. intros Hr. rewrite (Hattach _ _ _ _ _ _ Hr). clear Hr Hattach.
  revert Hm.
  destruct (if negb (isFullHistory (HistoryEvents t)) then getWorkflowContext σ (GetRunId t)
            else None) as [p|].
  - unfold loadContext. destruct (contexts σ !! p) as [w|]; [|discriminate]. cbn.
    match goal with
    | |- (?m ≫= _) = _ -> _ => destruct m as [[[w1 t0] it0]| |]; try discriminate
    end.
    cbn. destruct (resetStateIfDestroyed w1 t0 it0) as [[[[w2 t2] it2] e2]| |];
      try discriminate.
    cbn. by intros [= <-].
  - match goal with
    | |- (?m ≫= _) = _ -> _ => destruct m as [[[t0 it0] e0]| |]; try discriminate
    end.
    cbn. destruct e0; [by intros [= <-]|].
    destruct (createWorkflowContext h t0) as [[w0|e1]| |]; try discriminate; cbn;
      [|by intros [= <-]].
    rewrite andb_false_r. cbn.
    unfold loadContext. cbn. rewrite lookup_insert_eq. cbn.
    destruct (resetStateIfDestroyed w0 t0 it0) as [[[[w2 t2] it2] e2]| |];
      try discriminate.
    cbn. by intros [= <-].
Qed.

(** C8, as amended.  For a query task: [SetCurrentTask] leaves
    [previousStartedEventID] as it is; [ProcessWorkflowTask] of the context
    leaves it as it is unless the task is stale for the context (its history
    is not empty and does not start at [previousStartedEventID + 1]), in
    which case [ResetIfStale] sets it to 0; and [ProcessWorkflowTask] of the
    task handler puts nothing into the cache. *)
Theorem query_task_isolation (h : workflowTaskHandlerImpl) σ w
    (laTunnel0 : localActivityTunnel) (t : PollForDecisionTaskResponse)
    (it : option HistoryIterator) (q : WorkflowQuery) :
  Query t = Some q ->
  previousStartedEventID (SetCurrentTask w t) = previousStartedEventID w
  /\ (forall w' tunnel' resp e,
        ProcessWorkflowTask w laTunnel0 t it = Ret (w', tunnel', resp, e) ->
        (~ taskIsStale w t -> previousStartedEventID w' = previousStartedEventID w)
        /\ (taskIsStale w t -> previousStartedEventID w' = 0%Z))
  /\ (forall σ' resp ctx e,
        wth_ProcessWorkflowTask h σ t it = Ret (σ', resp, ctx, e) ->
        forall runID p, workflowCache σ' !! runID = Some p ->
                        workflowCache σ !! runID = Some p).
Proof.
  intros Hq. split_and!.
  - unfold SetCurrentTask. simpl. by rewrite Hq.
  - intros w' tunnel' resp e. by apply ProcessWorkflowTask_query_previous with (q := q).
  - intros σ' resp ctx e. unfold wth_ProcessWorkflowTask.
    set (t0 := match HistoryEvents t with [] => _ | _ => t end).
    assert (Hq0 : Query t0 = Some q) by (unfold t0; by destruct (HistoryEvents t)).
    rewrite Hq0.
    destruct (getOrCreateWorkflowContext h σ t0 it) as [[[[[σ1 t1] it1] ctx1] e1]| |] eqn:Hget;
      try discriminate.
    apply getOrCreateWorkflowContext_query_cache with (q := q) in Hget as <-; [|done].
    cbn. destruct e1 as [e1|]; [by intros [= <- _ _ _]|].
    destruct ctx1 as [p|]; [|discriminate].
    unfold loadContext at 1. destruct (contexts σ1 !! p) as [w0|]; [|discriminate]. cbn.
    destruct (ProcessWorkflowTask w0 (tunnel σ1) t1 it1) as [[[[w1 tunnel1] resp1] e2]| |];
      try discriminate.
    cbn. unfold Unlock, loadContext. cbn. rewrite lookup_insert_eq. cbn.
    intros [= <- _ _ _] runID p'.
    destruct (unlockRemoves w1 e2); simpl; [|done].
    intros [_ ?]%lookup_delete_Some. done.
Qed.

End TaskProperties.

(** * The heartbeat invoker *)

Lemma Heartbeat_window_open (service : heartbeatService) (i : cadenceInvoker)
    (details : string) (timer : Z) :
  hbBatchEndTimer i = Some timer ->
  Heartbeat service i details
  = (mkInvoker (heartBeatTimeoutInSec i) (Some timer) (Some details), [], None).
Proof. intros Ht. unfold Heartbeat. by rewrite Ht. Qed.

Lemma batchWindow_default (timeoutInSec : Z) :
  (timeoutInSec <= 0)%Z -> batchWindow timeoutInSec = batchWindow defaultHeartBeatIntervalInSec.
Proof.
  intros Hle. unfold batchWindow.
  replace (timeoutInSec <=? 0)%Z with true by (symmetry; by apply Z.leb_le).
  replace (defaultHeartBeatIntervalInSec <=? 0)%Z with false by reflexivity.
  reflexivity.
Qed.

Lemma Heartbeat_window_closed (service : heartbeatService) (i : cadenceInvoker)
    (details : string) :
  hbBatchEndTimer i = None ->
  exists i' (rest : list invokerEffect) e,
    Heartbeat service i details = (i', RecordActivityTaskHeartbeat details :: rest, e)
    /\ (forall d, RecordActivityTaskHeartbeat d ∉ rest)
    /\ ((e = None \/ (exists m, e = Some (CanceledError m))
         \/ (exists m, e = Some (EntityNotExistsError m))) ->
        hbBatchEndTimer i' = Some (batchWindow (heartBeatTimeoutInSec i))
        /\ lastDetailsToReport i' = None).
Proof.
  intros Ht. unfold Heartbeat, internalHeartBeat. rewrite Ht.
  assert (Hnot : forall d (l : list invokerEffect),
            Forall (fun x => match x with RecordActivityTaskHeartbeat _ => False | _ => True end) l ->
            RecordActivityTaskHeartbeat d ∉ l).
  { intros d l Hl Hin. rewrite Forall_forall in Hl. exact (Hl _ Hin). }
  generalize (batchWindow (heartBeatTimeoutInSec i)). intros window.
  destruct (recordActivityHeartbeat service details) as [e0|] eqn:He; [destruct e0|];
    cbn; eexists _, _, _; (split; [reflexivity|]);
    (split; [intros d; apply Hnot; repeat constructor|]).
  - intros [?|[[m ?]|[m ?]]]; discriminate.
  - intros [?|[[m ?]|[m ?]]]; discriminate.
  - intros _. by split.
  - intros [?|[[m ?]|[m ?]]]; discriminate.
  - intros [?|[[m ?]|[m ?]]]; discriminate.
  - intros _. by split.
  - intros _. by split.
Qed.

(** The window is 80% of the timeout for the multiples of five seconds up
    to an hour, and 8 minutes when no timeout is configured. *)
Lemma batchWindow_multiples_of_five :
  forallb (fun k => (batchWindow (5 * k) =? eightyPercent (5 * k))%Z) (seqZ 1 720) = true
  /\ batchWindow 0 = eightyPercent 600.
Proof. split; vm_compute; reflexivity. Qed.

(** C9.  With a heartbeat timeout of one second and no window open, a
    successful heartbeat opens a window of 0 nanoseconds, where 80% of the
    timeout is 800,000,000 nanoseconds: the product [0.8 * float32(timeout)]
    is cut to whole seconds before it is scaled by [time.Second]. *)
Lemma Heartbeat_one_second_window :
  Heartbeat okService (mkInvoker 1 None None) "progress"
  = (mkInvoker 1 (Some 0%Z) None,
     [RecordActivityTaskHeartbeat "progress"; NewTimer 0; GoBatchEnd], None)
  /\ eightyPercent 1 = 800000000%Z.
Proof. split; vm_compute; reflexivity. Qed.

(** * Further properties of the history reorderer *)

Lemma pendingEvents_shrink (eh : history) :
  pendingEvents (shrinkLoaded eh) = pendingEvents eh.
Proof. unfold pendingEvents, shrinkLoaded. simpl. by rewrite drop_0. Qed.







(** * Further properties of the replay matcher *)

Lemma afterFinalDot_no_dot (name : string) : hasDot (afterFinalDot name) = false.
Proof.
  induction name as [|c rest IH]; [done|].
  cbn [afterFinalDot]. destruct (hasDot rest) eqn:Hrest; [exact IH|].
  destruct (Ascii.eqb c ".") eqn:Hc; [exact Hrest|].
  simpl. by rewrite Hc, Hrest.
Qed.

Lemma afterFinalDot_suffix (name : string) :
  exists prefix, name = String.append prefix (afterFinalDot name).
Proof.
  induction name as [|c rest [prefix IH]]; [by exists EmptyString|].
  cbn [afterFinalDot]. destruct (hasDot rest).
  - exists (String c prefix).
    change (String c rest = String c (String.append prefix (afterFinalDot rest))).
    by rewrite <- IH.
  - destruct (Ascii.eqb c "."); [by exists (String c EmptyString)|by exists EmptyString].
Qed.

(** X7.  [lastPartOfName] is idempotent, its result is a suffix of the name,
    and the result has no dot unless the name ends with one. *)
Theorem lastPartOfName_idempotent (name : string) :
  lastPartOfName (lastPartOfName name) = lastPartOfName name
  /\ (exists prefix, name = String.append prefix (lastPartOfName name))
  /\ (endsWithDot name = false -> hasDot (lastPartOfName name) = false).
Proof.
  rewrite !lastPartOfName_spec.
  destruct (endsWithDot name) eqn:Hend.
  - assert (Hn : namePart name = name) by (unfold namePart; by rewrite Hend).
    rewrite !Hn. split_and!; [done|by exists EmptyString|done].
  - assert (Hn : namePart name = afterFinalDot name) by (unfold namePart; by rewrite Hend).
    rewrite !Hn. split_and!.
    + pose proof (afterFinalDot_no_dot name) as Hnd.
      apply hasDot_false_afterFinalDot in Hnd as [Ha He].
      unfold namePart. by rewrite He, Ha.
    + apply afterFinalDot_suffix.
    + intros _. apply afterFinalDot_no_dot.
Qed.

(** The comparison of a decision and an event that carry the attribute
    structures of their types does not panic. *)
Lemma isDecisionMatchEvent_no_panic (d : Decision) (e : HistoryEvent) (strictMode : bool) :
  decisionCarriesAttributes d = true -> eventCarriesAttributes e = true ->
  exists matched, isDecisionMatchEvent d e strictMode = Ret matched.
Proof.
  unfold decisionCarriesAttributes, eventCarriesAttributes, isDecisionMatchEvent, isType.
  destruct (GetDecisionType d); intros Hd He; try (by eexists);
    repeat case_bool_decide; cbn [negb andb orb]; try (by eexists);
    repeat match goal with
    | Hx : GetEventType e = _ |- _ => rewrite Hx in *
    end; try congruence;
    rewrite ?Hd, ?He; cbn [negb andb orb];
    repeat match goal with
    | |- context [let '(_, _) := ?p in _] => destruct p
    end;
    repeat match goal with
    | |- context [if ?b then _ else _] => destruct b
    end; by eexists.
Qed.

Section MatcherProperties.
Context `{SDK}.

Lemma checkedDecisions_cons (d : Decision) (ds : list Decision) :
  checkedDecisions (d :: ds)
  = if skipDeterministicCheckForDecision d then checkedDecisions ds
    else d :: checkedDecisions ds.
Proof.
  unfold checkedDecisions. rewrite filter_cons.
  destruct (skipDeterministicCheckForDecision d); by case_decide.
Qed.

Lemma checkedEvents_cons (e : HistoryEvent) (es : list HistoryEvent) :
  checkedEvents (e :: es)
  = if skipDeterministicCheckForEvent e then checkedEvents es
    else e :: checkedEvents es.
Proof.
  unfold checkedEvents. rewrite filter_cons.
  destruct (skipDeterministicCheckForEvent e); by case_decide.
Qed.

(** X2.  [matchReplayWithHistory] reports no mismatch exactly when the
    decisions and the events it does not skip are equally many and match
    pairwise, in order, in non-strict mode. *)
Theorem matchReplayWithHistory_ok_iff (replayDecisions : list Decision)
    (historyEvents : list HistoryEvent) :
  matchReplayWithHistory replayDecisions historyEvents = Ret None
  <-> Forall2 (fun d e => isDecisionMatchEvent d e false = Ret true)
        (checkedDecisions replayDecisions) (checkedEvents historyEvents).
Proof.
  unfold matchReplayWithHistory. revert replayDecisions.
  induction historyEvents as [|e es IH]; intros ds.
  - induction ds as [|d ds IHd]; cbn [matchLoop].
    + split; [constructor|done].
    + rewrite checkedDecisions_cons.
      destruct (skipDeterministicCheckForDecision d); [exact IHd|].
      split; [done|]. inversion 1.
  - cbn [matchLoop]. rewrite checkedEvents_cons.
    destruct (skipDeterministicCheckForEvent e); [apply IH|].
    induction ds as [|d ds IHd].
    + split; [done|]. inversion 1.
    + rewrite checkedDecisions_cons.
      destruct (skipDeterministicCheckForDecision d); [exact IHd|].
      destruct (isDecisionMatchEvent d e false) as [[]| |] eqn:Hm; cbn [negb].
      * rewrite IH. split; [by constructor|]. by inversion 1.
      * split; [done|]. inversion 1; congruence.
      * split; [done|]. inversion 1; congruence.
      * split; [done|]. inversion 1; congruence.
Qed.

(** X3.  The version and mutable-side-effect markers, among the decisions
    and among the events, do not change the result of
    [matchReplayWithHistory]: the verdict, the error and its message, or the
    panic. *)
Theorem matchReplayWithHistory_markers_ignored (replayDecisions : list Decision)
    (historyEvents : list HistoryEvent) :
  matchReplayWithHistory replayDecisions historyEvents
  = matchReplayWithHistory (checkedDecisions replayDecisions) (checkedEvents historyEvents).
Proof.
  unfold matchReplayWithHistory. revert replayDecisions.
  assert (Hchk : forall d ds, d ∈ checkedDecisions ds -> skipDeterministicCheckForDecision d = false).
  { intros d ds. unfold checkedDecisions. rewrite list_elem_of_filter. tauto. }
  induction historyEvents as [|e es IH]; intros ds.
  - induction ds as [|d ds IHd]; [done|].
    rewrite checkedDecisions_cons. cbn [matchLoop checkedEvents filter list_filter] in *.
    destruct (skipDeterministicCheckForDecision d) eqn:Hd; [exact IHd|].
    cbn. by rewrite Hd.
  - rewrite checkedEvents_cons. cbn [matchLoop].
    destruct (skipDeterministicCheckForEvent e) eqn:He; [apply IH|].
    cbn [matchLoop]. rewrite He.
    induction ds as [|d ds IHd]; [done|].
    rewrite checkedDecisions_cons.
    destruct (skipDeterministicCheckForDecision d) eqn:Hd; [exact IHd|].
    rewrite Hd. destruct (isDecisionMatchEvent d e false) as [[]| |]; cbn [negb]; try done.
Qed.

(** X4.  Strict mode only adds conditions: a decision that matches an event
    in strict mode matches it in non-strict mode. *)
Theorem isDecisionMatchEvent_strict_implies (d : Decision) (e : HistoryEvent) :
  isDecisionMatchEvent d e true = Ret true -> isDecisionMatchEvent d e false = Ret true.
Proof.
  unfold isDecisionMatchEvent.
  destruct (GetDecisionType d); try done;
    repeat match goal with
    | |- context [let '(_, _) := ?p in _] => destruct p
    end;
    cbn [andb];
    repeat match goal with
    | |- context [if ?b then _ else _] => destruct b eqn:?; try done
    end;
    rewrite ?orb_false_r in *; try congruence;
    repeat match goal with
    | Hx : (_ || _) = _ |- _ => first [apply orb_true_iff in Hx | apply orb_false_iff in Hx]
    | Hx : _ /\ _ |- _ => destruct Hx
    | Hx : _ \/ _ |- _ => destruct Hx
    end; try congruence.
Qed.

(** X5.  A decision only ever matches an event of one of the decision-event
    types of [isDecisionEvent]. *)
Theorem isDecisionMatchEvent_decision_event (d : Decision) (e : HistoryEvent) (strictMode : bool) :
  isDecisionMatchEvent d e strictMode = Ret true -> isDecisionEvent (GetEventType e) = true.
Proof.
  unfold isDecisionMatchEvent, isType.
  destruct (GetDecisionType d); try done;
    repeat case_bool_decide; cbn [negb andb]; try done;
    match goal with Hx : GetEventType e = _ |- _ => by rewrite Hx end.
Qed.

(** X6.  When every decision and every event carries the attribute
    structure of its type, [matchReplayWithHistory] does not panic: it
    returns nil or a mismatch error. *)
Theorem matchReplayWithHistory_no_panic (replayDecisions : list Decision)
    (historyEvents : list HistoryEvent) :
  Forall (fun d => decisionCarriesAttributes d = true) replayDecisions ->
  Forall (fun e => eventCarriesAttributes e = true) historyEvents ->
  exists verdict, matchReplayWithHistory replayDecisions historyEvents = Ret verdict.
Proof.
  unfold matchReplayWithHistory. intros Hds Hes. revert replayDecisions Hds.
  induction Hes as [|e es He Hes IH]; intros ds Hds.
  - induction Hds as [|d ds Hd Hds IHd]; cbn [matchLoop]; [by eexists|].
    destruct (skipDeterministicCheckForDecision d); [exact IHd|by eexists].
  - cbn [matchLoop]. destruct (skipDeterministicCheckForEvent e); [by apply IH|].
    induction Hds as [|d ds Hd Hds IHd]; [by eexists|].
    destruct (skipDeterministicCheckForDecision d); [exact IHd|].
    destruct (isDecisionMatchEvent_no_panic d e false Hd He) as [[] ->]; cbn [negb].
    + by apply IH.
    + by eexists.
Qed.

End MatcherProperties.

(** * Further properties of the workflow execution context *)

Section TaskExtras.
Context {St : Type} `{!EventHandlerOps St} `{!SDK}.

Implicit Types (w : workflowExecutionContextImpl St) (σ : World St).

(** X8.  The answer of [completeWorkflow] to a decision task: a stored panic
    fails the task; a workflow that is neither completed nor failed answers
    with the decisions given and the force flag given; in every other case
    the decisions given are followed by exactly one closing decision and the
    force flag is false. *)
Theorem wth_completeWorkflow_closing (h : workflowTaskHandlerImpl)
    (eh : workflowExecutionEventHandlerImpl St) (t : PollForDecisionTaskResponse)
    w (decisions : list Decision) (forceNewDecision : bool) :
  Query t = None ->
  (exists v st details,
      err w = Some (PanicError v st)
      /\ (wth_completeWorkflow h eh t w decisions forceNewDecision).2
         = RespondDecisionTaskFailedRequest (TaskToken t) details (identity h))
  \/ (err w = None /\ isWorkflowCompleted w = false
      /\ (wth_completeWorkflow h eh t w decisions forceNewDecision).2
         = RespondDecisionTaskCompletedRequest (TaskToken t) decisions (identity h) true
             forceNewDecision)
  \/ (exists cd,
      (is_Some (err w) \/ isWorkflowCompleted w = true)
      /\ isClosingDecision cd = true
      /\ (wth_completeWorkflow h eh t w decisions forceNewDecision).2
         = RespondDecisionTaskCompletedRequest (TaskToken t) (decisions ++ [cd]) (identity h)
             true false).
Proof.
  intros Hq. unfold wth_completeWorkflow. rewrite Hq.
  destruct (err w) as [e|] eqn:He.
  - destruct e; try (right; right; eexists; split_and!; [by left|..]; [|reflexivity]; done).
    left. by eexists _, _, _.
  - destruct (isWorkflowCompleted w) eqn:Hc.
    + right. right. eexists. split_and!; [by right| |reflexivity]. done.
    + right. left. by split_and!.
Qed.

Lemma wth_completeWorkflow_answers (h : workflowTaskHandlerImpl)
    (eh : workflowExecutionEventHandlerImpl St) (t : PollForDecisionTaskResponse)
    w (decisions : list Decision) (forceNewDecision : bool) :
  answers (wth_completeWorkflow h eh t w decisions forceNewDecision).2 t.
Proof.
  unfold wth_completeWorkflow, answers. destruct (Query t) as [q|].
  - destruct (err w) as [[]|]; try done;
      destruct (ProcessQuery eh _ _) as [[eh1 r] [e1|]]; done.
  - destruct (err w) as [[]|]; try done. by destruct (isWorkflowCompleted w).
Qed.

Lemma startLocalActivities_frame w (tunnel : localActivityTunnel) (wait : bool)
    w1 (tunnel1 : localActivityTunnel) (stop : bool) :
  startLocalActivities w tunnel wait = Ret (w1, tunnel1, stop) ->
  workflowInfo w1 = workflowInfo w /\ wth w1 = wth w /\ laTunnel w1 = laTunnel w
  /\ isWorkflowCompleted w1 = isWorkflowCompleted w /\ err w1 = err w
  /\ currentDecisionTask w1 = currentDecisionTask w /\ newDecisions w1 = newDecisions w
  /\ (is_Some (eventHandler w) -> is_Some (eventHandler w1))
  /\ stop = hasPendingLocalActivityWork w && bool_decide (is_Some (laTunnel w)) && wait.
Proof.
  unfold startLocalActivities.
  destruct (hasPendingLocalActivityWork w && bool_decide (is_Some (laTunnel w))).
  - destruct (eventHandler w) as [eh|] eqn:Heh; [|discriminate].
    case_bool_decide.
    + destruct (sendUnstarted _ _ tunnel) as [tunnel2| |]; try discriminate. cbn.
      intros [= <- <- <-]. split_and!; try done.
    + cbn. intros [= <- <- <-]. by split_and!.
  - intros [= <- <- <-]. by split_and!.
Qed.

Lemma respondToTask_frame w (tunnel : localActivityTunnel)
    (t : PollForDecisionTaskResponse) (wait : bool)
    w' (tunnel' : localActivityTunnel) (resp : option response) :
  respondToTask w tunnel t wait = Ret (w', tunnel', resp) ->
  workflowInfo w' = workflowInfo w /\ wth w' = wth w /\ laTunnel w' = laTunnel w
  /\ isWorkflowCompleted w' = isWorkflowCompleted w /\ err w' = err w
  /\ currentDecisionTask w' = None /\ newDecisions w' = []
  /\ is_Some (eventHandler w') /\ tunnel' = tunnel
  /\ exists r, resp = Some r /\ answers r t.
Proof.
  unfold respondToTask. destruct (eventHandler w) as [eh|]; [|discriminate].
  destruct (getDecisions eh) as [eh1 eventDecisions]. cbv zeta.
  match goal with
  | |- context [wth_completeWorkflow ?a ?b ?c ?d ?e ?f] =>
      pose proof (wth_completeWorkflow_answers a b c d e f) as Hans;
      destruct (wth_completeWorkflow a b c d e f) as [eh2 completeRequest]
  end.
  intros [= <- <- <-]. case_bool_decide; simpl; split_and!; try done; by eexists.
Qed.

(** What [CompleteDecisionTask] leaves alone, and what it does to the
    current task. *)
Lemma CompleteDecisionTask_frame w (tunnel : localActivityTunnel) (wait : bool)
    w' (tunnel' : localActivityTunnel) (resp : option response) :
  CompleteDecisionTask w tunnel wait = Ret (w', tunnel', resp) ->
  workflowInfo w' = workflowInfo w /\ wth w' = wth w /\ laTunnel w' = laTunnel w
  /\ isWorkflowCompleted w' = isWorkflowCompleted w /\ err w' = err w
  /\ (is_Some (eventHandler w) -> is_Some (eventHandler w'))
  /\ match resp with
     | Some r =>
         currentDecisionTask w' = None /\ newDecisions w' = []
         /\ is_Some (eventHandler w')
         /\ (exists t, currentDecisionTask w = Some t /\ answers r t)
         /\ hasPendingLocalActivityWork w && bool_decide (is_Some (laTunnel w)) && wait
            = false
     | None =>
         currentDecisionTask w' = currentDecisionTask w
         /\ (currentDecisionTask w = None
             \/ hasPendingLocalActivityWork w && bool_decide (is_Some (laTunnel w)) && wait
                = true)
     end.
Proof.
  unfold CompleteDecisionTask. destruct (currentDecisionTask w) as [t|] eqn:Ht.
  2:{ intros [= <- <- <-]. rewrite Ht. split_and!; auto. }
  destruct (startLocalActivities w tunnel wait) as [[[w1 tunnel1] stop]| |] eqn:Hs;
    try discriminate.
  apply startLocalActivities_frame in Hs as (Hi & Hw & Hl & Hc & He & Ht1 & Hn & Hh & Hstop).
  cbn. destruct stop.
  - intros [= <- <- <-]. split_and!; try done. { congruence. } by right.
  - intros Hr. apply respondToTask_frame in Hr
      as (Hi' & Hw' & Hl' & Hc' & He' & Ht' & Hn' & Hh' & _ & r & -> & Hans).
    split_and!; try congruence; try done. by exists t.
Qed.

(** X9.  Once [CompleteDecisionTask] has produced a request, the context has
    no current task and no decisions left, and a second call returns nil and
    changes nothing. *)
Theorem CompleteDecisionTask_responds_once w (tunnel : localActivityTunnel) (wait : bool)
    w' (tunnel' : localActivityTunnel) (r : response) :
  CompleteDecisionTask w tunnel wait = Ret (w', tunnel', Some r) ->
  currentDecisionTask w' = None /\ newDecisions w' = []
  /\ forall (tunnel2 : localActivityTunnel) (wait2 : bool),
       CompleteDecisionTask w' tunnel2 wait2 = Ret (w', tunnel2, None).
Proof.
  intros Hr. apply CompleteDecisionTask_frame in Hr as (_ & _ & _ & _ & _ & _ & Ht & Hn & _).
  split_and!; try done. intros tunnel2 wait2. unfold CompleteDecisionTask. by rewrite Ht.
Qed.

(** X10.  With a current task, [CompleteDecisionTask] returns nil exactly
    when it was asked to wait for local activities, there is pending
    local-activity work and the context has a tunnel; it then keeps the
    current task.  Otherwise the request it returns answers that task. *)
Theorem CompleteDecisionTask_waits_iff w (tunnel : localActivityTunnel) (wait : bool)
    w' (tunnel' : localActivityTunnel) (resp : option response)
    (t : PollForDecisionTaskResponse) :
  currentDecisionTask w = Some t ->
  CompleteDecisionTask w tunnel wait = Ret (w', tunnel', resp) ->
  (resp = None <->
   wait = true /\ hasPendingLocalActivityWork w = true /\ is_Some (laTunnel w))
  /\ (resp = None -> currentDecisionTask w' = Some t)
  /\ (forall r, resp = Some r -> answers r t).
Proof.
  intros Ht Hr. apply CompleteDecisionTask_frame in Hr as (_ & _ & _ & _ & _ & _ & Hresp).
  destruct resp as [r|].
  - destruct Hresp as (_ & _ & _ & (t' & Ht' & Hans) & Hstop).
    split_and!; try done.
    + split; [done|]. intros (-> & Hp & Htun). rewrite Hp in Hstop.
      by rewrite bool_decide_eq_true_2 in Hstop.
    + intros r' [= <-]. congruence.
  - destruct Hresp as (Hcur & [Hnone|Hstop]); [congruence|].
    split_and!; try done; [|congruence].
    split; [|done]. intros _.
    apply andb_true_iff in Hstop as [[Hp Htun]%andb_true_iff ->].
    by apply bool_decide_eq_true in Htun.
Qed.

Lemma sameTask_refl (t : PollForDecisionTaskResponse) : sameTask t t.
Proof. by repeat split. Qed.

Lemma answers_sameTask (r : response) (t1 t : PollForDecisionTaskResponse) :
  sameTask t1 t -> answers r t1 -> answers r t.
Proof. intros (Htok & _ & _ & _ & _ & _ & Hq). unfold answers. by rewrite Hq, Htok. Qed.

Lemma resetHistory_spec (t : PollForDecisionTaskResponse) (it : option HistoryIterator)
    (t1 : PollForDecisionTaskResponse) (it1 : option HistoryIterator) (e : option error) :
  resetHistory t it = Ret (t1, it1, e) ->
  sameTask t1 t
  /\ exists it0, it = Some it0 /\ it1 = Some (GetNextPage (Reset it0)).1
     /\ match (GetNextPage (Reset it0)).2 with
        | inl page => e = None /\ TaskHistory t1 = Some page
        | inr e1 => e = Some e1 /\ t1 = t
        end.
Proof.
  unfold resetHistory. destruct it as [it0|]; [|discriminate].
  destruct (GetNextPage (Reset it0)) as [it2 [page|e1]] eqn:Hpage; intros [= <- <- <-].
  - split; [by repeat split|]. exists it0. rewrite Hpage. simpl. by split_and!.
  - split; [by repeat split|]. exists it0. rewrite Hpage. simpl. by split_and!.
Qed.

Lemma resetStateIfDestroyed_frame w (t : PollForDecisionTaskResponse)
    (it : option HistoryIterator) w1 (t1 : PollForDecisionTaskResponse)
    (it1 : option HistoryIterator) (e : option error) :
  resetStateIfDestroyed w t it = Ret (w1, t1, it1, e) ->
  workflowInfo w1 = workflowInfo w /\ wth w1 = wth w /\ laTunnel w1 = laTunnel w
  /\ sameTask t1 t /\ is_Some (eventHandler w1)
  /\ (isDestroyed w = true ->
      w1 = mkContext (workflowInfo w) (wth w)
             (Some (newWorkflowExecutionEventHandler (workflowInfo w))) false "" None 0%Z []
             None (laTunnel w)).
Proof.
  unfold resetStateIfDestroyed, isDestroyed.
  destruct (eventHandler w) as [eh|] eqn:Heh.
  - intros [= <- <- <- <-]. rewrite Heh. split_and!; try done; apply sameTask_refl.
  - destruct (negb _).
    + destruct (resetHistory t it) as [[[t2 it2] e2]| |] eqn:Hr; try discriminate.
      apply resetHistory_spec in Hr as [Hsame _]. cbn. intros [= <- <- <- <-].
      by split_and!.
    + intros [= <- <- <- <-]. split_and!; try done; apply sameTask_refl.
Qed.

Lemma ResetIfStale_frame w (t : PollForDecisionTaskResponse) (it : option HistoryIterator)
    w1 (t1 : PollForDecisionTaskResponse) (it1 : option HistoryIterator) (e : option error) :
  ResetIfStale w t it = Ret (w1, t1, it1, e) ->
  workflowInfo w1 = workflowInfo w /\ wth w1 = wth w /\ laTunnel w1 = laTunnel w
  /\ sameTask t1 t /\ (is_Some (eventHandler w) -> is_Some (eventHandler w1)).
Proof.
  unfold ResetIfStale. destruct (TaskHistory t); [|discriminate].
  destruct (HistoryEvents t) as [|first rest].
  - intros [= <- <- <- <-]. split_and!; try done; apply sameTask_refl.
  - destruct (negb _).
    + intros Hr. apply resetStateIfDestroyed_frame in Hr as (? & ? & ? & ? & ? & _).
      by split_and!.
    + intros [= <- <- <- <-]. split_and!; try done; apply sameTask_refl.
Qed.

(** X11.  On a stale task [ResetIfStale] leaves a context built anew: a fresh
    event handler, nothing completed, no stored error, no decisions, no
    current task, [previousStartedEventID] 0; the identity of the run, the
    task handler and the tunnel are kept.  A full history is left as it is;
    otherwise the iterator is reset and the task gets its first page, or the
    error of that page is returned. *)
Theorem ResetIfStale_rebuilds w (t : PollForDecisionTaskResponse)
    (it : option HistoryIterator) w1 (t1 : PollForDecisionTaskResponse)
    (it1 : option HistoryIterator) (e : option error) :
  taskIsStale w t ->
  ResetIfStale w t it = Ret (w1, t1, it1, e) ->
  w1 = mkContext (workflowInfo w) (wth w)
         (Some (newWorkflowExecutionEventHandler (workflowInfo w))) false "" None 0%Z []
         None (laTunnel w)
  /\ (isFullHistory (HistoryEvents t) = true -> t1 = t /\ it1 = it /\ e = None)
  /\ (isFullHistory (HistoryEvents t) = false ->
      exists it0, it = Some it0 /\ it1 = Some (GetNextPage (Reset it0)).1
        /\ match (GetNextPage (Reset it0)).2 with
           | inl page => e = None /\ TaskHistory t1 = Some page
           | inr e1 => e = Some e1 /\ t1 = t
           end).
Proof.
  unfold taskIsStale, ResetIfStale. destruct (TaskHistory t) eqn:Hh.
  2:{ unfold HistoryEvents. by rewrite Hh. }
  destruct (HistoryEvents t) as [|first rest] eqn:Hev; [done|].
  intros Hne. apply Z.eqb_neq in Hne. rewrite Hne. cbn [negb].
  unfold resetStateIfDestroyed. cbn [isDestroyed clearState eventHandler].
  rewrite Hev. destruct (isFullHistory (first :: rest)); cbn [negb].
  - intros [= <- <- <- <-]. by split_and!.
  - destruct (resetHistory t it) as [[[t2 it2] e2]| |] eqn:Hr; try discriminate.
    apply resetHistory_spec in Hr as [_ Hr]. cbn. intros [= <- <- <- <-].
    by split_and!.
Qed.

Lemma ResetIfStale_error w (t : PollForDecisionTaskResponse) (it : option HistoryIterator)
    w1 (t1 : PollForDecisionTaskResponse) (it1 : option HistoryIterator) (e : error) :
  ResetIfStale w t it = Ret (w1, t1, it1, Some e) ->
  previousStartedEventID w1 = 0%Z /\ isFullHistory (HistoryEvents t) = false
  /\ taskIsStale w t.
Proof.
  unfold ResetIfStale, taskIsStale. destruct (TaskHistory t); [|discriminate].
  destruct (HistoryEvents t) as [|first rest] eqn:Hev; [discriminate|].
  destruct (Z.eqb_spec (EventId first) (wrap64 (previousStartedEventID w + 1))); cbn [negb];
    [discriminate|].
  unfold resetStateIfDestroyed. cbn [isDestroyed clearState eventHandler]. rewrite Hev.
  destruct (isFullHistory (first :: rest)); cbn [negb]; [discriminate|].
  destruct (resetHistory t it) as [[[t2 it2] e2]| |]; try discriminate.
  cbn. by intros [= <- _ _ _].
Qed.

Lemma replayTask_frame w (t : PollForDecisionTaskResponse) (it : option HistoryIterator)
    w' (skip : bool) (outcome : replayOutcome) :
  replayTask w t it = Ret (w', skip, outcome) ->
  workflowInfo w' = workflowInfo w /\ wth w' = wth w /\ laTunnel w' = laTunnel w
  /\ (is_Some (eventHandler w) -> is_Some (eventHandler w'))
  /\ match outcome with
     | ReplayDone _ _ =>
         exists t1, sameTask t1 t /\ currentDecisionTask w' = Some t1
           /\ skip = (match Query t with Some _ => true | None => false end
                      || negb (isFullHistory (HistoryEvents t1)))
     | ReplayError _ => True
     end
  /\ (Query t = None ->
      previousStartedEventID w' = GetStartedEventId t
      \/ (previousStartedEventID w' = 0%Z /\ isFullHistory (HistoryEvents t) = false
          /\ exists e, outcome = ReplayError e)).
Proof.
  unfold replayTask.
  destruct (ResetIfStale w t it) as [[[[w1 t1] it1] e1]| |] eqn:Hreset; try discriminate.
  pose proof Hreset as Hreset'.
  apply ResetIfStale_frame in Hreset as (Hi & Hw & Hl & Hsame & Hh).
  cbn -[processEvents]. destruct e1 as [e1|].
  { intros [= <- <- <-]. apply ResetIfStale_error in Hreset' as (Hp & Hfull & _).
    split_and!; try done. intros _. right. split_and!; try done. by exists e1. }
  unfold skipReplayCheck. cbn [currentDecisionTask SetCurrentTask]. cbn -[processEvents].
  match goal with
  | |- context [processEvents ?f ?a ?b ?c ?d ?e] =>
      destruct (processEvents f a b c d e) as [[w3 outcome3]| |] eqn:Hrun; try discriminate
  end.
  apply processEvents_frame in Hrun as (Hi3 & Hw3 & Hp3 & Hc3 & Hl3 & _ & Hh3).
  cbn in *. intros [= <- <- <-].
  pose proof Hsame as (? & ? & ? & ? & ? & Hst & Hq).
  split_and!; try congruence; auto.
  - destruct outcome3; [|done]. exists t1. split_and!; try done. by rewrite Hq.
  - intros Hqn. left. rewrite Hq, Hqn in Hp3. congruence.
Qed.

Lemma ProcessWorkflowTask_frame w (tunnel : localActivityTunnel)
    (t : PollForDecisionTaskResponse) (it : option HistoryIterator)
    w' (tunnel' : localActivityTunnel) (resp : option response) (e : option error) :
  ProcessWorkflowTask w tunnel t it = Ret (w', tunnel', resp, e) ->
  workflowInfo w' = workflowInfo w /\ wth w' = wth w /\ laTunnel w' = laTunnel w
  /\ (is_Some (eventHandler w) -> is_Some (eventHandler w'))
  /\ (forall r, resp = Some r ->
        e = None /\ answers r t /\ currentDecisionTask w' = None /\ newDecisions w' = [])
  /\ (forall e1, e = Some e1 -> resp = None /\ tunnel' = tunnel)
  /\ (forall e1, e = Some e1 -> is_Some (Query t) ->
        exists skip, replayTask w t it = Ret (w', skip, ReplayError e1))
  /\ (Query t = None ->
      previousStartedEventID w' = GetStartedEventId t
      \/ (previousStartedEventID w' = 0%Z /\ isFullHistory (HistoryEvents t) = false
          /\ resp = None /\ is_Some e)).
Proof.
  unfold ProcessWorkflowTask.
  destruct (replayTask w t it) as [[[w1 skip] outcome]| |] eqn:Hreplay; try discriminate.
  apply replayTask_frame in Hreplay as (Hi & Hw & Hl & Hh & Hout & Hprev).
  cbn. destruct outcome as [rd re|e0].
  2:{ intros [= <- <- <- <-]. split_and!; try done.
      - intros e1 [= <-] _. by exists skip.
      - intros Hq. destruct (Hprev Hq) as [?|(? & ? & ?)]; [by left|right]. by split_and!. }
  destruct Hout as (t1 & Hsame & Hcur & Hskip).
  assert (Hp1 : Query t = None -> previousStartedEventID w1 = GetStartedEventId t).
  { intros Hq. by destruct (Hprev Hq) as [?|(_ & _ & ? & ?)]. }
  assert (Hdone : forall w3 : workflowExecutionContextImpl St,
    workflowInfo w3 = workflowInfo w1 -> wth w3 = wth w1 -> laTunnel w3 = laTunnel w1 ->
    currentDecisionTask w3 = currentDecisionTask w1 ->
    previousStartedEventID w3 = previousStartedEventID w1 ->
    (is_Some (eventHandler w1) -> is_Some (eventHandler w3)) ->
    ('(w4, tunnel1, completeRequest) ← CompleteDecisionTask w3 tunnel true;
     Ret (w4, tunnel1, completeRequest, None)) = Ret (w', tunnel', resp, e) ->
    e = None
    /\ workflowInfo w' = workflowInfo w /\ wth w' = wth w /\ laTunnel w' = laTunnel w
    /\ (is_Some (eventHandler w) -> is_Some (eventHandler w'))
    /\ (forall r, resp = Some r ->
          answers r t /\ currentDecisionTask w' = None /\ newDecisions w' = [])
    /\ previousStartedEventID w' = previousStartedEventID w1).
  { intros w3 Hi3 Hw3 Hl3 Hc3 Hp3 Hh3.
    destruct (CompleteDecisionTask w3 tunnel true) as [[[w4 tunnel4] resp4]| |] eqn:Hc;
      try discriminate.
    pose proof (proj2 (CompleteDecisionTask_spec w3 tunnel true) _ _ _ Hc) as Hp4.
    apply CompleteDecisionTask_frame in Hc as (Hi4 & Hw4 & Hl4 & _ & _ & Hh4 & Hresp).
    cbn. intros [= <- <- <- <-]. split_and!; try congruence; auto.
    intros r ->. destruct Hresp as (? & ? & ? & (t' & Ht' & Hans) & _).
    split_and!; try done. eapply answers_sameTask; [exact Hsame|]. congruence. }
  assert (Hfin : forall w3 : workflowExecutionContextImpl St,
    workflowInfo w3 = workflowInfo w1 -> wth w3 = wth w1 -> laTunnel w3 = laTunnel w1 ->
    currentDecisionTask w3 = currentDecisionTask w1 ->
    previousStartedEventID w3 = previousStartedEventID w1 ->
    (is_Some (eventHandler w1) -> is_Some (eventHandler w3)) ->
    ('(w4, tunnel1, completeRequest) ← CompleteDecisionTask w3 tunnel true;
     Ret (w4, tunnel1, completeRequest, None)) = Ret (w', tunnel', resp, e) ->
    workflowInfo w' = workflowInfo w /\ wth w' = wth w /\ laTunnel w' = laTunnel w
    /\ (is_Some (eventHandler w) -> is_Some (eventHandler w'))
    /\ (forall r, resp = Some r ->
          e = None /\ answers r t /\ currentDecisionTask w' = None /\ newDecisions w' = [])
    /\ (forall e1, e = Some e1 -> resp = None /\ tunnel' = tunnel)
    /\ (forall e1, e = Some e1 -> is_Some (Query t) ->
          exists skip0, Ret (w1, skip, ReplayDone rd re)
                        = (Ret (w', skip0, ReplayError e1)
                           : res (workflowExecutionContextImpl St * bool * replayOutcome)))
    /\ (Query t = None ->
        previousStartedEventID w' = GetStartedEventId t
        \/ (previousStartedEventID w' = 0%Z /\ isFullHistory (HistoryEvents t) = false
            /\ resp = None /\ is_Some e))).
  { intros w3 Hi3 Hw3 Hl3 Hc3 Hp3 Hh3 Hrun.
    destruct (Hdone w3 Hi3 Hw3 Hl3 Hc3 Hp3 Hh3 Hrun) as (-> & ? & ? & ? & ? & Hresp & Hp').
    split_and!; try done.
    - intros r Hr. split; [done|]. by apply Hresp.
    - intros Hq. left. rewrite Hp'. auto. }
  destruct skip; cbn.
  { by apply Hfin. }
  destruct (matchReplayWithHistory rd re) as [[em|]| |]; cbn; try discriminate;
    [|by apply Hfin].
  destruct (nonDeterministicWorkflowPolicy (wth w1)); cbn; try discriminate.
  - intros [= <- <- <- <-]. split_and!; try done; try congruence.
    + intros e1 [= <-] [q Hq]. by rewrite Hq in Hskip.
    + intros Hq. left. auto.
  - unfold Complete. destruct (eventHandler w1) as [eh|] eqn:Heh; [|discriminate]. cbn.
    by apply Hfin.
Qed.

(** X12.  A request returned by [ProcessWorkflowTask] of the context comes
    with no error, carries the token of the task, and is a query answer for
    a query task and a decision-task answer otherwise; the context is left
    with no current task and no decisions. *)
Theorem ProcessWorkflowTask_answers_task w (tunnel : localActivityTunnel)
    (t : PollForDecisionTaskResponse) (it : option HistoryIterator)
    w' (tunnel' : localActivityTunnel) (r : response) (e : option error) :
  ProcessWorkflowTask w tunnel t it = Ret (w', tunnel', Some r, e) ->
  e = None /\ answers r t /\ currentDecisionTask w' = None /\ newDecisions w' = [].
Proof.
  intros Hr. apply ProcessWorkflowTask_frame in Hr as (_ & _ & _ & _ & Hresp & _). eauto.
Qed.

(** X13.  After [ProcessWorkflowTask] on a task that is not a query,
    [previousStartedEventID] is the started event id of the task; the one
    exception is a failed reset of a partial history, which returns the
    error and leaves the id at 0. *)
Theorem ProcessWorkflowTask_records_started_event w (tunnel : localActivityTunnel)
    (t : PollForDecisionTaskResponse) (it : option HistoryIterator)
    w' (tunnel' : localActivityTunnel) (resp : option response) (e : option error) :
  Query t = None ->
  ProcessWorkflowTask w tunnel t it = Ret (w', tunnel', resp, e) ->
  previousStartedEventID w' = GetStartedEventId t
  \/ (previousStartedEventID w' = 0%Z /\ isFullHistory (HistoryEvents t) = false
      /\ resp = None /\ is_Some e).
Proof.
  intros Hq Hr.
  apply ProcessWorkflowTask_frame in Hr as (_ & _ & _ & _ & _ & _ & _ & Hprev). auto.
Qed.

(** X14.  An error returned for a query task is an error of the replay (a
    page that does not load, a failing event); the matcher does not run for
    a query, so no mismatch is reported, no request is returned and the
    tunnel is left alone. *)
Theorem query_errors_come_from_replay w (tunnel : localActivityTunnel)
    (t : PollForDecisionTaskResponse) (it : option HistoryIterator) (q : WorkflowQuery)
    w' (tunnel' : localActivityTunnel) (resp : option response) (e : error) :
  Query t = Some q ->
  ProcessWorkflowTask w tunnel t it = Ret (w', tunnel', resp, Some e) ->
  resp = None /\ tunnel' = tunnel
  /\ exists skip, replayTask w t it = Ret (w', skip, ReplayError e).
Proof.
  intros Hq Hr.
  apply ProcessWorkflowTask_frame in Hr as (_ & _ & _ & _ & _ & Herr & Hrep & _).
  destruct (Herr e eq_refl) as [-> ->]. split_and!; try done. apply Hrep; [done|by eexists].
Qed.

End TaskExtras.

(** * Further properties of the workflow task handler *)

Section WorldExtras.
Context {St : Type} `{!EventHandlerOps St} `{!SDK}.

Implicit Types (w : workflowExecutionContextImpl St) (σ : World St).

Lemma createWorkflowContext_spec (h : workflowTaskHandlerImpl)
    (t : PollForDecisionTaskResponse) w :
  createWorkflowContext h t = Ret (inl w) ->
  InfoRunId (workflowInfo w) = GetRunId t /\ InfoWorkflowId (workflowInfo w) = GetWorkflowId t
  /\ InfoDomain (workflowInfo w) = domain h /\ wth w = h
  /\ eventHandler w = Some (newWorkflowExecutionEventHandler (workflowInfo w))
  /\ isWorkflowCompleted w = false /\ err w = None /\ previousStartedEventID w = 0%Z
  /\ currentDecisionTask w = None /\ laTunnel w = None.
Proof.
  unfold createWorkflowContext. destruct (HistoryEvents t) as [|first rest]; [discriminate|].
  destruct (EventAttrs first) as [|taskList ? ? ?| | | | | | | | | | | | |]; try discriminate.
  destruct taskList as [taskListName|]; [|discriminate].
  intros [= <-]. by split_and!.
Qed.

(** What [getOrCreateWorkflowContext] returns and does to the world. *)
Lemma getOrCreateWorkflowContext_spec (h : workflowTaskHandlerImpl) σ
    (t : PollForDecisionTaskResponse) (it : option HistoryIterator)
    σ1 (t1 : PollForDecisionTaskResponse) (it1 : option HistoryIterator)
    (ctx : option nat) (e : option error) :
  getOrCreateWorkflowContext h σ t it = Ret (σ1, t1, it1, ctx, e) ->
  sameTask t1 t /\ tunnel σ1 = tunnel σ
  /\ match ctx with
     | None => σ1 = σ /\ is_Some e
     | Some p =>
         exists w1,
           contexts σ1 = <[p := w1]> (contexts σ)
           /\ is_Some (eventHandler w1)
           /\ (e = None -> laTunnel w1 = handlerLaTunnel h)
           /\ ((exists w0,
                  workflowCache σ !! GetRunId t = Some p /\ contexts σ !! p = Some w0
                  /\ workflowInfo w1 = workflowInfo w0 /\ wth w1 = wth w0
                  /\ workflowCache σ1 = workflowCache σ /\ nextPtr σ1 = nextPtr σ
                  /\ effects σ1 = effects σ ++ [MutexLock p])
               \/ (p = nextPtr σ /\ InfoRunId (workflowInfo w1) = GetRunId t /\ wth w1 = h
                   /\ e = None /\ nextPtr σ1 = S (nextPtr σ)
                   /\ ((workflowCache σ1 = workflowCache σ
                        /\ effects σ1 = effects σ ++ [MutexLock p]
                        /\ (disableStickyExecution h = true \/ is_Some (Query t)))
                       \/ (workflowCache σ !! GetRunId t = None
                           /\ workflowCache σ1 = <[GetRunId t := p]> (workflowCache σ)
                           /\ effects σ1
                              = effects σ ++ [CachePut (GetRunId t) p; MutexLock p]
                           /\ disableStickyExecution h = false /\ Query t = None))))
     end.
Proof.
  unfold getOrCreateWorkflowContext.
  set (isQuery := match Query t with Some _ => true | None => false end).
  set (full := isFullHistory (HistoryEvents t)).
  destruct (if negb isQuery || isQuery && negb full then getWorkflowContext σ (GetRunId t)
            else None) as [p|] eqn:Hcached.
  - assert (Hc : workflowCache σ !! GetRunId t = Some p).
    { destruct (negb isQuery || isQuery && negb full); [done|discriminate]. }
    unfold loadContext at 1. destruct (contexts σ !! p) as [w0|] eqn:Hw0; [|discriminate].
    cbn.
    assert (Hmid : forall wt : workflowExecutionContextImpl St * PollForDecisionTaskResponse
                               * option HistoryIterator,
      (if isQuery && negb full then Ret (w0, t, it)
       else match HistoryEvents t with
            | [] => Panic "index out of range"
            | first :: _ =>
                if (EventId first =? wrap64 (previousStartedEventID w0 + 1))%Z
                then Ret (w0, t, it)
                else '(w1, t1, it1, _) ← ResetIfStale w0 t it; Ret (w1, t1, it1)
            end) = Ret wt ->
      workflowInfo wt.1.1 = workflowInfo w0 /\ wth wt.1.1 = wth w0 /\ sameTask wt.1.2 t).
    { intros [[wa ta] ita]. destruct (isQuery && negb full).
      - intros [= <- <- <-]. split_and!; try done; apply sameTask_refl.
      - destruct (HistoryEvents t) as [|first rest]; [discriminate|].
        destruct (_ =? _)%Z.
        + intros [= <- <- <-]. split_and!; try done; apply sameTask_refl.
        + destruct (ResetIfStale w0 t it) as [[[[w2 t2] it2] e2]| |] eqn:Hr; try discriminate.
          apply ResetIfStale_frame in Hr as (? & ? & _ & ? & _). cbn.
          intros [= <- <- <-]. by split_and!. }
    match goal with
    | |- context [mbind _ (mbind _ ?m)] =>
        destruct m as [[[wa ta] ita]| |] eqn:Hm; try discriminate
    end.
    destruct (Hmid _ eq_refl) as (Hia & Hwa & Hsa). cbn in Hia, Hwa, Hsa. cbn.
    destruct (resetStateIfDestroyed wa ta ita) as [[[[w2 t2] it2] e2]| |] eqn:Hr;
      try discriminate.
    apply resetStateIfDestroyed_frame in Hr as (Hi2 & Hw2 & Hl2 & Hs2 & Hh2 & _). cbn.
    assert (Hsame : sameTask t2 t).
    { destruct Hs2 as (?&?&?&?&?&?&?), Hsa as (?&?&?&?&?&?&?). repeat split; congruence. }
    destruct e2 as [e2|]; cbn.
    + intros [= <- <- <- <- <-]. split_and!; try done.
      exists w2. split_and!; try done. left. exists w0. split_and!; try done; congruence.
    + unfold loadContext. cbn. rewrite lookup_insert_eq. cbn. intros [= <- <- <- <- <-]. split_and!; try done.
      exists (setLaTunnel w2 (handlerLaTunnel h)).
      split_and!; try done; [cbn; by rewrite insert_insert_eq|].
      left. exists w0. split_and!; try done; cbn; congruence.
  - assert (Hmiss : negb isQuery = true -> workflowCache σ !! GetRunId t = None).
    { intros Hq. by rewrite Hq in Hcached. }
    cbn.
    destruct (if negb full then resetHistory t it else Ret (t, it, None))
      as [[[ta ita] ea]| |] eqn:Hreset; try discriminate.
    assert (Hsa : sameTask ta t).
    { destruct (negb full).
      - by apply resetHistory_spec in Hreset as [? _].
      - injection Hreset as <- <- <-. apply sameTask_refl. }
    cbn. destruct ea as [ea|]; cbn.
    { intros [= <- <- <- <- <-]. by split_and!. }
    destruct (createWorkflowContext h ta) as [[w|e1]| |] eqn:Hcreate; try discriminate; cbn.
    2:{ intros [= <- <- <- <- <-]. by split_and!. }
    apply createWorkflowContext_spec in Hcreate
      as (Hrun & _ & _ & Hwth & Heh & _ & _ & _ & _ & _).
    assert (Hnd : isDestroyed w = false) by (unfold isDestroyed; by rewrite Heh).
    assert (Hrt : GetRunId ta = GetRunId t) by (by destruct Hsa as (?&?&?&?)).
    destruct (negb (disableStickyExecution h) && negb isQuery) eqn:Hput.
    + apply andb_true_iff in Hput as [Hsticky Hq]. specialize (Hmiss Hq).
      unfold putWorkflowContext, newContext. cbn. rewrite Hmiss. cbn.
      unfold loadContext. cbn. rewrite lookup_insert_eq. cbn.
      unfold resetStateIfDestroyed. rewrite Hnd. cbn. unfold loadContext. cbn.
      rewrite lookup_insert_eq. cbn.
      intros [= <- <- <- <- <-]. split_and!; try done.
      exists (setLaTunnel w (handlerLaTunnel h)). cbn.
      split_and!; try done; try (by rewrite !insert_insert_eq); try (by rewrite Heh).
      right. split_and!; try done; try congruence. right.
      split_and!; try done; try (by rewrite <- app_assoc);
        try (by destruct (disableStickyExecution h)).
      subst isQuery. by destruct (Query t).
    + unfold newContext. cbn. unfold loadContext. cbn. rewrite lookup_insert_eq. cbn.
      unfold resetStateIfDestroyed. rewrite Hnd. cbn. unfold loadContext. cbn.
      rewrite lookup_insert_eq. cbn.
      intros [= <- <- <- <- <-]. split_and!; try done.
      exists (setLaTunnel w (handlerLaTunnel h)). cbn.
      split_and!; try done; try (by rewrite !insert_insert_eq); try (by rewrite Heh).
      right. split_and!; try done; try congruence. left.
      split_and!; try done.
      apply andb_false_iff in Hput as [Hs|Hq].
      * left. by destruct (disableStickyExecution h).
      * right. subst isQuery. by destruct (Query t).
Qed.

Lemma normalizedTask_same (t : PollForDecisionTaskResponse) :
  sameTask (normalizedTask t) t /\ HistoryEvents (normalizedTask t) = HistoryEvents t.
Proof.
  unfold normalizedTask. destruct (HistoryEvents t) eqn:Hev; [|by rewrite Hev].
  split; [by repeat split|done].
Qed.

(** [ProcessWorkflowTask] of the task handler, step by step. *)
Lemma wth_ProcessWorkflowTask_inv (h : workflowTaskHandlerImpl) σ
    (t : PollForDecisionTaskResponse) (it : option HistoryIterator)
    σ' (resp : option response) (ctx : option nat) (e : option error) :
  wth_ProcessWorkflowTask h σ t it = Ret (σ', resp, ctx, e) ->
  (ctx = None /\ resp = None /\ σ' = σ /\ Query t = None /\ HistoryEvents t = []
   /\ e = Some (ErrorString "nil or empty history"))
  \/ (exists t1 it1 ctx1 e1,
        getOrCreateWorkflowContext h σ (normalizedTask t) it = Ret (σ', t1, it1, ctx1, Some e1)
        /\ ctx = None /\ resp = None /\ e = Some e1)
  \/ (exists σ1 t1 it1 p w1 w' tunnel',
        getOrCreateWorkflowContext h σ (normalizedTask t) it = Ret (σ1, t1, it1, Some p, None)
        /\ contexts σ1 !! p = Some w1
        /\ ProcessWorkflowTask w1 (tunnel σ1) t1 it1 = Ret (w', tunnel', resp, e)
        /\ ctx = Some p
        /\ σ' = logEffect
                  (if unlockRemoves w' e
                   then removeWorkflowContext (setTunnel (storeContext σ1 p w') tunnel')
                          (InfoRunId (workflowInfo w'))
                   else setTunnel (storeContext σ1 p w') tunnel')
                  (MutexUnlock p)).
Proof.
  unfold wth_ProcessWorkflowTask. fold (normalizedTask t).
  destruct (normalizedTask_same t) as [(_ & _ & _ & _ & _ & _ & Hq) Hev].
  assert (Hgo :
    ('(σ1, t1, it1, ctx0, e0) ← getOrCreateWorkflowContext h σ (normalizedTask t) it;
     match e0, ctx0 with
     | Some _, _ => Ret (σ1, None, None, e0)
     | None, None => Panic "nil pointer dereference"
     | None, Some p =>
         w ← loadContext σ1 p;
         '(w1, tunnel1, completeRequest, e1) ← ProcessWorkflowTask w (tunnel σ1) t1 it1;
         σ2 ← Unlock (setTunnel (storeContext σ1 p w1) tunnel1) p e1;
         Ret (σ2, completeRequest, Some p, e1)
     end) = Ret (σ', resp, ctx, e) ->
    (exists t1 it1 ctx1 e1,
        getOrCreateWorkflowContext h σ (normalizedTask t) it = Ret (σ', t1, it1, ctx1, Some e1)
        /\ ctx = None /\ resp = None /\ e = Some e1)
    \/ (exists σ1 t1 it1 p w1 w' tunnel',
        getOrCreateWorkflowContext h σ (normalizedTask t) it = Ret (σ1, t1, it1, Some p, None)
        /\ contexts σ1 !! p = Some w1
        /\ ProcessWorkflowTask w1 (tunnel σ1) t1 it1 = Ret (w', tunnel', resp, e)
        /\ ctx = Some p
        /\ σ' = logEffect
                  (if unlockRemoves w' e
                   then removeWorkflowContext (setTunnel (storeContext σ1 p w') tunnel')
                          (InfoRunId (workflowInfo w'))
                   else setTunnel (storeContext σ1 p w') tunnel')
                  (MutexUnlock p))).
  { destruct (getOrCreateWorkflowContext h σ (normalizedTask t) it)
      as [[[[[σ1 t1] it1] ctx0] e0]| |] eqn:Hg; try discriminate.
    cbn. destruct e0 as [e0|].
    { intros [= <- <- <- <-]. left. by eexists _, _, _, _. }
    destruct ctx0 as [p|]; [|discriminate].
    unfold loadContext at 1. destruct (contexts σ1 !! p) as [w1|] eqn:Hw1; [|discriminate].
    cbn.
    destruct (ProcessWorkflowTask w1 (tunnel σ1) t1 it1)
      as [[[[w' tunnel'] resp'] e']| |] eqn:Hp; try discriminate.
    cbn. unfold Unlock, loadContext. cbn. rewrite lookup_insert_eq. cbn.
    intros [= <- <- <- <-]. right. by eexists _, _, _, _, _, _, _. }
  destruct (Query (normalizedTask t)) as [q|] eqn:Hq'.
  - intros Hr. right. by apply Hgo.
  - destruct (HistoryEvents (normalizedTask t)) eqn:Hev'.
    + intros [= <- <- <- <-]. left. split_and!; try done; congruence.
    + intros Hr. right. by apply Hgo.
Qed.


(** What [ProcessWorkflowTask] of the task handler does to the world when
    it gets as far as a context. *)
Lemma wth_ProcessWorkflowTask_context (h : workflowTaskHandlerImpl) σ
    (t : PollForDecisionTaskResponse) (it : option HistoryIterator)
    σ' (resp : option response) (p : nat) (e : option error) :
  wth_ProcessWorkflowTask h σ t it = Ret (σ', resp, Some p, e) ->
  exists w1 w' (cache1 : gmap string nat) (puts dels : list effect),
    contexts σ' = <[p := w']> (contexts σ)
    /\ workflowInfo w' = workflowInfo w1 /\ wth w' = wth w1
    /\ (is_Some (eventHandler w1) -> is_Some (eventHandler w'))
    /\ (forall r, resp = Some r -> e = None /\ answers r t)
    /\ workflowCache σ'
       = (if unlockRemoves w' e then delete (InfoRunId (workflowInfo w')) cache1 else cache1)
    /\ dels = (if unlockRemoves w' e then [CacheDelete (InfoRunId (workflowInfo w'))] else [])
    /\ effects σ' = effects σ ++ puts ++ [MutexLock p] ++ dels ++ [MutexUnlock p]
    /\ ((exists w0,
           workflowCache σ !! GetRunId t = Some p /\ contexts σ !! p = Some w0
           /\ workflowInfo w1 = workflowInfo w0 /\ wth w1 = wth w0
           /\ cache1 = workflowCache σ /\ puts = [] /\ nextPtr σ' = nextPtr σ)
        \/ (p = nextPtr σ /\ InfoRunId (workflowInfo w1) = GetRunId t /\ wth w1 = h
            /\ nextPtr σ' = S (nextPtr σ)
            /\ ((cache1 = workflowCache σ /\ puts = []
                 /\ (disableStickyExecution h = true \/ is_Some (Query t)))
                \/ (workflowCache σ !! GetRunId t = None
                    /\ cache1 = <[GetRunId t := p]> (workflowCache σ)
                    /\ puts = [CachePut (GetRunId t) p]
                    /\ disableStickyExecution h = false /\ Query t = None)))).
Proof.
  intros Hr. apply wth_ProcessWorkflowTask_inv in Hr
    as [(? & _)|[(? & ? & ? & ? & _ & ? & _)
                |(σ1 & t1 & it1 & p1 & w1 & w' & tunnel' & Hg & Hw1 & Hp & [= <-] & ->)]];
    try discriminate.
  destruct (normalizedTask_same t) as [Hsame0 _].
  apply getOrCreateWorkflowContext_spec in Hg as (Hsame & _ & wa & Hc & _ & _ & Hwhich).
  rewrite Hc, lookup_insert_eq in Hw1. injection Hw1 as ->.
  apply ProcessWorkflowTask_frame in Hp as (Hi & Hw & _ & Hh & Hresp & _).
  assert (Hrun : GetRunId (normalizedTask t) = GetRunId t) by (by destruct Hsame0 as (?&?&?&?)).
  assert (Hqt : Query (normalizedTask t) = Query t)
    by (by destruct Hsame0 as (?&?&?&?&?&?&?)).
  rewrite Hrun, Hqt in Hwhich.
  exists w1, w', (workflowCache σ1),
    (if decide (workflowCache σ1 = workflowCache σ) then []
     else [CachePut (GetRunId t) p]),
    (if unlockRemoves w' e then [CacheDelete (InfoRunId (workflowInfo w'))] else []).
  split_and!; try done.
  - destruct (unlockRemoves w' e); cbn; by rewrite Hc, insert_insert_eq.
  - intros r Hr. destruct (Hresp r Hr) as (? & Hans & _). split; [done|].
    eapply answers_sameTask; [exact Hsame0|]. eapply answers_sameTask; [exact Hsame|done].
  - by destruct (unlockRemoves w' e).
  - assert (Heff : effects σ1
      = effects σ ++ (if decide (workflowCache σ1 = workflowCache σ) then []
                      else [CachePut (GetRunId t) p]) ++ [MutexLock p]).
    { destruct Hwhich as [(w0 & _ & _ & _ & _ & Hcache & _ & ->)
                         |(_ & _ & _ & _ & _ & [(Hcache & -> & _)|(Hnone & Hcache & -> & _)])].
      - by rewrite decide_True.
      - by rewrite decide_True.
      - rewrite decide_False; [done|]. intros Heq. rewrite Heq in Hcache.
        assert (Hl : workflowCache σ !! GetRunId t = Some p)
          by (rewrite Hcache; apply lookup_insert_eq).
        congruence. }
    destruct (unlockRemoves w' e); cbn; rewrite Heff, <- !app_assoc; done.
  - destruct Hwhich as [(w0 & ? & ? & ? & ? & Hcache & ? & _)
                       |(? & ? & ? & _ & ? & [(Hcache & _ & ?)|(Hnone & Hcache & _ & ? & ?)])].
    + left. exists w0. split_and!; try done.
      * by rewrite decide_True.
      * by destruct (unlockRemoves w' e).
    + right. split_and!; try done; [by destruct (unlockRemoves w' e)|].
      left. split_and!; try done. by rewrite decide_True.
    + right. split_and!; try done; [by destruct (unlockRemoves w' e)|].
      right. split_and!; try done. rewrite decide_False; [done|].
      intros Heq. rewrite Heq in Hcache.
      assert (Hl : workflowCache σ !! GetRunId t = Some p)
        by (rewrite Hcache; apply lookup_insert_eq).
      congruence.
Qed.




(** X18.  After [ProcessWorkflowTask] of the task handler the context
    returned belongs to the run of the task; the run is out of the cache
    when [Unlock] had a reason to remove it, and otherwise it is cached
    under the context returned, unless sticky execution is disabled or the
    task is a query, which leave the entry of the run as it was. *)
Theorem wth_ProcessWorkflowTask_cache_entry (h : workflowTaskHandlerImpl) σ
    (t : PollForDecisionTaskResponse) (it : option HistoryIterator)
    σ' (resp : option response) (p : nat) (e : option error) :
  world_ok σ ->
  wth_ProcessWorkflowTask h σ t it = Ret (σ', resp, Some p, e) ->
  exists w',
    contexts σ' !! p = Some w' /\ InfoRunId (workflowInfo w') = GetRunId t
    /\ (unlockRemoves w' e = true -> workflowCache σ' !! GetRunId t = None)
    /\ (unlockRemoves w' e = false ->
        workflowCache σ' !! GetRunId t = Some p
        \/ (workflowCache σ' !! GetRunId t = workflowCache σ !! GetRunId t
            /\ (disableStickyExecution h = true \/ is_Some (Query t)))).
Proof.
  intros [Hcache Hptr] Hr.
  apply wth_ProcessWorkflowTask_context in Hr
    as (w1 & w' & cache1 & puts & dels & Hc & Hi & _ & _ & _ & Hc' & _ & _ & Hwhich).
  assert (Hrun : InfoRunId (workflowInfo w') = GetRunId t).
  { rewrite Hi. destruct Hwhich as [(w0 & Hk & Hw0 & -> & _)|(_ & ? & _)]; [|done].
    destruct (Hcache _ _ Hk) as (w & Hw & ?). congruence. }
  exists w'. split_and!; try done.
  - by rewrite Hc, lookup_insert_eq.
  - intros Hu. rewrite Hc', Hu, Hrun. apply lookup_delete_eq.
  - intros Hu. rewrite Hc', Hu.
    destruct Hwhich as [(w0 & Hk & _ & _ & _ & -> & _)
                       |(_ & _ & _ & _ & [(-> & _ & ?)|(_ & -> & _)])].
    + by left.
    + by right.
    + left. apply lookup_insert_eq.
Qed.

(** X19.  A query task with a partial history finds the context of its run
    in the cache, destroyed, and the reset of the history fails:
    [ProcessWorkflowTask] of the task handler returns the error and no
    context, and the lock it took on the cached context is not released. *)
Theorem failed_history_reset_keeps_lock (h : workflowTaskHandlerImpl) σ
    (t : PollForDecisionTaskResponse) (it0 : HistoryIterator) (q : WorkflowQuery)
    (p : nat) w (e : error) :
  Query t = Some q ->
  isFullHistory (HistoryEvents t) = false ->
  workflowCache σ !! GetRunId t = Some p ->
  contexts σ !! p = Some w ->
  isDestroyed w = true ->
  (GetNextPage (Reset it0)).2 = inr e ->
  exists σ',
    wth_ProcessWorkflowTask h σ t (Some it0) = Ret (σ', None, None, Some e)
    /\ effects σ' = effects σ ++ [MutexLock p]
    /\ workflowCache σ' = workflowCache σ.
Proof.
  intros Hq Hfull Hk Hw Hd Hpage.
  destruct (normalizedTask_same t) as [(_ & _ & Hrun & _ & _ & _ & Hqn) Hev].
  unfold wth_ProcessWorkflowTask. fold (normalizedTask t). rewrite Hqn, Hq.
  unfold getOrCreateWorkflowContext. rewrite Hqn, Hq, Hev, Hfull, Hrun.
  cbn [negb orb andb]. unfold getWorkflowContext. rewrite Hk.
  unfold loadContext. rewrite Hw. cbn.
  unfold resetStateIfDestroyed. rewrite Hd, Hev, Hfull. cbn [negb].
  unfold resetHistory. destruct (GetNextPage (Reset it0)) as [it1 page].
  cbn in Hpage. subst page. cbn. eexists. by split_and!.
Qed.





End WorldExtras.

(** * Further properties of the heartbeat invoker *)

Lemma heartbeats_window_open (service : heartbeatService) (i : cadenceInvoker) (timer : Z)
    (ds : list string) (details : string) :
  hbBatchEndTimer i = Some timer ->
  heartbeats service i (ds ++ [details])
  = (mkInvoker (heartBeatTimeoutInSec i) (Some timer) (Some details), [],
     replicate (S (length ds)) None).
Proof.
  revert i. induction ds as [|d ds IH]; intros i Ht.
  - cbn [app heartbeats]. by rewrite (Heartbeat_window_open service i details timer Ht).
  - cbn [app heartbeats]. rewrite (Heartbeat_window_open service i d timer Ht).
    rewrite IH by done. done.
Qed.

(** X21.  While a batch window is open, any number of calls of [Heartbeat]
    perform nothing and return nil, and the invoker keeps the details of the
    last call. *)
Theorem Heartbeat_batches (service : heartbeatService) (i : cadenceInvoker) (timer : Z)
    (ds : list string) (details : string) :
  hbBatchEndTimer i = Some timer ->
  let '(i', performed, errors) := heartbeats service i (ds ++ [details]) in
  performed = [] /\ Forall (fun e => e = None) errors
  /\ length errors = S (length ds)
  /\ i' = mkInvoker (heartBeatTimeoutInSec i) (Some timer) (Some details).
Proof.
  intros Ht. rewrite (heartbeats_window_open service i timer ds details Ht).
  split_and!; try done.
  - apply Forall_forall. intros e He. by apply elem_of_replicate in He as [-> _].
  - by rewrite length_replicate.
Qed.

(** X22.  When the window ends after calls of [Heartbeat], the details of
    the last of them are reported, by one call of the service and no other;
    when it ends after no call, nothing is reported and the window is
    closed. *)
Theorem batchEnd_reports_last_details (service : heartbeatService) (i : cadenceInvoker)
    (timer : Z) :
  hbBatchEndTimer i = Some timer ->
  (forall ds details,
     exists i' rest,
       batchEnd service (heartbeats service i (ds ++ [details])).1.1
       = Ret (i', RecordActivityTaskHeartbeat details :: rest)
       /\ forall d, RecordActivityTaskHeartbeat d ∉ rest)
  /\ (lastDetailsToReport i = None ->
      batchEnd service i = Ret (mkInvoker (heartBeatTimeoutInSec i) None None, [])).
Proof.
  intros Ht. split.
  - intros ds details. rewrite (heartbeats_window_open service i timer ds details Ht).
    cbn [fst]. unfold batchEnd. cbn [hbBatchEndTimer lastDetailsToReport heartBeatTimeoutInSec].
    destruct (Heartbeat_window_closed service
                (mkInvoker (heartBeatTimeoutInSec i) None (Some details)) details eq_refl)
      as (i' & rest & e & Hrun & Hrest & _).
    rewrite Hrun. by exists i', rest.
  - intros Hl. unfold batchEnd. by rewrite Ht, Hl.
Qed.

(** X23.  With no window open, [Heartbeat] returns the error of
    [recordActivityHeartbeat], which is a [CanceledError] when the service
    asks to cancel; the cancel handler is called exactly on a
    [CanceledError] or an [EntityNotExistsError]; a window is opened exactly
    when there is no error or the activity is cancelled; otherwise the
    invoker is left as it was, so the next call reports again. *)
Theorem Heartbeat_result (service : heartbeatService) (i i' : cadenceInvoker)
    (details : string) (performed : list invokerEffect) (e : option error) :
  hbBatchEndTimer i = None ->
  Heartbeat service i details = (i', performed, e) ->
  e = recordActivityHeartbeat service details
  /\ (service details = (Some true, None) -> e = Some (CanceledError ""))
  /\ (CancelHandler ∈ performed <->
      (exists m, e = Some (CanceledError m)) \/ (exists m, e = Some (EntityNotExistsError m)))
  /\ (is_Some (hbBatchEndTimer i') <-> e = None \/ CancelHandler ∈ performed)
  /\ (hbBatchEndTimer i' = None -> i' = i /\ performed = [RecordActivityTaskHeartbeat details]).
Proof.
  intros Ht. unfold Heartbeat, internalHeartBeat. rewrite Ht.
  assert (Hsvc : service details = (Some true, None) ->
                 recordActivityHeartbeat service details = Some (CanceledError "")).
  { intros Hs. unfold recordActivityHeartbeat. by rewrite Hs. }
  generalize (batchWindow (heartBeatTimeoutInSec i)). intros window.
  destruct (recordActivityHeartbeat service details) as [e0|] eqn:He; [destruct e0|];
    cbn; intros [= <- <- <-]; (split; [reflexivity|]); (split; [exact Hsvc|]).
  all: split_and!; unfold is_Some; cbn;
    rewrite ?elem_of_app, ?elem_of_cons, ?elem_of_nil;
    try solve [intuition (try discriminate; try congruence; eauto);
               repeat match goal with Hx : exists _, _ |- _ => destruct Hx end;
               try discriminate; try congruence; eauto].
Qed.

(** * The theorems on the example workflow *)

Section Witnesses.
#[local] Existing Instance exampleSDK.
#[local] Existing Instance exampleHandler.

(** Scenario E4 under [FailWorkflow]: the replay schedules activity 1, the
    history has activity 2. *)
Lemma nondeterminism_policy_witness :
  exists w' decisions details,
    ProcessWorkflowTask (freshContext NonDeterministicWorkflowPolicyFailWorkflow)
      emptyTunnel otherActivityTask None
    = Ret (w', emptyTunnel,
           Some (RespondDecisionTaskCompletedRequest "token"
                   (decisions
                    ++ [mkDecision DecisionTypeFailWorkflowExecution
                          (FailWorkflowExecutionDecisionAttributes
                             "nondeterministic workflow" details)])
                   "worker" true false),
           None).
Proof.
  assert (Hreplay :
    replayTask (freshContext NonDeterministicWorkflowPolicyFailWorkflow) otherActivityTask None
    = Ret (replayedContext, false,
           ReplayDone [scheduleActivity "1" "a.b.Foo"] [activityTaskScheduled 5 "2" "x.y.Foo"]))
    by (vm_compute; reflexivity).
  assert (Hmismatch :
    matchReplayWithHistory [scheduleActivity "1" "a.b.Foo"]
      [activityTaskScheduled 5 "2" "x.y.Foo"]
    = Ret (Some (errHistoryMismatch (activityTaskScheduled 5 "2" "x.y.Foo")
                   (scheduleActivity "1" "a.b.Foo"))))
    by (vm_compute; reflexivity).
  destruct (nondeterminism_policy
              (freshContext NonDeterministicWorkflowPolicyFailWorkflow) emptyTunnel
              otherActivityTask None _ _ _ _ _ eq_refl eq_refl Hreplay Hmismatch)
    as (w' & decisions & Hrun).
  exists w', decisions,
    (errorMessage (errHistoryMismatch (activityTaskScheduled 5 "2" "x.y.Foo")
                     (scheduleActivity "1" "a.b.Foo"))).
  exact Hrun.
Defined.

(** The cached context is unlocked with a transport error: it leaves the
    cache. *)
Lemma Unlock_removes_iff_witness :
  contexts cachedWorld !! 0 = Some cachedContext
  /\ exists σ',
       Unlock cachedWorld 0 (Some (ErrorString "transport")) = Ret σ'
       /\ workflowCache σ' = delete "run-id" (workflowCache cachedWorld)
       /\ effects σ' = [CacheDelete "run-id"; MutexUnlock 0].
Proof.
  assert (Hw : contexts cachedWorld !! 0 = Some cachedContext) by (vm_compute; reflexivity).
  split; [exact Hw|].
  pose proof (Unlock_removes_iff cachedWorld 0 cachedContext
                (Some (ErrorString "transport")) Hw) as Hunlock.
  cbv zeta in Hunlock. destruct Hunlock as (σ' & Hrun & Hremove & _).
  exists σ'. split; [exact Hrun|]. apply Hremove. left. discriminate.
Defined.

(** C7.  A task handler without a local-activity tunnel processes the first
    decision task of a run: the context it caches is live (no stored error,
    not completed, not destroyed) and has no tunnel.  The eviction callback
    on that context panics at the send to the result channel: no request is
    enqueued and the state is not cleared, where the callback is to enqueue
    the request, clear the state and leave the context destroyed. *)
Lemma onEviction_without_tunnel_panics :
  exists σ w resp,
    wth_ProcessWorkflowTask tunnellessTaskHandler emptyWorld firstDecisionTask None
    = Ret (σ, Some resp, Some 0, None)
    /\ getWorkflowContext σ "run-id" = Some 0
    /\ contexts σ !! 0 = Some w
    /\ err w = None /\ isWorkflowCompleted w = false /\ isDestroyed w = false
    /\ laTunnel w = None
    /\ onEviction σ 0 = Panic "nil pointer dereference".
Proof.
  destruct (wth_ProcessWorkflowTask tunnellessTaskHandler emptyWorld firstDecisionTask None)
    as [[[[σ resp] ctx] e]| |] eqn:Hrun.
  2,3: by vm_compute in Hrun.
  vm_compute in Hrun. injection Hrun as <- <- <- <-.
  eexists _, _, _. split_and!; [reflexivity|by vm_compute..].
Qed.

(** The cached context of the examples has a tunnel and is live: its
    eviction sends the request, then clears the state. *)
Lemma onEviction_resets_live_context_witness :
  exists σ' w',
    onEviction cachedWorld 0 = Ret σ'
    /\ resultCh (tunnel σ') = [mkResetSticky "domain" "workflow-id" "run-id"]
    /\ effects σ'
       = [MutexLock 0; ResultChSend (mkResetSticky "domain" "workflow-id" "run-id");
          StateCleared 0; MutexUnlock 0]
    /\ contexts σ' !! 0 = Some w' /\ eventHandler w' = None.
Proof.
  assert (Hw : contexts cachedWorld !! 0 = Some cachedContext) by (vm_compute; reflexivity).
  pose proof (onEviction_resets_live_context cachedWorld 0 cachedContext Hw
                (ex_intro _ TheTunnel eq_refl)) as Hevict.
  cbv zeta in Hevict.
  destruct Hevict as (σ' & w' & Hrun & Hlive & _ & Hctx & Hnil & _).
  destruct (Hlive (conj eq_refl eq_refl)) as [Hch Heff].
  exists σ', w'. split_and!; done.
Defined.

(** A query task with an empty history on the cached context. *)
Lemma ResetIfStale_empty_history_witness :
  TaskHistory emptyQueryTask = Some (mkHistory [])
  /\ ResetIfStale cachedContext emptyQueryTask None
     = Ret (cachedContext, emptyQueryTask, None, None).
Proof.
  split; [reflexivity|].
  apply (ResetIfStale_empty_history cachedContext emptyQueryTask None (mkHistory []));
    reflexivity.
Defined.

(** The stale query task on the cached context: [SetCurrentTask] keeps the
    id, the pass resets it, and the cache gets no new entry. *)
Lemma query_task_isolation_witness :
  previousStartedEventID (SetCurrentTask cachedContext staleQueryTask) = 5%Z
  /\ forall σ' resp ctx e,
       wth_ProcessWorkflowTask (exampleTaskHandler NonDeterministicWorkflowPolicyFailWorkflow)
         cachedWorld staleQueryTask fullHistoryIterator = Ret (σ', resp, ctx, e) ->
       forall runID p, workflowCache σ' !! runID = Some p ->
                       workflowCache cachedWorld !! runID = Some p.
Proof.
  pose proof (query_task_isolation
    (exampleTaskHandler NonDeterministicWorkflowPolicyFailWorkflow) cachedWorld cachedContext
    emptyTunnel staleQueryTask fullHistoryIterator (mkWorkflowQuery "state" "") eq_refl)
    as (Hset & _ & Hcache).
  split; [exact Hset | exact Hcache].
Defined.

(** C8 as stated fails: the cached context has processed up to event 5; the
    query task, whose history starts at event 9, is served on it by the task
    handler, and afterwards its [previousStartedEventID] is 0. *)
Lemma stale_query_resets_previous_started :
  getWorkflowContext cachedWorld "run-id" = Some 0
  /\ previousStartedEventID <$> contexts cachedWorld !! 0 = Some 5%Z
  /\ Query staleQueryTask <> None
  /\ previousStartedAfter
       (wth_ProcessWorkflowTask (exampleTaskHandler NonDeterministicWorkflowPolicyFailWorkflow)
          cachedWorld staleQueryTask fullHistoryIterator) = Some 0%Z.
Proof. split_and!; try discriminate; vm_compute; reflexivity. Qed.

End Witnesses.

(** * The further properties on the examples *)

Section FurtherWitnesses.
#[local] Existing Instance exampleSDK.
#[local] Existing Instance exampleHandler.

(** Names the result [r] of the call [c], keeping [H : c = r]. *)
Ltac run_call c r H :=
  set (r := c); assert (H : c = r) by reflexivity; clearbody r.
(** Closes a case the call does not end in. *)
Ltac not_the_result H := exfalso; vm_compute in H; discriminate H.


Lemma isDecisionMatchEvent_strict_implies_witness :
  isDecisionMatchEvent (scheduleActivity "1" "a.b.Foo")
    (activityTaskScheduled 5 "1" "x.y.Foo") false = Ret true.
Proof.
  apply (isDecisionMatchEvent_strict_implies (scheduleActivity "1" "a.b.Foo")
           (activityTaskScheduled 5 "1" "x.y.Foo")).
  vm_compute. reflexivity.
Defined.

Lemma isDecisionMatchEvent_decision_event_witness :
  isDecisionEvent (GetEventType (activityTaskScheduled 5 "1" "x.y.Foo")) = true.
Proof.
  apply (isDecisionMatchEvent_decision_event (scheduleActivity "1" "a.b.Foo")
           (activityTaskScheduled 5 "1" "x.y.Foo") false).
  vm_compute. reflexivity.
Defined.

Lemma matchReplayWithHistory_no_panic_witness :
  exists verdict,
    matchReplayWithHistory [scheduleActivity "1" "a.b.Foo"]
      [activityTaskScheduled 5 "2" "x.y.Foo"] = Ret verdict.
Proof.
  apply (matchReplayWithHistory_no_panic [scheduleActivity "1" "a.b.Foo"]
           [activityTaskScheduled 5 "2" "x.y.Foo"]);
    repeat constructor.
Defined.

Lemma CompleteDecisionTask_responds_once_witness :
  exists w' tunnel' r,
    CompleteDecisionTask busyContext emptyTunnel true = Ret (w', tunnel', Some r)
    /\ currentDecisionTask w' = None /\ newDecisions w' = []
    /\ CompleteDecisionTask w' emptyTunnel true = Ret (w', emptyTunnel, None).
Proof.
  run_call (CompleteDecisionTask busyContext emptyTunnel true) ran Hrun.
  destruct ran as [[[w' tunnel'] [r|]]| |]; try not_the_result Hrun.
  destruct (CompleteDecisionTask_responds_once busyContext emptyTunnel true w' tunnel' r Hrun)
    as (Hc & Hn & Hagain).
  exists w', tunnel', r. split; [reflexivity|]. split; [exact Hc|]. split; [exact Hn|].
  apply Hagain.
Defined.

Lemma CompleteDecisionTask_waits_iff_witness :
  exists w' tunnel' r,
    CompleteDecisionTask busyContext emptyTunnel true = Ret (w', tunnel', Some r)
    /\ answers r firstDecisionTask.
Proof.
  run_call (CompleteDecisionTask busyContext emptyTunnel true) ran Hrun.
  destruct ran as [[[w' tunnel'] [r|]]| |]; try not_the_result Hrun.
  destruct (CompleteDecisionTask_waits_iff busyContext emptyTunnel true w' tunnel' (Some r)
              firstDecisionTask eq_refl Hrun) as (_ & _ & Hans).
  exists w', tunnel', r. split; [reflexivity|]. apply Hans. reflexivity.
Defined.

Lemma wth_completeWorkflow_closing_witness :
  (wth_completeWorkflow (exampleTaskHandler NonDeterministicWorkflowPolicyFailWorkflow)
     (mkEventHandler [] [] []) firstDecisionTask cachedContext [] true).2
  = RespondDecisionTaskCompletedRequest "token" [] "worker" true true.
Proof.
  destruct (wth_completeWorkflow_closing
              (exampleTaskHandler NonDeterministicWorkflowPolicyFailWorkflow)
              (mkEventHandler [] [] []) firstDecisionTask cachedContext [] true eq_refl)
    as [(v & st & details & He & _)|[(_ & _ & Hr)|(cd & [[e He]|Hc] & _)]];
    try discriminate.
  exact Hr.
Defined.

Lemma ResetIfStale_rebuilds_witness :
  exists w1 t1 it1,
    ResetIfStale cachedContext staleQueryTask fullHistoryIterator = Ret (w1, t1, it1, None)
    /\ eventHandler w1 = Some (mkEventHandler [] [] [])
    /\ previousStartedEventID w1 = 0%Z.
Proof.
  run_call (ResetIfStale cachedContext staleQueryTask fullHistoryIterator) ran Hrun.
  destruct ran as [[[[w1 t1] it1] [e|]]| |]; try not_the_result Hrun.
  assert (Hstale : taskIsStale cachedContext staleQueryTask) by (vm_compute; discriminate).
  destruct (ResetIfStale_rebuilds cachedContext staleQueryTask fullHistoryIterator
              w1 t1 it1 None Hstale Hrun) as (Hw1 & _).
  exists w1, t1, it1. split; [reflexivity|]. rewrite Hw1. split; reflexivity.
Defined.

Lemma ProcessWorkflowTask_answers_task_witness :
  exists w' tunnel' r e,
    ProcessWorkflowTask (freshContext NonDeterministicWorkflowPolicyFailWorkflow)
      emptyTunnel otherActivityTask None = Ret (w', tunnel', Some r, e)
    /\ e = None /\ answers r otherActivityTask /\ currentDecisionTask w' = None.
Proof.
  run_call (ProcessWorkflowTask (freshContext NonDeterministicWorkflowPolicyFailWorkflow)
              emptyTunnel otherActivityTask None) ran Hrun.
  destruct ran as [[[[w' tunnel'] [r|]] e]| |]; try not_the_result Hrun.
  destruct (ProcessWorkflowTask_answers_task _ _ _ _ _ _ _ _ Hrun) as (He & Hans & Hc & _).
  exists w', tunnel', r, e. split; [reflexivity|]. split; [exact He|]. split; assumption.
Defined.

Lemma ProcessWorkflowTask_records_started_event_witness :
  exists w' tunnel' resp e,
    ProcessWorkflowTask (freshContext NonDeterministicWorkflowPolicyFailWorkflow)
      emptyTunnel otherActivityTask None = Ret (w', tunnel', resp, e)
    /\ previousStartedEventID w' = 7%Z.
Proof.
  run_call (ProcessWorkflowTask (freshContext NonDeterministicWorkflowPolicyFailWorkflow)
              emptyTunnel otherActivityTask None) ran Hrun.
  destruct ran as [[[[w' tunnel'] resp] e]| |]; try not_the_result Hrun.
  destruct (ProcessWorkflowTask_records_started_event _ _ otherActivityTask _ _ _ _ _
              eq_refl Hrun) as [Hp|(_ & Hfull & _)]; [|discriminate Hfull].
  exists w', tunnel', resp, e. split; [reflexivity|exact Hp].
Defined.

Lemma query_errors_come_from_replay_witness :
  exists w' tunnel' resp e,
    ProcessWorkflowTask cachedContext emptyTunnel staleQueryTask (Some failingIterator)
    = Ret (w', tunnel', resp, Some e)
    /\ resp = None /\ tunnel' = emptyTunnel
    /\ exists skip,
         replayTask cachedContext staleQueryTask (Some failingIterator)
         = Ret (w', skip, ReplayError e).
Proof.
  run_call (ProcessWorkflowTask cachedContext emptyTunnel staleQueryTask
              (Some failingIterator)) ran Hrun.
  destruct ran as [[[[w' tunnel'] resp] [e|]]| |]; try not_the_result Hrun.
  destruct (query_errors_come_from_replay cachedContext emptyTunnel staleQueryTask
              (Some failingIterator) (mkWorkflowQuery "state" "") w' tunnel' resp e
              eq_refl Hrun) as (Hresp & Htun & Hreplay).
  exists w', tunnel', resp, e. split; [reflexivity|]. split; [exact Hresp|].
  split; [exact Htun|exact Hreplay].
Defined.


Lemma emptyWorld_ok : world_ok emptyWorld.
Proof.
  split.
  - intros k p Hk. exfalso. cbn in Hk. rewrite lookup_empty in Hk. discriminate Hk.
  - intros p w Hp. exfalso. cbn in Hp. rewrite lookup_empty in Hp. discriminate Hp.
Defined.



Lemma wth_ProcessWorkflowTask_cache_entry_witness :
  exists σ' resp p e w',
    wth_ProcessWorkflowTask (exampleTaskHandler NonDeterministicWorkflowPolicyFailWorkflow)
      emptyWorld firstDecisionTask None = Ret (σ', resp, Some p, e)
    /\ contexts σ' !! p = Some w' /\ InfoRunId (workflowInfo w') = "run-id".
Proof.
  run_call (wth_ProcessWorkflowTask
              (exampleTaskHandler NonDeterministicWorkflowPolicyFailWorkflow)
              emptyWorld firstDecisionTask None) ran Hrun.
  destruct ran as [[[[σ' resp] [p|]] e]| |]; try not_the_result Hrun.
  destruct (wth_ProcessWorkflowTask_cache_entry _ _ _ _ _ _ _ _ emptyWorld_ok Hrun)
    as (w' & Hw & Hr & _).
  exists σ', resp, p, e, w'. split; [reflexivity|]. split; [exact Hw|exact Hr].
Defined.

Lemma failed_history_reset_keeps_lock_witness :
  exists σ',
    wth_ProcessWorkflowTask (exampleTaskHandler NonDeterministicWorkflowPolicyFailWorkflow)
      destroyedWorld staleQueryTask (Some failingIterator)
    = Ret (σ', None, None, Some (ErrorString "transport"))
    /\ effects σ' = effects destroyedWorld ++ [MutexLock 0]
    /\ workflowCache σ' = workflowCache destroyedWorld.
Proof.
  assert (Hk : workflowCache destroyedWorld !! GetRunId staleQueryTask = Some 0)
    by (vm_compute; reflexivity).
  assert (Hw : contexts destroyedWorld !! 0 = Some (clearState cachedContext))
    by (vm_compute; reflexivity).
  exact (failed_history_reset_keeps_lock
           (exampleTaskHandler NonDeterministicWorkflowPolicyFailWorkflow) destroyedWorld
           staleQueryTask failingIterator (mkWorkflowQuery "state" "") 0
           (clearState cachedContext) (ErrorString "transport")
           eq_refl eq_refl Hk Hw eq_refl eq_refl).
Defined.

Lemma Heartbeat_batches_witness :
  let '(i', performed, errors) :=
    heartbeats okService (mkInvoker 10 (Some 8000000000%Z) None) (["a"; "b"] ++ ["c"]) in
  performed = [] /\ Forall (fun e => e = None) errors /\ length errors = 3
  /\ i' = mkInvoker 10 (Some 8000000000%Z) (Some "c").
Proof.
  exact (Heartbeat_batches okService (mkInvoker 10 (Some 8000000000%Z) None) 8000000000
           ["a"; "b"] "c" eq_refl).
Defined.

Lemma batchEnd_reports_last_details_witness :
  exists i' rest,
    batchEnd okService
      (heartbeats okService (mkInvoker 10 (Some 8000000000%Z) None) (["a"; "b"] ++ ["c"])).1.1
    = Ret (i', RecordActivityTaskHeartbeat "c" :: rest)
    /\ forall d, RecordActivityTaskHeartbeat d ∉ rest.
Proof.
  exact (proj1 (batchEnd_reports_last_details okService
                  (mkInvoker 10 (Some 8000000000%Z) None) 8000000000 eq_refl)
           ["a"; "b"] "c").
Defined.

Lemma Heartbeat_result_witness :
  exists i' performed e,
    Heartbeat okService (mkInvoker 10 None None) "progress" = (i', performed, e)
    /\ e = None /\ is_Some (hbBatchEndTimer i').
Proof.
  run_call (Heartbeat okService (mkInvoker 10 None None) "progress") ran Hrun.
  destruct ran as [[i' performed] e].
  destruct (Heartbeat_result okService (mkInvoker 10 None None) i' "progress" performed e
              eq_refl Hrun) as (He & _ & _ & Hopen & _).
  assert (Hnone : e = None) by (rewrite He; reflexivity).
  exists i', performed, e. split; [reflexivity|]. split; [exact Hnone|].
  apply Hopen. left. exact Hnone.
Defined.

End FurtherWitnesses.
